(** * GlobalITZone backend: request handlers of the users, products and
      bookings controllers, embedded as functions over an explicit store.

    Each handler of [controllers/*.js] becomes a function from the request
    (acting user, route parameter, body or query, uploaded files) and the
    collections it reads to a response and the collections it leaves behind.
    MongoDB collections are lists of documents in insertion order; request
    bodies and query strings are finite maps from keys to JavaScript values. *)

From Stdlib Require Import Floats.PrimFloat ZArith Ascii String Sorting.Sorted Permutation.
From stdpp Require Import base gmap strings list sorting.

Local Open Scope string_scope.
Local Set Warnings "-register-all".

(** ** JavaScript values and the string functions the controllers call *)

Module JS.

(** Values found in parsed request bodies and query strings. Numbers are
    IEEE doubles, as in the language. *)
Inductive jsval : Type :=
| JUndefined
| JNull
| JBool (b : bool)
| JNum (x : float)
| JStr (s : string)
| JArr (xs : list jsval)
| JObj (kvs : list (string * jsval)).

(** ToBoolean: [undefined], [null], [false], [0], [-0], [NaN] and the empty
    string are falsy, everything else (every array and object) is truthy. *)
Definition truthy (v : jsval) : bool :=
  match v with
  | JUndefined | JNull => false
  | JBool b => b
  | JNum x => negb (PrimFloat.eqb x 0 || PrimFloat.is_nan x)
  | JStr s => negb (String.eqb s "")
  | JArr _ | JObj _ => true
  end.

(** [a || b] *)
Definition js_or (a b : jsval) : jsval := if truthy a then a else b.

(** [a === b] on primitives; two array or object values met in different
    places are never the same object. *)
Definition strict_eq (a b : jsval) : bool :=
  match a, b with
  | JUndefined, JUndefined | JNull, JNull => true
  | JBool x, JBool y => Bool.eqb x y
  | JNum x, JNum y => PrimFloat.eqb x y
  | JStr x, JStr y => String.eqb x y
  | _, _ => false
  end.

(** A property read [o.k] on a parsed object: a missing key reads as
    [undefined]. *)
Definition get (o : gmap string jsval) (k : string) : jsval :=
  default JUndefined (o !! k).

(** [typeof v !== 'undefined'] *)
Definition defined (v : jsval) : bool :=
  match v with JUndefined => false | _ => true end.

(** [Array.isArray(v)] *)
Definition isArray (v : jsval) : bool :=
  match v with JArr _ => true | _ => false end.

(** *** Strings. A string is the sequence of its bytes. On a string of
    ASCII characters the case mapping and the white space of the language are
    the ones written out here; on any other string they are those of the
    platform's Unicode tables, which the runtime below supplies. *)

Definition is_space (c : ascii) : bool :=
  let n := nat_of_ascii c in
  (Nat.leb 9 n && Nat.leb n 13) || Nat.eqb n 32.

Definition lower_char (c : ascii) : ascii :=
  let n := nat_of_ascii c in
  if Nat.leb 65 n && Nat.leb n 90 then ascii_of_nat (n + 32) else c.

Definition is_ascii (c : ascii) : bool := Nat.ltb (nat_of_ascii c) 128.

(** Does the string hold ASCII characters only. *)
Fixpoint ascii_only (s : string) : bool :=
  match s with
  | EmptyString => true
  | String c s' => is_ascii c && ascii_only s'
  end.

(** The letters [A] to [Z] in lower case. *)
Fixpoint lower (s : string) : string :=
  match s with
  | EmptyString => EmptyString
  | String c s' => String (lower_char c) (lower s')
  end.

Fixpoint trimStart (s : string) : string :=
  match s with
  | EmptyString => EmptyString
  | String c s' => if is_space c then trimStart s' else s
  end.

Fixpoint trimEnd (s : string) : string :=
  match s with
  | EmptyString => EmptyString
  | String c s' =>
      match trimEnd s' with
      | EmptyString => if is_space c then EmptyString else String c EmptyString
      | t => String c t
      end
  end.

(** What the handlers take from the platform and the database driver
    rather than compute themselves. *)
Record Runtime : Type := {
  (** [String(x)] for a number [x] *)
  Number_toString : float -> string;
  (** [Number(v)] *)
  toNumber : jsval -> float;
  (** [JSON.parse(s)], [None] when it throws *)
  JSON_parse : string -> option jsval;
  (** does the value match [{ $regex: pattern, $options: 'i' }] *)
  regex_i : jsval -> jsval -> bool;
  (** [s.toLowerCase()] and [s.trim()] for a string [s] that holds a
      character outside the ASCII range *)
  String_toLowerCase : string -> string;
  String_trim : string -> string;
}.

(** [s.toLowerCase()] *)
Definition toLowerCase (rt : Runtime) (s : string) : string :=
  if ascii_only s then lower s else String_toLowerCase rt s.

(** [s.trim()] *)
Definition trim (rt : Runtime) (s : string) : string :=
  if ascii_only s then trimEnd (trimStart s) else String_trim rt s.

(** [s.split(',')]: always at least one piece, [''.split(',')] is [['']]. *)
Fixpoint split_comma (s : string) : list string :=
  match s with
  | EmptyString => [EmptyString]
  | String c s' =>
      if Ascii.eqb c "," then EmptyString :: split_comma s'
      else match split_comma s' with
           | [] => [String c EmptyString]
           | w :: ws => String c w :: ws
           end
  end.

(** [xs.join(sep)] on an array of strings *)
Fixpoint join (sep : string) (xs : list string) : string :=
  match xs with
  | [] => EmptyString
  | [x] => x
  | x :: rest => x ++ sep ++ join sep rest
  end.

Fixpoint comma_free (s : string) : bool :=
  match s with
  | EmptyString => true
  | String c s' => negb (Ascii.eqb c ",") && comma_free s'
  end.

(** An element that a comma-delimited string can carry unchanged: not
    empty, without a comma, without white space at its ends. *)
Definition plain (rt : Runtime) (s : string) : Prop :=
  s <> EmptyString /\ comma_free s = true /\ trim rt s = s.

(** [xs.filter(Boolean)] on an array of strings drops the empty ones. *)
Definition filter_Boolean (xs : list string) : list string :=
  List.filter (fun s => negb (String.eqb s "")) xs.

(** An array of strings as a value. *)
Definition strings (xs : list string) : jsval := JArr (JStr <$> xs).

(** [String(v)]: an array prints its elements separated by commas, with
    [null] and [undefined] elements printed empty. *)
Fixpoint toString (rt : Runtime) (v : jsval) : string :=
  match v with
  | JUndefined => "undefined"
  | JNull => "null"
  | JBool true => "true"
  | JBool false => "false"
  | JNum x => Number_toString rt x
  | JStr s => s
  | JArr xs =>
      join "," ((fun x => match x with
                          | JUndefined | JNull => EmptyString
                          | _ => toString rt x
                          end) <$> xs)
  | JObj _ => "[object Object]"
  end.

(** The 24-digit hexadecimal form of an ObjectId, which
    [mongoose.isValidObjectId] accepts and [findById] can cast. *)
Definition is_hex (c : ascii) : bool :=
  let n := nat_of_ascii c in
  (Nat.leb 48 n && Nat.leb n 57) || (Nat.leb 97 n && Nat.leb n 102)
  || (Nat.leb 65 n && Nat.leb n 70).

Definition isValidObjectId (id : string) : bool :=
  Nat.eqb (String.length id) 24 && forallb is_hex (list_ascii_of_string id).

(** The ObjectId that a string of 24 hexadecimal digits is cast to, written
    as [toString()] prints it and as the documents carry it: with its digits
    in lower case. Two spellings of the same digits are the same ObjectId. *)
Definition ObjectId (id : string) : string := lower id.

(** A handler either sends a JSON payload with a status ([res.json],
    [res.status(c).json]) or an error message with a status. *)
Inductive response (A : Type) : Type :=
| Json (code : nat) (payload : A)
| Fail (code : nat) (message : string).
Arguments Json {A} code payload.
Arguments Fail {A} code message.

(** The user [authenticateToken] attached to the request. *)
Record Caller : Type := { caller_id : string; caller_role : string }.

End JS.

Import JS.

(** Sorting a cursor by one date key, newest first ([{ key: -1 }]). *)
Definition newer_first {A : Type} (key : A -> Z) (a b : A) : Prop :=
  (key b <= key a)%Z.

#[global] Instance newer_first_dec {A : Type} (key : A -> Z) (a b : A) :
  Decision (newer_first key a b) := Z_le_dec (key b) (key a).

Definition sort_desc {A : Type} (key : A -> Z) (l : list A) : list A :=
  merge_sort (newer_first key) l.

(** [Math.ceil(n / l)] on a count and a positive page size. *)
Definition ceil_div (n l : nat) : nat :=
  n / l + (if Nat.eqb (n mod l) 0 then 0 else 1).

(** What a page of a cursor [S] owes its caller, for the 1-indexed page [p]
    and the page size [l]: the page number, the number of pages as the ceiling
    of the count over the page size, the two flags, and the items as the
    records of [S] at the positions [(p-1)*l+1] to [min(p*l, n)]. *)
Definition page_contract {A : Type} (S : list A) (p l : nat) (items : list A)
    (currentPage totalPages : nat) (hasNextPage hasPrevPage : bool) : Prop :=
  let n := length S in
  currentPage = p
  /\ (n <= totalPages * l < n + l)
  /\ (forall k, totalPages <= k <-> n <= k * l)
  /\ (hasPrevPage = true <-> 1 < p)
  /\ (hasNextPage = true <-> drop (p * l) S <> [])
  /\ items = take l (drop ((p - 1) * l) S)
  /\ length items = min (p * l) n - (p - 1) * l
  /\ forall i, i < length items -> items !! i = S !! ((p - 1) * l + i).

(** ** controllers/productsController.js *)

Module Products.

(** An uploaded file as the storage middleware leaves it in [req.files]. *)
Record File : Type := {
  path : jsval;
  secure_url : jsval;
  filename : jsval;
  public_id : jsval;
}.

(** A file the storage middleware has uploaded carries a URL and an
    identifier. *)
Definition uploaded (f : File) : Prop :=
  truthy (js_or (path f) (secure_url f)) = true
  /\ truthy (js_or (filename f) (public_id f)) = true.

(** A product document. The keys a request body can write
    ([name] ... [isActive]) are kept as the object they are in the source;
    the arrays of images and the bookkeeping fields are typed. *)
Record Product : Type := {
  _id : string;
  fields : gmap string jsval;
  images : list jsval;
  imagePublicIds : list jsval;
  views : Z;
  likes : Z;
  createdBy : string;
  createdAt : Z;
}.

(** [product.key] *)
Definition field (p : Product) (key : string) : jsval := get (fields p) key.

(** The parts of the query cursor that the database decides: the text index
    behind [$text] and the ordering for a caller-chosen sort. *)
Record Driver : Type := {
  text_search : jsval -> Product -> bool;
  cursor_sort : jsval -> list Product -> list Product;
}.

Record PriceRange : Type := { gte : option float; lte : option float }.

(** The filter object [buildFilter] returns. *)
Record Filter : Type := {
  f_isActive : bool;
  f_category : option jsval;
  f_condition : option jsval;
  f_type : option jsval;
  f_availability : option jsval;
  f_price : option PriceRange;
  f_text : option jsval;
  f_tags : option (list jsval);
}.

(** The array put under [filter.tags.$in]. *)
Definition filterTags (rt : Runtime) (tags : jsval) : list jsval :=
  match tags with
  | JArr arr => arr
  | _ => JStr <$> ((fun s => toLowerCase rt (trim rt s)) <$> split_comma (toString rt tags))
  end.

Definition when (v : jsval) : option jsval := if truthy v then Some v else None.

Definition buildFilter (rt : Runtime) (q : gmap string jsval) : Filter :=
  let isActive := get q "isActive" in
  let minPrice := get q "minPrice" in
  let maxPrice := get q "maxPrice" in
  let tags := get q "tags" in
  {| f_isActive :=
       if defined isActive
       then strict_eq isActive (JStr "true") || strict_eq isActive (JBool true)
       else true;
     f_category := when (get q "category");
     f_condition := when (get q "condition");
     f_type := when (get q "type");
     f_availability := when (get q "availability");
     f_price :=
       if truthy minPrice || truthy maxPrice
       then Some {| gte := if truthy minPrice then Some (toNumber rt minPrice) else None;
                    lte := if truthy maxPrice then Some (toNumber rt maxPrice) else None |}
       else None;
     f_text := when (get q "search");
     f_tags := if truthy tags then Some (filterTags rt tags) else None |}.

(** Does a stored value satisfy an equality criterion of the filter. *)
Definition eq_match (crit : option jsval) (v : jsval) : bool :=
  match crit with
  | None => true
  | Some c => strict_eq v c
  end.

Definition price_match (r : option PriceRange) (v : jsval) : bool :=
  match r with
  | None => true
  | Some r =>
      match v with
      | JNum x =>
          match gte r with Some g => PrimFloat.leb g x | None => true end
          && match lte r with Some l => PrimFloat.leb x l | None => true end
      | _ => false
      end
  end.

Definition tags_match (crit : option (list jsval)) (v : jsval) : bool :=
  match crit with
  | None => true
  | Some arr =>
      match v with
      | JArr ts => existsb (fun t => existsb (strict_eq t) arr) ts
      | t => existsb (strict_eq t) arr
      end
  end.

(** The criteria of a filter other than [isActive]. *)
Definition criteria (drv : Driver) (f : Filter) (p : Product) : bool :=
  eq_match (f_category f) (field p "category")
  && eq_match (f_condition f) (field p "condition")
  && eq_match (f_type f) (field p "type")
  && eq_match (f_availability f) (field p "availability")
  && price_match (f_price f) (field p "price")
  && match f_text f with None => true | Some s => text_search drv s p end
  && tags_match (f_tags f) (field p "tags").

(** [Product.find(filter)] keeps the documents satisfying every criterion. *)
Definition matches (drv : Driver) (f : Filter) (p : Product) : bool :=
  strict_eq (field p "isActive") (JBool (f_isActive f)) && criteria drv f p.

Definition find (drv : Driver) (f : Filter) (db : list Product) : list Product :=
  List.filter (matches drv f) db.

(** [.sort(sort)]: the default ['-createdAt'] puts the newest first. *)
Definition sorted (drv : Driver) (sort : jsval) (l : list Product) : list Product :=
  if strict_eq sort (JStr "-createdAt") then sort_desc createdAt l
  else cursor_sort drv sort l.

(** [sort = '-createdAt'] when the query names no sort. *)
Definition sort_of (query : gmap string jsval) : jsval :=
  match get query "sort" with JUndefined => JStr "-createdAt" | s => s end.

(** [Product.find(filter).sort(sort)], the documents a listing pages over. *)
Definition cursor (rt : Runtime) (drv : Driver) (query : gmap string jsval)
    (db : list Product) : list Product :=
  sorted drv (sort_of query) (find drv (buildFilter rt query) db).

Record Pagination : Type := {
  currentPage : nat;
  totalPages : nat;
  totalItems : nat;
  hasNextPage : bool;
  hasPrevPage : bool;
}.

(** A listed document, with the projection [.select(select)] asked for. *)
Record Projected : Type := { select : option string; doc : Product }.

Record Listing : Type := { products : list Projected; pagination : Pagination }.

(** GET /api/products. [page] and [limit] are [parseInt] of the query
    parameters of those names, [None] when the parameter is absent; the
    route declares both as integers from 1. *)
Definition listProducts (rt : Runtime) (drv : Driver) (query : gmap string jsval)
    (page limit : option positive) (db : list Product) : response Listing :=
  let page := Pos.to_nat (default 1%positive page) in
  let limit := Pos.to_nat (default 12%positive limit) in
  let fields := get query "fields" in
  let filter := buildFilter rt query in
  match (if truthy fields
         then match fields with
              | JStr s => Some (Some (join " " (split_comma s)))
              | _ => None
              end
         else Some None) with
  | None => Fail 500 "Failed to fetch products"
  | Some select =>
      let skip := (page - 1) * limit in
      let items := take limit (drop skip (cursor rt drv query db)) in
      let total := length (find drv filter db) in
      Json 200
        {| products := (fun d => {| select := select; doc := d |}) <$> items;
           pagination :=
             {| currentPage := page;
                totalPages := ceil_div total limit;
                totalItems := total;
                hasNextPage := Nat.ltb (page * limit) total;
                hasPrevPage := Nat.ltb 1 page |} |}
  end.

(** A comma-delimited [features] string: split, each piece trimmed, empty
    pieces dropped. *)
Definition splitFeatures (rt : Runtime) (s : string) : jsval :=
  strings (filter_Boolean (trim rt <$> split_comma s)).

(** A comma-delimited [tags] string: as above, and lowercased. *)
Definition splitTags (rt : Runtime) (s : string) : jsval :=
  strings (filter_Boolean ((fun s => toLowerCase rt (trim rt s)) <$> split_comma s)).

(** The value stored under [features] by a creation: an array as it is,
    anything else printed and split. *)
Definition createFeatures (rt : Runtime) (features : jsval) : jsval :=
  if isArray features then features else splitFeatures rt (toString rt features).

(** The value stored under [tags] by a creation. *)
Definition createTags (rt : Runtime) (tags : jsval) : jsval :=
  if isArray tags then tags else splitTags rt (toString rt tags).

(** Modelled from the spec: the schema of [models/Product.js], which is not
    among the sources. [Product.create] stores the given keys under a fresh
    id with the creation time, [isActive] defaulting to true and the [views]
    and [likes] counters to 0. What the schema may refuse or cast on the way
    is left out. *)
Definition Product_create (newId : string) (now : Z) (given : gmap string jsval)
    (images imagePublicIds : list jsval) (createdBy : string) : Product :=
  {| _id := newId;
     fields := <["isActive" := JBool true]> given;
     images := images;
     imagePublicIds := imagePublicIds;
     views := 0;
     likes := 0;
     createdBy := createdBy;
     createdAt := now |}.

(** POST /api/products. [newId] and [now] are the id and the time the
    database gives the new document. *)
Definition createProduct (rt : Runtime) (user : Caller) (body : gmap string jsval)
    (files : list File) (newId : string) (now : Z) (db : list Product)
    : response Product * list Product :=
  let features := match get body "features" with JUndefined => JArr [] | v => v end in
  let specifications := match get body "specifications" with JUndefined => JObj [] | v => v end in
  let tags := match get body "tags" with JUndefined => JArr [] | v => v end in
  if Nat.eqb (length files) 0 then (Fail 400 "At least one image is required", db)
  else
    let images := List.filter truthy ((fun f => js_or (path f) (secure_url f)) <$> files) in
    let imagePublicIds := List.filter truthy ((fun f => js_or (filename f) (public_id f)) <$> files) in
    match (match specifications with JStr s => JSON_parse rt s | v => Some v end) with
    | None => (Fail 500 "Failed to create product", db)
    | Some specs =>
        let product :=
          Product_create newId now
            (list_to_map
               [("name", get body "name");
                ("description", get body "description");
                ("category", get body "category");
                ("condition", get body "condition");
                ("type", get body "type");
                ("availability", js_or (get body "availability") (JStr "Available"));
                ("features", createFeatures rt features);
                ("price", get body "price");
                ("originalPrice", get body "originalPrice");
                ("discount", get body "discount");
                ("stock", get body "stock");
                ("specifications", specs);
                ("tags", createTags rt tags)])
            images imagePublicIds (caller_id user) in
        (Json 201 product, (db ++ [product])%list)
    end.

(** [Product.findById(id)]. [id] is the ObjectId that the route parameter is
    cast to: the handlers of the products use the parameter for this lookup
    and for nothing else, so that a parameter in another letter case stands
    for the ObjectId of its digits. *)
Definition findById (id : string) (db : list Product) : option Product :=
  List.find (fun p => String.eqb (_id p) id) db.

(** [product.save()]: the stored document with that id is replaced. *)
Definition save (p : Product) (db : list Product) : list Product :=
  (fun x => if String.eqb (_id x) (_id p) then p else x) <$> db.

(** The value an update takes for [features] and [tags]: a string is
    split, anything else is taken as it is. *)
Definition updateFeatures (rt : Runtime) (v : jsval) : jsval :=
  match v with JStr s => splitFeatures rt s | _ => v end.

Definition updateTags (rt : Runtime) (v : jsval) : jsval :=
  match v with JStr s => splitTags rt s | _ => v end.

Definition mutable : list string :=
  ["name"; "description"; "category"; "condition"; "type"; "availability"; "features";
   "price"; "originalPrice"; "discount"; "stock"; "specifications"; "tags"; "isActive"].

(** [for (const key of mutable) if (typeof body[key] !== 'undefined') product[key] = body[key]] *)
Definition assign (body : gmap string jsval) (p : gmap string jsval) : gmap string jsval :=
  foldl (fun acc key => if defined (get body key) then <[key := get body key]> acc else acc)
        p mutable.

(** The body of an update after its delimited strings and its JSON text
    are parsed: [features] and [tags] when they are strings, and
    [specifications] when it is a string that parses. *)
Definition parseFeatures (rt : Runtime) (body : gmap string jsval) : gmap string jsval :=
  match get body "features" with
  | JStr _ => <["features" := updateFeatures rt (get body "features")]> body
  | _ => body
  end.

Definition parseTags (rt : Runtime) (body : gmap string jsval) : gmap string jsval :=
  match get body "tags" with
  | JStr _ => <["tags" := updateTags rt (get body "tags")]> body
  | _ => body
  end.

Definition parseSpecifications (rt : Runtime) (body : gmap string jsval)
    : gmap string jsval :=
  match get body "specifications" with
  | JStr s => match JSON_parse rt s with
              | Some v => <["specifications" := v]> body
              | None => body
              end
  | _ => body
  end.

(** The removal of images: the identifiers named by [removePublicIds] leave
    [imagePublicIds]. The deletions asked of the image storage have no effect
    on the collection and their failures are ignored. *)
Definition removeImages (rt : Runtime) (body : gmap string jsval) (product : Product)
    : Product :=
  if truthy (get body "removePublicIds") then
    let removePublicIds :=
      match get body "removePublicIds" with
      | JArr arr => arr
      | v => JStr <$> (trim rt <$> split_comma (toString rt v))
      end in
    {| _id := _id product; fields := fields product; images := images product;
       imagePublicIds :=
         List.filter (fun pid => negb (existsb (strict_eq pid) removePublicIds))
                     (imagePublicIds product);
       views := views product; likes := likes product;
       createdBy := createdBy product; createdAt := createdAt product |}
  else product.

(** The new uploads: their URLs and identifiers are appended. *)
Definition addImages (files : list File) (product : Product) : Product :=
  if Nat.eqb (length files) 0 then product
  else
    let newUrls := List.filter truthy ((fun f => js_or (path f) (secure_url f)) <$> files) in
    let newIds := List.filter truthy ((fun f => js_or (filename f) (public_id f)) <$> files) in
    {| _id := _id product; fields := fields product;
       images := (images product ++ newUrls)%list;
       imagePublicIds := (imagePublicIds product ++ newIds)%list;
       views := views product; likes := likes product;
       createdBy := createdBy product; createdAt := createdAt product |}.

(** The other fields: the keys of [mutable] that the body defines. *)
Definition assignMutable (body : gmap string jsval) (product : Product) : Product :=
  {| _id := _id product; fields := assign body (fields product);
     images := images product; imagePublicIds := imagePublicIds product;
     views := views product; likes := likes product;
     createdBy := createdBy product; createdAt := createdAt product |}.

(** PUT /api/products/:id *)
Definition updateProduct (rt : Runtime) (id : string) (body0 : gmap string jsval)
    (files : list File) (db : list Product) : response Product * list Product :=
  if negb (isValidObjectId id) then (Fail 400 "Invalid product ID", db)
  else match findById id db with
  | None => (Fail 404 "Product not found", db)
  | Some product =>
      let body := parseSpecifications rt (parseTags rt (parseFeatures rt body0)) in
      let product := assignMutable body (addImages files (removeImages rt body product)) in
      (Json 200 product, save product db)
  end.

(** [product.isActive = false; product.availability = 'Discontinued'] *)
Definition discontinue (product : Product) : Product :=
  {| _id := _id product;
     fields := <["availability" := JStr "Discontinued"]>
                 (<["isActive" := JBool false]> (fields product));
     images := images product; imagePublicIds := imagePublicIds product;
     views := views product; likes := likes product;
     createdBy := createdBy product; createdAt := createdAt product |}.

(** DELETE /api/products/:id, a soft delete. *)
Definition deleteProduct (id : string) (db : list Product) : response unit * list Product :=
  if negb (isValidObjectId id) then (Fail 400 "Invalid product ID", db)
  else match findById id db with
  | None => (Fail 404 "Product not found", db)
  | Some product => (Json 200 tt, save (discontinue product) db)
  end.

End Products.

(** ** controllers/bookingsController.js *)

Module Bookings.

(** A booking document: the keys the controller writes, and the date of the
    order, which the list is sorted on. *)
Record Booking : Type := {
  _id : string;
  productId : jsval;
  productName : jsval;
  productImage : jsval;
  productCategory : jsval;
  userId : string;
  customerName : jsval;
  customerPhone : jsval;
  customerAddress : jsval;
  quantity : jsval;
  bookingDate : jsval;
  actualPrice : jsval;
  strikePrice : jsval;
  sellingPrice : jsval;
  totalAmount : jsval;
  discountPercentage : jsval;
  status : string;
  cancellationReason : jsval;
  orderDate : Z;
}.

(** Modelled from the spec: the schema of [models/Booking.js], which is not
    among the sources. [Booking.create] stores the given document under a
    fresh id, stamped with the date the booking is placed; that date is the
    [orderDate] key the list of bookings is sorted on. What the schema may
    refuse or cast on the way is left out. *)
Definition Booking_create (newId : string) (now : Z) (given : Booking) : Booking :=
  {| _id := newId; productId := productId given; productName := productName given;
     productImage := productImage given; productCategory := productCategory given;
     userId := userId given; customerName := customerName given;
     customerPhone := customerPhone given; customerAddress := customerAddress given;
     quantity := quantity given; bookingDate := bookingDate given;
     actualPrice := actualPrice given; strikePrice := strikePrice given;
     sellingPrice := sellingPrice given; totalAmount := totalAmount given;
     discountPercentage := discountPercentage given; status := status given;
     cancellationReason := cancellationReason given; orderDate := now |}.

(** Modelled from the spec: the method [updateStatus] of the booking model,
    which is not among the sources, moves the booking to the given status. *)
Definition updateStatus (newStatus : string) (b : Booking) : Booking :=
  {| _id := _id b; productId := productId b; productName := productName b;
     productImage := productImage b; productCategory := productCategory b;
     userId := userId b; customerName := customerName b;
     customerPhone := customerPhone b; customerAddress := customerAddress b;
     quantity := quantity b; bookingDate := bookingDate b;
     actualPrice := actualPrice b; strikePrice := strikePrice b;
     sellingPrice := sellingPrice b; totalAmount := totalAmount b;
     discountPercentage := discountPercentage b; status := newStatus;
     cancellationReason := cancellationReason b; orderDate := orderDate b |}.

(** [booking.cancellationReason = reason] *)
Definition set_cancellationReason (reason : jsval) (b : Booking) : Booking :=
  {| _id := _id b; productId := productId b; productName := productName b;
     productImage := productImage b; productCategory := productCategory b;
     userId := userId b; customerName := customerName b;
     customerPhone := customerPhone b; customerAddress := customerAddress b;
     quantity := quantity b; bookingDate := bookingDate b;
     actualPrice := actualPrice b; strikePrice := strikePrice b;
     sellingPrice := sellingPrice b; totalAmount := totalAmount b;
     discountPercentage := discountPercentage b; status := status b;
     cancellationReason := reason; orderDate := orderDate b |}.

(** [findById] casts its argument to an ObjectId and throws a CastError
    when it cannot. *)
Definition castObjectId (v : jsval) : option string :=
  match v with
  | JStr s => if isValidObjectId s then Some s else None
  | _ => None
  end.

(** [Booking.findById(id)], by the ObjectId that the route parameter is cast
    to, as for the products. *)
Definition findById (id : string) (db : list Booking) : option Booking :=
  List.find (fun b => String.eqb (_id b) id) db.

Definition save (b : Booking) (db : list Booking) : list Booking :=
  (fun x => if String.eqb (_id x) (_id b) then b else x) <$> db.

(** POST /api/bookings *)
Definition createBooking (user : Caller) (body : gmap string jsval)
    (newId : string) (now : Z)
    (products : list Products.Product) (bookings : list Booking)
    : response Booking * list Booking :=
  let productId := get body "productId" in
  let customerName := get body "customerName" in
  let customerPhone := get body "customerPhone" in
  let customerAddress := get body "customerAddress" in
  let quantity := get body "quantity" in
  let bookingDate := get body "bookingDate" in
  if negb (truthy productId) || negb (truthy customerName) || negb (truthy customerPhone)
     || negb (truthy customerAddress) || negb (truthy quantity) || negb (truthy bookingDate)
  then (Fail 400 "Please provide all required fields", bookings)
  else match castObjectId productId with
  | None => (Fail 500 "Failed to create booking", bookings)
  | Some pid =>
      match Products.findById pid products with
      | None => (Fail 404 "Product not found", bookings)
      | Some product =>
          if negb (strict_eq (Products.field product "availability") (JStr "Available"))
          then (Fail 400 "Product is not available for booking", bookings)
          else
            let booking :=
              Booking_create newId now
                {| _id := newId;
                   productId := productId;
                   productName := get body "productName";
                   productImage := get body "productImage";
                   productCategory := get body "productCategory";
                   userId := caller_id user;
                   customerName := customerName;
                   customerPhone := customerPhone;
                   customerAddress := customerAddress;
                   quantity := quantity;
                   bookingDate := bookingDate;
                   actualPrice := js_or (get body "actualPrice") (JNum 0);
                   strikePrice := js_or (get body "strikePrice") (JNum 0);
                   sellingPrice := js_or (get body "sellingPrice") (JNum 0);
                   totalAmount := js_or (get body "totalAmount") (JNum 0);
                   discountPercentage := js_or (get body "discountPercentage") (JNum 0);
                   status := "confirmed";
                   cancellationReason := JUndefined;
                   orderDate := now |} in
            (Json 201 booking, (bookings ++ [booking])%list)
      end
  end.

(** GET /api/bookings. The references are returned as stored; the
    population of [productId] and [userId] changes neither the set nor the
    order of the bookings. *)
Definition getBookings (user : Caller) (db : list Booking) : response (list Booking) :=
  let bookings :=
    if String.eqb (caller_role user) "admin"
    then sort_desc orderDate db
    else sort_desc orderDate
           (List.filter (fun b => String.eqb (userId b) (caller_id user)) db) in
  Json 200 bookings.

(** PATCH /api/bookings/:id/cancel *)
Definition cancelBooking (user : Caller) (id : string) (body : gmap string jsval)
    (db : list Booking) : response Booking * list Booking :=
  if negb (isValidObjectId id) then (Fail 500 "Failed to cancel booking", db)
  else match findById id db with
  | None => (Fail 404 "Booking not found", db)
  | Some booking =>
      let isAdmin := String.eqb (caller_role user) "admin" in
      let isOwner := String.eqb (userId booking) (caller_id user) in
      if negb isAdmin && negb isOwner
      then (Fail 403 "Not authorized to cancel this booking", db)
      else if String.eqb (status booking) "cancelled"
      then (Fail 400 "Booking is already cancelled", db)
      else if String.eqb (status booking) "completed"
      then (Fail 400 "Cannot cancel a completed booking", db)
      else
        let booking := updateStatus "cancelled" booking in
        let booking :=
          set_cancellationReason
            (js_or (get body "reason")
                   (JStr (if isAdmin then "Cancelled by Admin" else "Cancelled by customer")))
            booking in
        (Json 200 booking, save booking db)
  end.

(** PATCH /api/bookings/:id/complete *)
Definition completeBooking (user : Caller) (id : string) (db : list Booking)
    : response Booking * list Booking :=
  if negb (String.eqb (caller_role user) "admin")
  then (Fail 403 "Not authorized. Admin access required.", db)
  else if negb (isValidObjectId id) then (Fail 500 "Failed to complete booking", db)
  else match findById id db with
  | None => (Fail 404 "Booking not found", db)
  | Some booking =>
      if String.eqb (status booking) "completed"
      then (Fail 400 "Booking is already marked as completed", db)
      else if String.eqb (status booking) "cancelled"
      then (Fail 400 "Cannot complete a cancelled booking", db)
      else
        let booking := updateStatus "completed" booking in
        (Json 200 booking, save booking db)
  end.

(** The failures of the status machine, by the names of the error taxonomy. *)
Definition AlreadyCancelled : response Booking :=
  Fail 400 "Booking is already cancelled".
Definition CannotCancelCompleted : response Booking :=
  Fail 400 "Cannot cancel a completed booking".
Definition AlreadyCompleted : response Booking :=
  Fail 400 "Booking is already marked as completed".
Definition CannotCompleteCancelled : response Booking :=
  Fail 400 "Cannot complete a cancelled booking".

(** The requests that write the collection of bookings, and the collection
    each leaves behind. *)
Inductive request : Type :=
| Create (user : Caller) (body : gmap string jsval) (newId : string) (now : Z)
         (products : list Products.Product)
| Cancel (user : Caller) (id : string) (body : gmap string jsval)
| Complete (user : Caller) (id : string).

Definition handle (r : request) (db : list Booking) : list Booking :=
  match r with
  | Create user body newId now products =>
      snd (createBooking user body newId now products db)
  | Cancel user id body => snd (cancelBooking user id body db)
  | Complete user id => snd (completeBooking user id db)
  end.

(** The collection after a sequence of requests on an empty one. *)
Definition run (rs : list request) : list Booking :=
  foldl (fun db r => handle r db) [] rs.

(** The declared machine: [confirmed] to [cancelled] by a cancellation, and
    [confirmed] to [completed] by a completion. *)
Inductive transition : request -> string -> string -> Prop :=
| cancel_confirmed user id body :
    transition (Cancel user id body) "confirmed" "cancelled"
| complete_confirmed user id :
    transition (Complete user id) "confirmed" "completed".

Definition declared_status (s : string) : Prop :=
  s = "confirmed" \/ s = "cancelled" \/ s = "completed".

End Bookings.

(** ** controllers/usersController.js *)

Module Users.

(** A user document: the keys of the schema as an object, under its id. *)
Record User : Type := {
  _id : string;
  fields : gmap string jsval;
  createdAt : Z;
}.

Definition field (u : User) (key : string) : jsval := get (fields u) key.

(** The paths of the user schema, as the controllers of
    [authController.js] read and write them. *)
Definition schema_paths : list string :=
  ["name"; "email"; "phone"; "password"; "role"; "isActive"; "lastLogin"].

(** [.select('-password')] *)
Definition without_password (u : User) : User :=
  {| _id := _id u; fields := delete "password" (fields u); createdAt := createdAt u |}.

(** The document of a collection under an ObjectId. *)
Definition findById (id : string) (db : list User) : option User :=
  List.find (fun u => String.eqb (_id u) id) db.

Definition save (u : User) (db : list User) : list User :=
  (fun x => if String.eqb (_id x) (_id u) then u else x) <$> db.

Record Pagination : Type := {
  currentPage : nat;
  totalPages : nat;
  totalUsers : nat;
  hasNextPage : bool;
  hasPrevPage : bool;
}.

Record Listing : Type := { users : list User; pagination : Pagination }.

(** The filter of the directory: exact role, and the search term as a
    case-insensitive pattern on name, e-mail or phone. *)
Definition matches (rt : Runtime) (role search : jsval) (u : User) : bool :=
  (if truthy role then strict_eq (field u "role") role else true)
  && (if truthy search
      then regex_i rt search (field u "name") || regex_i rt search (field u "email")
           || regex_i rt search (field u "phone")
      else true).

(** GET /api/users. [errors] is what [validationResult(req)] holds; the
    route validates [page] from 1 and [limit] from 1 to 50, and [page] and
    [limit] are [parseInt] of the parameters that passed. *)
Definition getUsers (rt : Runtime) (errors : list string) (query : gmap string jsval)
    (page limit : option positive) (db : list User) : response Listing :=
  if negb (Nat.eqb (length errors) 0) then Fail 400 "Validation failed"
  else
    let page := Pos.to_nat (default 1%positive page) in
    let limit := Pos.to_nat (default 10%positive limit) in
    let found := List.filter (matches rt (get query "role") (get query "search")) db in
    let skip := (page - 1) * limit in
    let users := without_password <$> take limit (drop skip (sort_desc createdAt found)) in
    let total := length found in
    let totalPages := ceil_div total limit in
    Json 200
      {| users := users;
         pagination :=
           {| currentPage := page;
              totalPages := totalPages;
              totalUsers := total;
              hasNextPage := Nat.ltb page totalPages;
              hasPrevPage := Nat.ltb 1 page |} |}.

(** [User.findOne(conflictFilter)]: another user holding every value the
    filter names. *)
Definition findConflict (id : string) (email phone : jsval) (db : list User) : option User :=
  List.find
    (fun u => negb (String.eqb (_id u) id)
              && (if truthy email then strict_eq (field u "email") email else true)
              && (if truthy phone then strict_eq (field u "phone") phone else true))
    db.

(** The keys an update sets, as [findByIdAndUpdate] reads it: a key of the
    update that is not an operator stands for itself under [$set], before the
    keys that the object under [$set] holds. *)
Definition set_part (updateData : gmap string jsval) : gmap string jsval :=
  match get updateData "$set" with
  | JObj kvs => updateData ∪ list_to_map kvs
  | _ => updateData
  end.

(** [findByIdAndUpdate]: the keys the update sets that are paths of the
    schema are set. What the database library does with the other update
    operators ([$unset], [$inc], ...) in a request body is not modelled. *)
Definition apply_update (updateData : gmap string jsval) (u : User) : User :=
  let sets := set_part updateData in
  {| _id := _id u;
     fields := foldl (fun acc key =>
                        if defined (get sets key)
                        then <[key := get sets key]> acc else acc)
                     (fields u) schema_paths;
     createdAt := createdAt u |}.

(** Modelled from the spec: the schema of [models/User.js], which is not
    among the sources, declares e-mail and phone unique; the index rejects a
    write that would give a user the e-mail or the phone of another. *)
Definition violates_unique (u : User) (db : list User) : bool :=
  existsb
    (fun x => negb (String.eqb (_id x) (_id u))
              && ((defined (field u "email") && strict_eq (field x "email") (field u "email"))
                  || (defined (field u "phone") && strict_eq (field x "phone") (field u "phone"))))
    db.

(** PUT /api/users/:id. [id] is the route parameter as it is sent: the
    queries cast it to an ObjectId, the guard compares it as a string. *)
Definition updateUser (user : Caller) (id : string) (errors : list string)
    (body : gmap string jsval) (db : list User) : response User * list User :=
  if negb (Nat.eqb (length errors) 0) then (Fail 400 "Validation failed", db)
  else if negb (isValidObjectId id) then (Fail 400 "Invalid user ID", db)
  else match findById (ObjectId id) db with
  | None => (Fail 404 "User not found", db)
  | Some target =>
      if String.eqb (caller_id user) id && strict_eq (get body "role") (JStr "user")
      then (Fail 400 "Cannot demote yourself from admin role", db)
      else
        let updateData := body in
        let conflict :=
          if truthy (get updateData "email") || truthy (get updateData "phone")
          then findConflict (ObjectId id) (get updateData "email") (get updateData "phone") db
          else None in
        match conflict with
        | Some existingUser =>
            (Fail 400 (if strict_eq (field existingUser "email") (get updateData "email")
                       then "Email already in use" else "Phone number already in use"), db)
        | None =>
            let updated := apply_update updateData target in
            if violates_unique updated db
            then (Fail 500 "Server error while updating user", db)
            else (Json 200 (without_password updated), save updated db)
        end
  end.

(** The failures of the guards on the acting admin, and of a taken e-mail or
    phone. *)
Definition SelfDemotion : response User :=
  Fail 400 "Cannot demote yourself from admin role".
Definition SelfDeleteForbidden : response unit :=
  Fail 400 "Cannot delete your own account".
Definition EmailConflict : response User := Fail 400 "Email already in use".
Definition PhoneConflict : response User := Fail 400 "Phone number already in use".

(** [user.isActive = false] *)
Definition deactivate (u : User) : User :=
  {| _id := _id u; fields := <["isActive" := JBool false]> (fields u);
     createdAt := createdAt u |}.

(** DELETE /api/users/:id, a deactivation. [id] is the route parameter as
    it is sent. *)
Definition deleteUser (user : Caller) (id : string) (db : list User)
    : response unit * list User :=
  if negb (isValidObjectId id) then (Fail 400 "Invalid user ID", db)
  else match findById (ObjectId id) db with
  | None => (Fail 404 "User not found", db)
  | Some target =>
      if String.eqb (caller_id user) id
      then (Fail 400 "Cannot delete your own account", db)
      else (Json 200 tt, save (deactivate target) db)
  end.

End Users.

(** ** The other handlers of controllers/productsController.js *)

Module Catalog.
Import Products.

(** GET /api/products/:id *)
Definition getProduct (id : string) (db : list Product) : response Product :=
  if negb (isValidObjectId id) then Fail 400 "Invalid product ID"
  else match findById id db with
  | None => Fail 404 "Product not found"
  | Some doc => Json 200 doc
  end.

(** Modelled from the spec: the methods [incrementViews] and [toggleLike]
    of [models/Product.js], which is not among the sources. Each adds one to
    its counter and saves; no record of who liked is kept. *)
Definition incrementViews (p : Product) : Product :=
  {| _id := _id p; fields := fields p; images := images p;
     imagePublicIds := imagePublicIds p; views := views p + 1; likes := likes p;
     createdBy := createdBy p; createdAt := createdAt p |}.

Definition toggleLike (p : Product) : Product :=
  {| _id := _id p; fields := fields p; images := images p;
     imagePublicIds := imagePublicIds p; views := views p; likes := likes p + 1;
     createdBy := createdBy p; createdAt := createdAt p |}.

(** PATCH /api/products/:id/view *)
Definition incrementView (id : string) (db : list Product) : response Z * list Product :=
  if negb (isValidObjectId id) then (Fail 400 "Invalid product ID", db)
  else match findById id db with
  | None => (Fail 404 "Product not found", db)
  | Some product =>
      let product := incrementViews product in
      (Json 200 (views product), save product db)
  end.

(** POST /api/products/:id/like *)
Definition likeProduct (id : string) (db : list Product) : response Z * list Product :=
  if negb (isValidObjectId id) then (Fail 400 "Invalid product ID", db)
  else match findById id db with
  | None => (Fail 404 "Product not found", db)
  | Some product =>
      let product := toggleLike product in
      (Json 200 (likes product), save product db)
  end.

(** The documents of the page [k + 1] of a listing, none when the listing
    fails. *)
Definition page_docs (rt : Runtime) (drv : Driver) (query : gmap string jsval)
    (limit : option positive) (db : list Product) (k : nat) : list Product :=
  match listProducts rt drv query (Some (Pos.of_succ_nat k)) limit db with
  | Json _ listing => doc <$> products listing
  | Fail _ _ => []
  end.

End Catalog.

(** ** The reads of controllers/bookingsController.js *)

Module BookingReads.
Import Bookings.

(** A populated reference: the id of the document and the keys selected. *)
Record Ref : Type := { ref_id : string; ref_fields : gmap string jsval }.

(** [.populate('productId', keys)]: the product the booking names, or
    [null] when there is none. *)
Definition populate_product (keys : list string) (products : list Products.Product)
    (productId : jsval) : option Ref :=
  match castObjectId productId with
  | None => None
  | Some pid =>
      match Products.findById pid products with
      | None => None
      | Some p =>
          Some {| ref_id := Products._id p;
                  ref_fields := filter (fun kv => kv.1 ∈ keys) (Products.fields p) |}
      end
  end.

(** [.populate('userId', 'name email phone')] *)
Definition populate_user (users : list Users.User) (userId : string) : option Ref :=
  match Users.findById userId users with
  | None => None
  | Some u =>
      Some {| ref_id := Users._id u;
              ref_fields := filter (fun kv => kv.1 ∈ ["name"; "email"; "phone"])
                                   (Users.fields u) |}
  end.

(** A booking with its two references populated. *)
Record Populated : Type := {
  booking : Booking;
  product_ref : option Ref;
  user_ref : Ref;
}.

(** GET /api/bookings/:id. Reading [booking.userId._id] throws when the
    user of the booking is no longer there. *)
Definition getBookingById (user : Caller) (id : string)
    (products : list Products.Product) (users : list Users.User) (db : list Booking)
    : response Populated :=
  if negb (isValidObjectId id) then Fail 500 "Failed to fetch booking"
  else match findById id db with
  | None => Fail 404 "Booking not found"
  | Some b =>
      match populate_user users (userId b) with
      | None => Fail 500 "Failed to fetch booking"
      | Some owner =>
          let isAdmin := String.eqb (caller_role user) "admin" in
          let isOwner := String.eqb (ref_id owner) (caller_id user) in
          if negb isAdmin && negb isOwner
          then Fail 403 "Not authorized to view this booking"
          else Json 200
                 {| booking := b;
                    product_ref :=
                      populate_product ["name"; "category"; "description"; "features"]
                        products (productId b);
                    user_ref := owner |}
      end
  end.

(** The keys of a booking that a creation fixes: everything but the status
    and the reason of a cancellation. *)
Definition snapshot (b : Booking) : Booking :=
  set_cancellationReason JUndefined (updateStatus "" b).

End BookingReads.

(** ** Sample documents and requests, for the scenarios below *)

Module Sample.

(** A platform on which the conversions that the scenarios never reach are
    constant. *)
Definition rt : Runtime :=
  {| Number_toString := fun _ => "0";
     toNumber := fun _ => 0%float;
     JSON_parse := fun _ => None;
     regex_i := fun _ _ => true;
     String_toLowerCase := fun s => s;
     String_trim := fun s => s |}.

(** A database that keeps the cursor order for a caller-chosen sort. *)
Definition drv : Products.Driver :=
  {| Products.text_search := fun _ _ => true;
     Products.cursor_sort := fun _ l => l |}.

Definition laptop : Products.Product :=
  {| Products._id := "64b000000000000000000001";
     Products.fields := list_to_map [("name", JStr "Laptop"); ("category", JStr "Laptops");
                                     ("availability", JStr "Available");
                                     ("isActive", JBool true)];
     Products.images := [JStr "https://img/1.png"; JStr "https://img/2.png"];
     Products.imagePublicIds := [JStr "products/1"; JStr "products/2"];
     Products.views := 0; Products.likes := 0;
     Products.createdBy := "64a000000000000000000001";
     Products.createdAt := 100 |}.

(** The same product at another price, discount and stock. *)
Definition repriced : Products.Product :=
  {| Products._id := "64b000000000000000000001";
     Products.fields := list_to_map [("name", JStr "Laptop"); ("category", JStr "Laptops");
                                     ("availability", JStr "Available");
                                     ("price", JNum 75000); ("discount", JNum 10);
                                     ("stock", JNum 0); ("isActive", JBool true)];
     Products.images := [JStr "https://img/1.png"; JStr "https://img/2.png"];
     Products.imagePublicIds := [JStr "products/1"; JStr "products/2"];
     Products.views := 0; Products.likes := 0;
     Products.createdBy := "64a000000000000000000001";
     Products.createdAt := 100 |}.

Definition admin : Caller :=
  {| caller_id := "64a000000000000000000001"; caller_role := "admin" |}.

Definition alice : Caller :=
  {| caller_id := "64a000000000000000000002"; caller_role := "user" |}.

Definition order : gmap string jsval :=
  list_to_map [("productId", JStr "64b000000000000000000001");
               ("customerName", JStr "Alice"); ("customerPhone", JStr "9876543210");
               ("customerAddress", JStr "12 Park Street"); ("quantity", JNum 1);
               ("bookingDate", JStr "2025-01-05"); ("sellingPrice", JNum 50000)].

Definition placed : list Bookings.request :=
  [Bookings.Create alice order "64c000000000000000000001" 200 [laptop]].

(** The directory: the admin, and two customers. *)
Definition root : Users.User :=
  {| Users._id := "64a000000000000000000001";
     Users.fields := list_to_map [("name", JStr "Root"); ("email", JStr "root@shop.in");
                                  ("phone", JStr "9000000001"); ("password", JStr "$2a$10$rootHash");
                                  ("role", JStr "admin"); ("isActive", JBool true)];
     Users.createdAt := 10 |}.

Definition alice_doc : Users.User :=
  {| Users._id := "64a000000000000000000002";
     Users.fields := list_to_map [("name", JStr "Alice"); ("email", JStr "alice@shop.in");
                                  ("phone", JStr "9000000002"); ("password", JStr "$2a$10$aliceHash");
                                  ("role", JStr "user"); ("isActive", JBool true)];
     Users.createdAt := 20 |}.

Definition bela_doc : Users.User :=
  {| Users._id := "64a000000000000000000003";
     Users.fields := list_to_map [("name", JStr "Bela"); ("email", JStr "bela@shop.in");
                                  ("phone", JStr "9000000003"); ("password", JStr "$2a$10$belaHash");
                                  ("role", JStr "user"); ("isActive", JBool true)];
     Users.createdAt := 30 |}.

Definition directory : list Users.User := [root; alice_doc; bela_doc].

(** Fifteen active products, created at the times 1 to 15. *)
Definition item (n : nat) : Products.Product :=
  {| Products._id :=
       "64b0000000000000000001"
       ++ String (ascii_of_nat (48 + n / 10)) (String (ascii_of_nat (48 + n mod 10)) "");
     Products.fields := list_to_map [("name", JStr "Item"); ("availability", JStr "Available");
                                     ("isActive", JBool true)];
     Products.images := [JStr "https://img/item.png"];
     Products.imagePublicIds := [JStr "products/item"];
     Products.views := 0; Products.likes := 0;
     Products.createdBy := "64a000000000000000000001";
     Products.createdAt := Z.of_nat n |}.

Definition catalogue : list Products.Product := item <$> seq 1 15.

End Sample.

(** ** controllers/authController.js, and the read of one user *)

Module Auth.
Import Users.

(** What the handlers take from the user model and the token library. *)
Record Model : Type := {
  (** the value the model stores for a password when it saves it *)
  hash : jsval -> jsval;
  (** [user.comparePassword(candidate)], from the stored value *)
  comparePassword : jsval -> jsval -> bool;
  (** the role the schema gives a new user *)
  defaultRole : jsval;
  (** [jwt.sign({ userId }, secret, { expiresIn: '7d' })], at a time *)
  sign : string -> jsval -> string;
}.

(** Modelled from the spec: the schema of [models/User.js], which is not
    among the sources. A new user is stored under a fresh id, active, with the
    role of the schema, and with the hash of the password, never the password
    itself. *)
Definition User_create (m : Model) (newId : string) (createdAt : Z)
    (name email phone password : jsval) : User :=
  {| _id := newId;
     fields := list_to_map [("name", name); ("email", email); ("phone", phone);
                            ("password", hash m password); ("role", defaultRole m);
                            ("isActive", JBool true)];
     createdAt := createdAt |}.

(** Modelled from the spec: saving a user whose password was assigned stores
    its hash. *)
Definition set_password (m : Model) (password : jsval) (u : User) : User :=
  {| _id := _id u; fields := <["password" := hash m password]> (fields u);
     createdAt := createdAt u |}.

(** [user.lastLogin = new Date()] *)
Definition set_lastLogin (today : jsval) (u : User) : User :=
  {| _id := _id u; fields := <["lastLogin" := today]> (fields u);
     createdAt := createdAt u |}.

(** The user object of the answers of [register] and the logins. *)
Record Summary : Type := {
  id : string;
  name : jsval;
  email : jsval;
  phone : jsval;
  role : jsval;
}.

Definition summary (u : User) : Summary :=
  {| id := _id u; name := field u "name"; email := field u "email";
     phone := field u "phone"; role := field u "role" |}.

Record Session : Type := { token : string; user : Summary }.

(** POST /api/auth/register. [today] is the time of the request. *)
Definition register (m : Model) (errors : list string) (body : gmap string jsval)
    (newId : string) (now : Z) (today : jsval) (db : list User)
    : response Session * list User :=
  if negb (Nat.eqb (length errors) 0) then (Fail 400 "Validation failed", db)
  else
    let email := get body "email" in
    let phone := get body "phone" in
    match List.find (fun u => strict_eq (field u "email") email
                              || strict_eq (field u "phone") phone) db with
    | Some existingUser =>
        (Fail 400 (if strict_eq (field existingUser "email") email
                   then "Email already registered"
                   else "Phone number already registered"), db)
    | None =>
        let user := User_create m newId now (get body "name") email phone
                      (get body "password") in
        (Json 201 {| token := sign m (_id user) today; user := summary user |},
         (db ++ [user])%list)
    end.

(** The two logins differ in the users they look among and in their
    messages. *)
Definition login_with (m : Model) (admin_only : bool) (invalid deactivated : string)
    (errors : list string) (body : gmap string jsval) (today : jsval) (db : list User)
    : response Session * list User :=
  if negb (Nat.eqb (length errors) 0) then (Fail 400 "Validation failed", db)
  else
    match List.find (fun u => strict_eq (field u "email") (get body "email")
                              && (if admin_only
                                  then strict_eq (field u "role") (JStr "admin")
                                  else true)) db with
    | None => (Fail 401 invalid, db)
    | Some user =>
        if negb (truthy (field user "isActive")) then (Fail 401 deactivated, db)
        else if negb (comparePassword m (field user "password") (get body "password"))
        then (Fail 401 invalid, db)
        else
          let user := set_lastLogin today user in
          (Json 200 {| token := sign m (_id user) today; user := summary user |},
           save user db)
    end.

(** POST /api/auth/login *)
Definition login (m : Model) : list string -> gmap string jsval -> jsval -> list User
                                -> response Session * list User :=
  login_with m false "Invalid credentials" "Account is deactivated".

(** POST /api/auth/admin-login *)
Definition adminLogin (m : Model) : list string -> gmap string jsval -> jsval -> list User
                                     -> response Session * list User :=
  login_with m true "Invalid admin credentials" "Admin account is deactivated".

(** The update a profile request amounts to: the name and the phone it
    gives, and nothing else. *)
Definition profile_update (body : gmap string jsval) : gmap string jsval :=
  let name := get body "name" in
  let phone := get body "phone" in
  let updateData := if truthy name then <["name" := name]> ∅ else ∅ in
  if truthy phone then <["phone" := phone]> updateData else updateData.

(** PUT /api/auth/profile. The answer holds no user when the caller's
    document is gone. *)
Definition updateProfile (user : Caller) (errors : list string) (body : gmap string jsval)
    (db : list User) : response (option User) * list User :=
  if negb (Nat.eqb (length errors) 0) then (Fail 400 "Validation failed", db)
  else
    let phone := get body "phone" in
    let taken :=
      if truthy phone
      then List.find (fun u => strict_eq (field u "phone") phone
                               && negb (String.eqb (_id u) (caller_id user))) db
      else None in
    match taken with
    | Some _ => (Fail 400 "Phone number already in use", db)
    | None =>
        match findById (caller_id user) db with
        | None => (Json 200 None, db)
        | Some target =>
            let updated := apply_update (profile_update body) target in
            if violates_unique updated db
            then (Fail 500 "Server error while updating profile", db)
            else (Json 200 (Some (without_password updated)), save updated db)
        end
    end.

(** POST /api/auth/change-password *)
Definition changePassword (m : Model) (user : Caller) (errors : list string)
    (body : gmap string jsval) (db : list User) : response unit * list User :=
  if negb (Nat.eqb (length errors) 0) then (Fail 400 "Validation failed", db)
  else if negb (isValidObjectId (caller_id user))
  then (Fail 500 "Server error while changing password", db)
  else match findById (caller_id user) db with
  | None => (Fail 404 "User not found", db)
  | Some target =>
      if negb (comparePassword m (field target "password") (get body "currentPassword"))
      then (Fail 400 "Current password is incorrect", db)
      else (Json 200 tt, save (set_password m (get body "newPassword") target) db)
  end.

(** GET /api/users/:id *)
Definition getUserById (id : string) (db : list User) : response User :=
  if negb (isValidObjectId id) then Fail 400 "Invalid user ID"
  else match findById (ObjectId id) db with
  | None => Fail 404 "User not found"
  | Some u => Json 200 (without_password u)
  end.

End Auth.

(** ** utils/keepAlive.js *)

Module KeepAlive.

(** Instants are milliseconds since the epoch, as [getTime()] gives them.
    The time zone of the server is the offset, in minutes, that
    [getTimezoneOffset()] reports for a date at each instant; it changes with
    the instant where the zone changes its clocks. *)
Definition Zone : Type := Z -> Z.

(** [date.getHours()]: the hour of the day of an instant on the clocks of
    the server, which run at the offset of that instant. *)
Definition getHours (zone : Zone) (t : Z) : Z :=
  ((t - zone t * 60000) / 3600000) mod 24.

Definition isWithinDayWindowIST (zone : Zone) (now : Z) : bool :=
  let utc := (now + zone now * 60000)%Z in
  let ist := (utc + 19800000)%Z in
  let hour := getHours zone ist in
  (5 <=? hour)%Z && (hour <? 17)%Z.

(** [ping]: the URL it fetches, if it fetches. The two settings are
    environment variables, strings or [undefined]. *)
Definition ping (rt : Runtime) (KEEP_ALIVE_URL PUBLIC_BASE_URL : jsval) (zone : Zone)
    (now : Z) : option jsval :=
  let url :=
    js_or KEEP_ALIVE_URL
          (JStr (toString rt (js_or PUBLIC_BASE_URL (JStr "")) ++ "/api/health")) in
  if negb (truthy url) then None
  else if negb (isWithinDayWindowIST zone now) then None
  else Some url.

(** Is the time of day in India from 05:00 to 17:00, that is from 23:30 to
    11:30 of the universal day. *)
Definition indian_day (t : Z) : Prop :=
  (84600000 <= t mod 86400000 \/ t mod 86400000 < 41400000)%Z.

End KeepAlive.

(** ** Text *)

Module Text.

(** A string that does not begin with white space. *)
Definition starts_clean (s : string) : Prop :=
  match s with EmptyString => True | String c _ => is_space c = false end.

End Text.

Import Text.

(** ** Further sample documents and requests *)

Module Fixtures.

Definition bela : Caller :=
  {| caller_id := "64a000000000000000000003"; caller_role := "user" |}.

Definition booking_id : string := "64c000000000000000000001".

(** Alice's booking is completed by the admin, who then tries to cancel it
    and to complete it again. *)
Definition completed : list Bookings.request :=
  (Sample.placed ++ [Bookings.Complete Sample.admin booking_id])%list.

Definition afterwards : list Bookings.request :=
  [Bookings.Cancel Sample.admin booking_id ∅; Bookings.Complete Sample.admin booking_id].

Definition laptop_id : string := "64b000000000000000000001".

(** A third photo, as the storage middleware reports it. *)
Definition photo : Products.File :=
  {| Products.path := JStr "https://img/3.png"; Products.secure_url := JUndefined;
     Products.filename := JStr "products/3"; Products.public_id := JUndefined |}.


(** A user model whose hash is a prefix, for the scenarios. *)
Definition model : Auth.Model :=
  {| Auth.hash := fun v => match v with JStr p => JStr ("$2a$10$" ++ p) | _ => v end;
     Auth.comparePassword :=
       fun stored candidate =>
         strict_eq stored (match candidate with JStr p => JStr ("$2a$10$" ++ p) | _ => candidate end);
     Auth.defaultRole := JStr "user";
     Auth.sign := fun userId _ => "token." ++ userId |}.

Definition signup : gmap string jsval :=
  list_to_map [("name", JStr "Dev"); ("email", JStr "dev@shop.in");
               ("phone", JStr "9000000004"); ("password", JStr "secret1")].

Definition alice_login : gmap string jsval :=
  list_to_map [("email", JStr "alice@shop.in"); ("password", JStr "aliceHash")].

Definition new_password : gmap string jsval :=
  list_to_map [("currentPassword", JStr "aliceHash"); ("newPassword", JStr "tulip42")].

Definition alice_new_login : gmap string jsval :=
  list_to_map [("email", JStr "alice@shop.in"); ("password", JStr "tulip42")].

(** A profile update that also names a role and a password. *)
Definition profile : gmap string jsval :=
  list_to_map [("name", JStr "Alice B"); ("role", JStr "admin"); ("password", JStr "x")].

(** The clocks of New York in 2025: five hours behind universal time, four
    from 9 March 07:00 to 2 November 06:00 universal time. *)
Definition new_york : KeepAlive.Zone :=
  fun t => if ((1741503600000 <=? t) && (t <? 1762063200000))%Z then 240%Z else 300%Z.

(** The clocks of a server kept on Indian time. *)
Definition kolkata : KeepAlive.Zone := fun _ => (-330)%Z.

End Fixtures.

(** * Properties *)

(** ** Values *)

Lemma strict_eq_JStr (v : jsval) (s : string) :
  strict_eq v (JStr s) = true <-> v = JStr s.
Proof.
  split.
  - destruct v; simpl; try discriminate. intros H. apply String.eqb_eq in H. by subst.
  - intros ->. simpl. apply String.eqb_refl.
Qed.

Lemma strict_eq_JBool (v : jsval) (b : bool) :
  strict_eq v (JBool b) = true <-> v = JBool b.
Proof.
  split.
  - destruct v; simpl; try discriminate. intros H. apply Bool.eqb_prop in H. by subst.
  - intros ->. simpl. apply Bool.eqb_reflx.
Qed.

Example split_comma_pieces :
  split_comma "a, B ,,c" = ["a"; " B "; ""; "c"] /\ split_comma "" = [""].
Proof. by split. Qed.

Example trim_and_lower (rt : Runtime) :
  trim rt "  a b  " = "a b" /\ trim rt "   " = "" /\ toLowerCase rt "GamINg-1" = "gaming-1".
Proof. by repeat split. Qed.

Example falsy_values :
  truthy (JNum (-0)) = false /\ truthy (JNum nan) = false /\ truthy (JStr "") = false
  /\ truthy (JStr "0") = true /\ truthy (JNum 0.5) = true /\ truthy (JArr []) = true.
Proof. by repeat split. Qed.

Example object_ids :
  isValidObjectId "64b000000000000000000001" = true
  /\ isValidObjectId "64b0" = false /\ isValidObjectId "64b00000000000000000000z" = false.
Proof. by repeat split. Qed.

(** ** The booking state machine *)

Section BookingMachine.
Import Bookings.

Lemma booking_find_id (id : string) (db : list Booking) (b : Booking) :
  findById id db = Some b -> _id b = id.
Proof.
  unfold findById. intros H. apply List.find_some in H as [_ H].
  by apply String.eqb_eq in H.
Qed.

Lemma booking_find_In (id : string) (db : list Booking) (b : Booking) :
  findById id db = Some b -> In b db.
Proof. unfold findById. intros H. by apply List.find_some in H as [H _]. Qed.

Lemma booking_find_app (id : string) (db extra : list Booking) (b : Booking) :
  findById id db = Some b -> findById id (db ++ extra)%list = Some b.
Proof.
  unfold findById. induction db as [|x db IH]; simpl; [discriminate|].
  destruct (String.eqb (_id x) id); auto.
Qed.

Lemma booking_find_save_same (b : Booking) (db : list Booking) (old : Booking) :
  findById (_id b) db = Some old -> findById (_id b) (save b db) = Some b.
Proof.
  unfold findById, save. induction db as [|x db IH]; simpl; [discriminate|].
  destruct (String.eqb (_id x) (_id b)) eqn:E; simpl.
  - intros _. by rewrite String.eqb_refl.
  - rewrite E. auto.
Qed.

Lemma booking_find_save_other (id : string) (b : Booking) (db : list Booking) :
  _id b <> id -> findById id (save b db) = findById id db.
Proof.
  intros Hne. unfold findById, save. induction db as [|x db IH]; simpl; [done|].
  destruct (String.eqb (_id x) (_id b)) eqn:E; simpl.
  - apply String.eqb_eq in E.
    assert (String.eqb (_id b) id = false) as -> by by apply String.eqb_neq.
    assert (String.eqb (_id x) id = false) as -> by (apply String.eqb_neq; congruence).
    exact IH.
  - destruct (String.eqb (_id x) id); auto.
Qed.

(** What a creation answers: the booking it appended, [confirmed], against a
    product that was found available. *)
Lemma createBooking_success user body newId now products db code b db' :
  createBooking user body newId now products db = (Json code b, db') ->
  code = 201 /\ status b = "confirmed" /\ db' = (db ++ [b])%list /\
  exists pid product,
    get body "productId" = JStr pid /\
    Products.findById pid products = Some product /\
    Products.field product "availability" = JStr "Available".
Proof.
  unfold createBooking.
  destruct (_ || _); [discriminate|].
  destruct (castObjectId (get body "productId")) as [pid|] eqn:Hcast; [|discriminate].
  destruct (Products.findById pid products) as [product|] eqn:Hfind; [|discriminate].
  destruct (strict_eq (Products.field product "availability") (JStr "Available")) eqn:Hav;
    simpl; [|discriminate].
  intros [= <- <- <-]. repeat split; try reflexivity.
  exists pid, product. repeat split; auto.
  - unfold castObjectId in Hcast. destruct (get body "productId"); try discriminate.
    destruct (isValidObjectId s); congruence.
  - by apply strict_eq_JStr.
Qed.

(** A request with every required field, naming an available product, is
    answered with a confirmed booking. *)
Lemma createBooking_available user body newId now products db pid product :
  truthy (get body "customerName") = true ->
  truthy (get body "customerPhone") = true ->
  truthy (get body "customerAddress") = true ->
  truthy (get body "quantity") = true ->
  truthy (get body "bookingDate") = true ->
  get body "productId" = JStr pid -> isValidObjectId pid = true ->
  Products.findById pid products = Some product ->
  Products.field product "availability" = JStr "Available" ->
  exists b, createBooking user body newId now products db = (Json 201 b, (db ++ [b])%list)
            /\ status b = "confirmed" /\ productId b = JStr pid.
Proof.
  intros H1 H2 H3 H4 H5 Hp Hv Hf Ha. unfold createBooking.
  rewrite H1, H2, H3, H4, H5, Hp. simpl.
  assert (pid <> "") as Hne by (intros ->; discriminate).
  apply String.eqb_neq in Hne. rewrite Hne, Hv. simpl. rewrite Hf, Ha. simpl.
  eexists. split; [reflexivity|]. by split.
Qed.


(** The three outcomes of a cancellation by the owner or an admin. *)
Lemma cancelBooking_outcomes user id body db bk :
  isValidObjectId id = true -> findById id db = Some bk ->
  caller_role user = "admin" \/ userId bk = caller_id user ->
  (status bk = "confirmed" ->
   exists bk', cancelBooking user id body db = (Json 200 bk', save bk' db)
               /\ status bk' = "cancelled" /\ findById id (save bk' db) = Some bk')
  /\ (status bk = "cancelled" -> cancelBooking user id body db = (AlreadyCancelled, db))
  /\ (status bk = "completed" -> cancelBooking user id body db = (CannotCancelCompleted, db)).
Proof.
  intros Hv Hf Hauth. unfold cancelBooking. rewrite Hv, Hf. simpl.
  assert (negb (String.eqb (caller_role user) "admin")
          && negb (String.eqb (userId bk) (caller_id user)) = false) as ->.
  { destruct Hauth as [-> | ->]; [done|]. rewrite String.eqb_refl. by rewrite andb_false_r. }
  repeat split.
  - intros Hs. rewrite Hs. simpl. eexists. split; [reflexivity|]. split; [done|].
    pose proof (booking_find_id _ _ _ Hf) as Hid.
    set (bk1 := set_cancellationReason _ _).
    rewrite <- Hid. change (_id bk) with (_id bk1).
    apply (booking_find_save_same bk1 db bk).
    change (findById (_id bk) db = Some bk). by rewrite Hid.
  - intros Hs. by rewrite Hs.
  - intros Hs. by rewrite Hs.
Qed.

(** The three outcomes of a completion by an admin. *)
Lemma completeBooking_outcomes user id db bk :
  isValidObjectId id = true -> findById id db = Some bk ->
  caller_role user = "admin" ->
  (status bk = "confirmed" ->
   exists bk', completeBooking user id db = (Json 200 bk', save bk' db)
               /\ status bk' = "completed" /\ findById id (save bk' db) = Some bk')
  /\ (status bk = "completed" -> completeBooking user id db = (AlreadyCompleted, db))
  /\ (status bk = "cancelled" -> completeBooking user id db = (CannotCompleteCancelled, db)).
Proof.
  intros Hv Hf Hadmin. unfold completeBooking. rewrite Hadmin, Hv, Hf. simpl.
  repeat split.
  - intros Hs. rewrite Hs. simpl. eexists. split; [reflexivity|]. split; [done|].
    pose proof (booking_find_id _ _ _ Hf) as Hid.
    set (bk1 := updateStatus _ _).
    rewrite <- Hid. change (_id bk) with (_id bk1).
    apply (booking_find_save_same bk1 db bk).
    change (findById (_id bk) db = Some bk). by rewrite Hid.
  - intros Hs. by rewrite Hs.
  - intros Hs. by rewrite Hs.
Qed.

Lemma declared_not_terminal (s : string) :
  declared_status s -> String.eqb s "cancelled" = false ->
  String.eqb s "completed" = false -> s = "confirmed".
Proof. intros [-> | [-> | ->]]; simpl; congruence. Qed.

(** One request moves the status of a stored booking along the declared
    machine, or leaves it. *)
Lemma handle_step (r : request) (db : list Booking) (id : string) (bk : Booking) :
  Forall (fun b => declared_status (status b)) db ->
  findById id db = Some bk ->
  exists bk', findById id (handle r db) = Some bk'
              /\ (status bk' = status bk \/ transition r (status bk) (status bk')).
Proof.
  intros Hall Hf.
  assert (Hkeep : exists bk', findById id db = Some bk'
                    /\ (status bk' = status bk \/ transition r (status bk) (status bk')))
    by (exists bk; auto).
  destruct r as [user body newId now products | user id0 body | user id0]; simpl.
  - (* create: appends or leaves *)
    unfold createBooking.
    repeat (match goal with
            | |- context [if ?c then _ else _] => destruct c
            | |- context [match ?c with Some _ => _ | None => _ end] => destruct c
            end; simpl; try exact Hkeep).
    exists bk. split; [by apply booking_find_app | by left].
  - (* cancel *)
    unfold cancelBooking.
    destruct (isValidObjectId id0); simpl; [|exact Hkeep].
    destruct (findById id0 db) as [bk0|] eqn:Hf0; simpl; [|exact Hkeep].
    destruct (_ && _); simpl; [exact Hkeep|].
    destruct (String.eqb (status bk0) "cancelled") eqn:E1; simpl; [exact Hkeep|].
    destruct (String.eqb (status bk0) "completed") eqn:E2; simpl; [exact Hkeep|].
    pose proof (booking_find_id _ _ _ Hf0) as Hid0.
    set (bk1 := set_cancellationReason _ _).
    destruct (decide (id0 = id)) as [->|Hne].
    + exists bk1. split.
      * rewrite <- Hid0 at 1. apply (booking_find_save_same bk1 db bk0).
        simpl. by rewrite Hid0.
      * right. assert (bk0 = bk) as <- by congruence.
        rewrite (declared_not_terminal (status bk0)); auto; [constructor|].
        rewrite Forall_forall in Hall. apply Hall.
        apply list_elem_of_In. by eapply booking_find_In.
    + exists bk. split; [|by left].
      rewrite booking_find_save_other; [done|]. simpl. congruence.
  - (* complete *)
    unfold completeBooking.
    destruct (negb _); simpl; [exact Hkeep|].
    destruct (isValidObjectId id0); simpl; [|exact Hkeep].
    destruct (findById id0 db) as [bk0|] eqn:Hf0; simpl; [|exact Hkeep].
    destruct (String.eqb (status bk0) "completed") eqn:E1; simpl; [exact Hkeep|].
    destruct (String.eqb (status bk0) "cancelled") eqn:E2; simpl; [exact Hkeep|].
    pose proof (booking_find_id _ _ _ Hf0) as Hid0.
    set (bk1 := updateStatus _ _).
    destruct (decide (id0 = id)) as [->|Hne].
    + exists bk1. split.
      * rewrite <- Hid0 at 1. apply (booking_find_save_same bk1 db bk0).
        simpl. by rewrite Hid0.
      * right. assert (bk0 = bk) as <- by congruence.
        rewrite (declared_not_terminal (status bk0)); auto; [constructor|].
        rewrite Forall_forall in Hall. apply Hall.
        apply list_elem_of_In. by eapply booking_find_In.
    + exists bk. split; [|by left].
      rewrite booking_find_save_other; [done|]. simpl. congruence.
Qed.

End BookingMachine.

Section BookingReachable.
Import Bookings.

Lemma save_declared (b : Booking) (db : list Booking) :
  declared_status (status b) ->
  Forall (fun x => declared_status (status x)) db ->
  Forall (fun x => declared_status (status x)) (save b db).
Proof.
  intros Hb Hall. unfold save. apply Forall_fmap.
  eapply Forall_impl; [exact Hall|]. intros x Hx. simpl.
  by destruct (String.eqb (_id x) (_id b)).
Qed.

Lemma handle_declared (r : request) (db : list Booking) :
  Forall (fun b => declared_status (status b)) db ->
  Forall (fun b => declared_status (status b)) (handle r db).
Proof.
  intros Hall. destruct r as [user body newId now products | user id0 body | user id0]; simpl.
  - unfold createBooking.
    repeat (match goal with
            | |- context [if ?c then _ else _] => destruct c
            | |- context [match ?c with Some _ => _ | None => _ end] => destruct c
            end; simpl; try exact Hall).
    apply Forall_app_2; [exact Hall|]. constructor; [by left|constructor].
  - unfold cancelBooking.
    destruct (negb (isValidObjectId id0)); [exact Hall|].
    destruct (findById id0 db) as [bk0|]; [|exact Hall].
    destruct (_ && _); [exact Hall|].
    destruct (String.eqb (status bk0) "cancelled"); [exact Hall|].
    destruct (String.eqb (status bk0) "completed"); [exact Hall|].
    apply save_declared; [|exact Hall]. right. by left.
  - unfold completeBooking.
    destruct (negb (String.eqb _ _)); [exact Hall|].
    destruct (negb (isValidObjectId id0)); [exact Hall|].
    destruct (findById id0 db) as [bk0|]; [|exact Hall].
    destruct (String.eqb (status bk0) "completed"); [exact Hall|].
    destruct (String.eqb (status bk0) "cancelled"); [exact Hall|].
    apply save_declared; [|exact Hall]. right. by right.
Qed.

(** Whatever the requests, every stored booking is in a declared status. *)
Lemma run_declared (rs : list request) :
  Forall (fun b => declared_status (status b)) (run rs).
Proof.
  induction rs as [|r rs IH] using rev_ind; [constructor|].
  unfold run. rewrite foldl_app. simpl. by apply handle_declared.
Qed.

(** C1. The status of a booking follows the declared machine. A creation
    answers with a [confirmed] booking exactly against a product that exists
    and is [Available]; the owner's or an admin's cancellation takes
    [confirmed] to [cancelled] and fails with AlreadyCancelled or
    CannotCancelCompleted on the terminal statuses; an admin's completion takes
    [confirmed] to [completed] and fails with AlreadyCompleted or
    CannotCompleteCancelled; and after any sequence of requests, a further
    request changes the status of a stored booking by one of these two moves
    or not at all. *)
Theorem booking_status_machine :
  (forall user body newId now products db code b db',
      createBooking user body newId now products db = (Json code b, db') ->
      code = 201 /\ status b = "confirmed" /\ db' = (db ++ [b])%list /\
      exists pid product,
        get body "productId" = JStr pid /\
        Products.findById pid products = Some product /\
        Products.field product "availability" = JStr "Available")
  /\ (forall user body newId now products db pid product,
      truthy (get body "customerName") = true ->
      truthy (get body "customerPhone") = true ->
      truthy (get body "customerAddress") = true ->
      truthy (get body "quantity") = true ->
      truthy (get body "bookingDate") = true ->
      get body "productId" = JStr pid -> isValidObjectId pid = true ->
      Products.findById pid products = Some product ->
      Products.field product "availability" = JStr "Available" ->
      exists b, createBooking user body newId now products db
                = (Json 201 b, (db ++ [b])%list)
                /\ status b = "confirmed" /\ productId b = JStr pid)
  /\ (forall user id body db bk,
      isValidObjectId id = true -> findById id db = Some bk ->
      caller_role user = "admin" \/ userId bk = caller_id user ->
      (status bk = "confirmed" ->
       exists bk', cancelBooking user id body db = (Json 200 bk', save bk' db)
                   /\ status bk' = "cancelled" /\ findById id (save bk' db) = Some bk')
      /\ (status bk = "cancelled" ->
          cancelBooking user id body db = (AlreadyCancelled, db))
      /\ (status bk = "completed" ->
          cancelBooking user id body db = (CannotCancelCompleted, db)))
  /\ (forall user id db bk,
      isValidObjectId id = true -> findById id db = Some bk ->
      caller_role user = "admin" ->
      (status bk = "confirmed" ->
       exists bk', completeBooking user id db = (Json 200 bk', save bk' db)
                   /\ status bk' = "completed" /\ findById id (save bk' db) = Some bk')
      /\ (status bk = "completed" ->
          completeBooking user id db = (AlreadyCompleted, db))
      /\ (status bk = "cancelled" ->
          completeBooking user id db = (CannotCompleteCancelled, db)))
  /\ (forall rs r id bk,
      findById id (run rs) = Some bk ->
      declared_status (status bk)
      /\ exists bk', findById id (handle r (run rs)) = Some bk'
                     /\ (status bk' = status bk
                         \/ transition r (status bk) (status bk'))).
Proof.
  split; [exact createBooking_success|].
  split; [exact createBooking_available|].
  split; [exact cancelBooking_outcomes|].
  split; [exact completeBooking_outcomes|].
  intros rs r id bk Hf. pose proof (run_declared rs) as Hall. split.
  - rewrite Forall_forall in Hall. apply Hall, list_elem_of_In.
    by eapply booking_find_In.
  - by apply handle_step.
Qed.

End BookingReachable.

(** The scenario of the specification: Alice books the laptop, the admin
    completes the booking, and a cancellation is then refused. *)
Lemma booking_status_machine_scenario :
  (exists b, Bookings.findById "64c000000000000000000001" (Bookings.run Sample.placed) = Some b
             /\ Bookings.status b = "confirmed")
  /\ (exists b, fst (Bookings.completeBooking Sample.admin "64c000000000000000000001"
                       (Bookings.run Sample.placed)) = Json 200 b
                /\ Bookings.status b = "completed")
  /\ fst (Bookings.cancelBooking Sample.admin "64c000000000000000000001" ∅
            (Bookings.handle (Bookings.Complete Sample.admin "64c000000000000000000001")
               (Bookings.run Sample.placed)))
     = Bookings.CannotCancelCompleted.
Proof.
  destruct booking_status_machine as (_ & _ & Hcancel & Hcomplete & _).
  assert (Hplaced : exists b, Bookings.findById "64c000000000000000000001"
                                (Bookings.run Sample.placed) = Some b
                              /\ Bookings.status b = "confirmed").
  { eexists. split; [vm_compute; reflexivity|]. reflexivity. }
  destruct Hplaced as (b & Hb & Hs).
  split; [by exists b|].
  destruct (Hcomplete Sample.admin "64c000000000000000000001" (Bookings.run Sample.placed) b
              eq_refl Hb eq_refl) as (Hdone & _ & _).
  destruct (Hdone Hs) as (b' & Hrun & Hs' & Hb').
  split.
  - exists b'. rewrite Hrun. by split.
  - change (Bookings.handle (Bookings.Complete Sample.admin "64c000000000000000000001")
              (Bookings.run Sample.placed))
      with (snd (Bookings.completeBooking Sample.admin "64c000000000000000000001"
                   (Bookings.run Sample.placed))).
    rewrite Hrun. cbn [snd].
    destruct (Hcancel Sample.admin "64c000000000000000000001" ∅
                (Bookings.save b' (Bookings.run Sample.placed)) b' eq_refl Hb'
                (or_introl eq_refl)) as (_ & _ & Hfail).
    by rewrite (Hfail Hs').
Defined.

(** ** Pages of a cursor *)

Lemma page_covers {A : Type} (l : list A) (n : nat) (x : A) :
  0 < n -> x ∈ l -> exists k, x ∈ take n (drop (k * n) l).
Proof.
  intros Hn Hx. apply list_elem_of_lookup in Hx as [i Hi].
  exists (i / n). apply list_elem_of_lookup. exists (i mod n).
  rewrite lookup_take_lt by (apply Nat.mod_upper_bound; lia).
  rewrite lookup_drop. rewrite <- Hi. f_equal.
  rewrite (Nat.div_mod_eq i n) at 3. lia.
Qed.

Lemma sort_desc_perm {A : Type} (key : A -> Z) (l : list A) : sort_desc key l ≡ₚ l.
Proof. apply merge_sort_Permutation. Qed.

(** ** Soft deletion and the listing of products *)

Section ProductListing.
Import Products.

Variable rt : Runtime.
Variable drv : Driver.

(** The ordering the database applies for a caller-chosen sort rearranges
    the cursor and nothing else. *)
Hypothesis cursor_sort_perm : forall (s : jsval) (l : list Product), cursor_sort drv s l ≡ₚ l.

Lemma sorted_perm (s : jsval) (l : list Product) : sorted drv s l ≡ₚ l.
Proof using cursor_sort_perm.
  unfold sorted. destruct (strict_eq s (JStr "-createdAt")); [apply sort_desc_perm | apply cursor_sort_perm].
Qed.

Lemma listProducts_inv query page limit db code listing :
  listProducts rt drv query page limit db = Json code listing ->
  let p := Pos.to_nat (default 1%positive page) in
  let l := Pos.to_nat (default 12%positive limit) in
  let total := length (find drv (buildFilter rt query) db) in
  code = 200
  /\ doc <$> products listing = take l (drop ((p - 1) * l) (cursor rt drv query db))
  /\ pagination listing
     = {| currentPage := p; totalPages := ceil_div total l; totalItems := total;
          hasNextPage := Nat.ltb (p * l) total; hasPrevPage := Nat.ltb 1 p |}.
Proof.
  unfold listProducts.
  destruct (if truthy (get query "fields") then _ else _) as [sel|]; [|discriminate].
  intros [= <- <-]. simpl. split; [done|]. split; [|done].
  rewrite <- list_fmap_compose. simpl. apply list_fmap_id.
Qed.

(** Whether the projection can be read does not depend on the page. *)
Lemma listProducts_other_page query page page' limit db code listing :
  listProducts rt drv query page limit db = Json code listing ->
  exists listing', listProducts rt drv query page' limit db = Json 200 listing'.
Proof.
  unfold listProducts.
  destruct (if truthy (get query "fields") then _ else _) as [sel|]; [|discriminate].
  intros _. eexists. reflexivity.
Qed.

Lemma listed_matches query page limit db code listing item :
  listProducts rt drv query page limit db = Json code listing ->
  item ∈ products listing ->
  doc item ∈ db /\ matches drv (buildFilter rt query) (doc item) = true.
Proof using cursor_sort_perm.
  intros Hl Hi. apply listProducts_inv in Hl as (_ & Hdocs & _).
  assert (doc item ∈ doc <$> products listing) as Hd by by apply list_elem_of_fmap_2.
  rewrite Hdocs in Hd.
  apply subseteq_take, subseteq_drop in Hd. unfold cursor in Hd.
  rewrite sorted_perm in Hd. unfold find in Hd.
  apply list_elem_of_In, List.filter_In in Hd as [Hd Hm]. split; [|done].
  by apply list_elem_of_In.
Qed.

Lemma product_find_id (id : string) (db : list Product) (p : Product) :
  findById id db = Some p -> _id p = id.
Proof.
  unfold findById. intros H. apply List.find_some in H as [_ H].
  by apply String.eqb_eq in H.
Qed.

Lemma product_find_save (p old : Product) (db : list Product) :
  findById (_id p) db = Some old -> findById (_id p) (save p db) = Some p.
Proof.
  unfold findById, save. induction db as [|x db IH]; simpl; [discriminate|].
  destruct (String.eqb (_id x) (_id p)) eqn:E; simpl.
  - intros _. by rewrite String.eqb_refl.
  - rewrite E. auto.
Qed.

Lemma product_save_In (p x : Product) (db : list Product) :
  x ∈ save p db -> _id x = _id p -> x = p.
Proof.
  unfold save. intros Hx Hid. apply list_elem_of_fmap in Hx as (y & -> & _).
  destruct (String.eqb (_id y) (_id p)) eqn:E; [done|].
  apply String.eqb_neq in E. done.
Qed.

Lemma product_save_elem (p old : Product) (db : list Product) :
  findById (_id p) db = Some old -> p ∈ save p db.
Proof.
  intros H. unfold findById in H. apply List.find_some in H as [Hin Hid].
  unfold save. apply list_elem_of_fmap. exists old. rewrite Hid. split; [done|].
  by apply list_elem_of_In.
Qed.

Lemma f_isActive_false (query : gmap string jsval) :
  f_isActive (buildFilter rt query) = false <->
  defined (get query "isActive") = true
  /\ get query "isActive" <> JBool true /\ get query "isActive" <> JStr "true".
Proof.
  unfold buildFilter. simpl. destruct (get query "isActive") as [| |[]| |v| |]; simpl;
    try (split; [done | by intros (? & ? & ?)]); try (split; [by repeat split|done]).
  rewrite orb_false_r. split.
  - intros H. repeat split; try done. intros [= ->]. discriminate.
  - intros (_ & _ & H). apply String.eqb_neq. congruence.
Qed.

Lemma discontinue_fields (product : Product) :
  field (discontinue product) "isActive" = JBool false
  /\ field (discontinue product) "availability" = JStr "Discontinued".
Proof.
  unfold field, get, discontinue. simpl. split.
  - rewrite lookup_insert_ne by done. by rewrite lookup_insert_eq.
  - by rewrite lookup_insert_eq.
Qed.

(** A creation that leaves [isActive] to the schema stores an active
    product. *)
Lemma createProduct_default_active user body files newId now db code p db' :
  createProduct rt user body files newId now db = (Json code p, db') ->
  code = 201 /\ _id p = newId /\ field p "isActive" = JBool true /\ db' = (db ++ [p])%list.
Proof.
  unfold createProduct. destruct (Nat.eqb (length files) 0); [discriminate|].
  destruct (match _ with JStr s => JSON_parse rt s | _ => _ end); [|discriminate].
  intros [= <- <- <-]. repeat split.
Qed.

(** C2. A product created with [isActive] left to its default is stored
    active; once it is soft-deleted ([isActive] false, availability
    [Discontinued]), a listing whose query has no [isActive] parameter, or one
    that selects the active products, never returns it, on any page; a
    listing returns it only under an [isActive] override other than [true],
    and under such an override ([false] for one) it is returned, on the page
    of its position, whenever it meets the other criteria of the query. *)
Theorem soft_deleted_listing (db : list Product) (id : string) (p : Product) :
  isValidObjectId id = true ->
  findById id db = Some p ->
  let p' := discontinue p in
  let db' := save p' db in
  (forall user body files newId now db0 code p0 db1,
      createProduct rt user body files newId now db0 = (Json code p0, db1) ->
      field p0 "isActive" = JBool true)
  /\ deleteProduct id db = (Json 200 tt, db')
  /\ findById id db' = Some p'
  /\ field p' "isActive" = JBool false
  /\ field p' "availability" = JStr "Discontinued"
  /\ forall query page limit code listing,
      listProducts rt drv query page limit db' = Json code listing ->
      (get query "isActive" = JUndefined \/ get query "isActive" = JBool true
       \/ get query "isActive" = JStr "true" ->
       forall item, item ∈ products listing -> _id (doc item) <> id)
      /\ (forall item, item ∈ products listing -> _id (doc item) = id ->
          doc item = p'
          /\ defined (get query "isActive") = true
          /\ get query "isActive" <> JBool true
          /\ get query "isActive" <> JStr "true"
          /\ criteria drv (buildFilter rt query) p' = true)
      /\ (defined (get query "isActive") = true ->
          get query "isActive" <> JBool true ->
          get query "isActive" <> JStr "true" ->
          criteria drv (buildFilter rt query) p' = true ->
          exists page' listing',
            listProducts rt drv query (Some page') limit db' = Json 200 listing'
            /\ exists item, item ∈ products listing' /\ doc item = p').
Proof using cursor_sort_perm.
  intros Hvalid Hfind p' db'.
  pose proof (product_find_id _ _ _ Hfind) as Hid.
  pose proof (discontinue_fields p) as [Hia Hav]. fold p' in Hia, Hav.
  assert (Hid' : _id p' = id) by exact Hid.
  assert (Hfind' : findById (_id p') db = Some p) by by rewrite Hid'.
  split; [intros * Hc; by apply createProduct_default_active in Hc as (_ & _ & ? & _)|].
  split; [unfold deleteProduct; by rewrite Hvalid, Hfind|].
  split; [rewrite <- Hid'; by eapply product_find_save|].
  do 2 (split; [done|]).
  intros query page limit code listing Hlist.
  assert (Hlisted : forall item, item ∈ products listing -> _id (doc item) = id ->
            doc item = p' /\ f_isActive (buildFilter rt query) = false
            /\ criteria drv (buildFilter rt query) p' = true).
  { intros item Hitem Hitemid.
    destruct (listed_matches _ _ _ _ _ _ _ Hlist Hitem) as [Hin Hm].
    assert (doc item = p') as Heq by (eapply product_save_In; [exact Hin | congruence]).
    rewrite Heq in Hm. unfold matches in Hm. apply andb_true_iff in Hm as [Hact Hrest].
    rewrite Hia in Hact. apply strict_eq_JBool in Hact. injection Hact as Hact.
    repeat split; [exact Heq | by symmetry | exact Hrest]. }
  split; [|split].
  - intros Hq item Hitem Hitemid.
    destruct (Hlisted item Hitem Hitemid) as (_ & Hf & _).
    apply f_isActive_false in Hf as (Hdef & Hnt & Hns).
    destruct Hq as [Hq | [Hq | Hq]]; rewrite Hq in *; done.
  - intros item Hitem Hitemid.
    destruct (Hlisted item Hitem Hitemid) as (Heq & Hf & Hcrit).
    apply f_isActive_false in Hf as (Hdef & Hnt & Hns). done.
  - intros Hdef Hnt Hns Hcrit.
    assert (f_isActive (buildFilter rt query) = false) as Hf
      by by apply f_isActive_false.
    assert (p' ∈ cursor rt drv query db') as Hcur.
    { unfold cursor. rewrite sorted_perm. unfold find.
      apply list_elem_of_In, List.filter_In. split.
      - apply list_elem_of_In. by eapply product_save_elem.
      - unfold matches. rewrite Hia, Hf, Hcrit. done. }
    apply (page_covers _ (Pos.to_nat (default 12%positive limit))) in Hcur as [k Hk]; [|lia].
    destruct (listProducts_other_page query page (Some (Pos.of_succ_nat k)) limit
                db' code listing Hlist) as [listing' Hlist'].
    exists (Pos.of_succ_nat k), listing'. split; [done|].
    apply listProducts_inv in Hlist' as (_ & Hdocs & _). simpl in Hdocs.
    rewrite SuccNat2Pos.id_succ in Hdocs.
    replace (S k - 1) with k in Hdocs by lia.
    rewrite <- Hdocs in Hk. apply list_elem_of_fmap in Hk as (item & -> & Hitem).
    by exists item.
Qed.

End ProductListing.

(** The laptop, soft-deleted, is absent from the default listing and present
    under [isActive=false]. *)
Lemma soft_deleted_listing_scenario :
  let id := "64b000000000000000000001" in
  let db' := Products.save (Products.discontinue Sample.laptop) [Sample.laptop] in
  Products.deleteProduct id [Sample.laptop] = (Json 200 tt, db')
  /\ (forall listing,
        Products.listProducts Sample.rt Sample.drv ∅ None None db' = Json 200 listing ->
        forall item, item ∈ Products.products listing ->
                     Products._id (Products.doc item) <> id)
  /\ exists page listing,
       Products.listProducts Sample.rt Sample.drv {["isActive" := JBool false]}
         (Some page) None db' = Json 200 listing
       /\ exists item, item ∈ Products.products listing
                       /\ Products.doc item = Products.discontinue Sample.laptop.
Proof.
  intros id db'.
  destruct (soft_deleted_listing Sample.rt Sample.drv (fun _ l => reflexivity l)
              [Sample.laptop] id Sample.laptop eq_refl eq_refl)
    as (_ & Hdel & _ & _ & _ & Hlist).
  split; [exact Hdel|]. split.
  - intros listing Hl. destruct (Hlist ∅ None None 200 listing Hl) as (Hout & _ & _).
    apply Hout. by left.
  - destruct (Hlist {["isActive" := JBool false]} None None 200
                (Products.Build_Listing
                   [Products.Build_Projected None (Products.discontinue Sample.laptop)]
                   (Products.Build_Pagination 1 1 1 false false)))
      as (_ & _ & Hin).
    + vm_compute. reflexivity.
    + apply Hin; [reflexivity | discriminate | discriminate | vm_compute; reflexivity].
Defined.

(** ** Images of a product and their storage identifiers *)

Section ProductImages.
Import Products.

Lemma filter_truthy_all {A : Type} (g : A -> jsval) (l : list A) :
  Forall (fun x => truthy (g x) = true) l -> List.filter truthy (g <$> l) = g <$> l.
Proof.
  induction 1 as [|x l Hx _ IH]; [done|].
  rewrite fmap_cons. simpl. rewrite Hx. f_equal. apply IH.
Qed.

(** A creation stores one URL and one identifier per uploaded file, in the
    order of the files. *)
Lemma createProduct_aligned rt user body files newId now db code p db' :
  Forall uploaded files ->
  createProduct rt user body files newId now db = (Json code p, db') ->
  images p = (fun f => js_or (path f) (secure_url f)) <$> files
  /\ imagePublicIds p = (fun f => js_or (filename f) (public_id f)) <$> files.
Proof.
  intros Hup. unfold createProduct. destruct (Nat.eqb (length files) 0); [discriminate|].
  destruct (match _ with JStr s => JSON_parse rt s | _ => _ end); [|discriminate].
  intros [= <- <- <-]. simpl. split; apply filter_truthy_all.
  - eapply Forall_impl; [exact Hup|]. by intros f [? _].
  - eapply Forall_impl; [exact Hup|]. by intros f [_ ?].
Qed.

End ProductImages.

(** C3, at an input where it fails. A product holds two images with their
    two identifiers; an update that removes the first identifier leaves both
    URLs and one identifier, so that the second URL stands against no
    identifier and the first against the identifier of the second. *)
Theorem updateProduct_removal_misaligns :
  exists p db',
    Products.updateProduct Sample.rt "64b000000000000000000001"
      {["removePublicIds" := JStr "products/1"]} [] [Sample.laptop]
    = (Json 200 p, db')
    /\ Products.images p = [JStr "https://img/1.png"; JStr "https://img/2.png"]
    /\ Products.imagePublicIds p = [JStr "products/2"]
    /\ length (Products.images p) <> length (Products.imagePublicIds p)
    /\ Products.findById "64b000000000000000000001" db' = Some p.
Proof.
  eexists. eexists. split; [vm_compute; reflexivity|].
  repeat split. simpl. lia.
Qed.

(** ** The directory of users *)

Section UserGuards.
Import Users.

Lemma user_find_id (id : string) (db : list User) (u : User) :
  findById id db = Some u -> _id u = id.
Proof.
  unfold findById. intros H. apply List.find_some in H as [_ H].
  by apply String.eqb_eq in H.
Qed.

(** The two guards on the acting admin, where the route parameter is the
    admin's id as [toString()] prints it: a request to set the role of that
    account to [user] is refused with the self-demotion error, a request to
    delete it with SelfDeleteForbidden, and the collection is left as it was.
    Neither refusal is ever the answer to a request under another
    parameter, and the account such a parameter names is deactivated by a
    deletion. *)
Lemma self_guards_on_own_id (user : Caller) (body : gmap string jsval) (db : list User)
    (self : User) :
  isValidObjectId (caller_id user) = true ->
  findById (ObjectId (caller_id user)) db = Some self ->
  (get body "role" = JStr "user" ->
   updateUser user (caller_id user) [] body db = (SelfDemotion, db))
  /\ deleteUser user (caller_id user) db = (SelfDeleteForbidden, db)
  /\ (forall id errors body',
        id <> caller_id user ->
        fst (updateUser user id errors body' db) <> SelfDemotion)
  /\ (forall id,
        id <> caller_id user ->
        fst (deleteUser user id db) <> SelfDeleteForbidden
        /\ forall target, isValidObjectId id = true ->
             findById (ObjectId id) db = Some target ->
             deleteUser user id db = (Json 200 tt, save (deactivate target) db)).
Proof.
  intros Hvalid Hself. split; [|split; [|split]].
  - intros Hrole. unfold updateUser. simpl. rewrite Hvalid, Hself. simpl.
    by rewrite String.eqb_refl, Hrole.
  - unfold deleteUser. rewrite Hvalid, Hself. simpl. by rewrite String.eqb_refl.
  - intros id errors body' Hne. unfold updateUser.
    assert (String.eqb (caller_id user) id = false) as Hneq
      by (apply String.eqb_neq; congruence).
    destruct (negb (Nat.eqb (length errors) 0)); [discriminate|].
    destruct (negb (isValidObjectId id)); [discriminate|].
    destruct (findById (ObjectId id) db); [|discriminate].
    rewrite Hneq. simpl.
    destruct (if _ || _ then _ else _) as [existing|].
    + simpl. destruct (strict_eq _ _); discriminate.
    + destruct (violates_unique _ _); discriminate.
  - intros id Hne.
    assert (String.eqb (caller_id user) id = false) as Hneq
      by (apply String.eqb_neq; congruence).
    split.
    + unfold deleteUser. destruct (negb (isValidObjectId id)); [discriminate|].
      destruct (findById (ObjectId id) db); [|discriminate]. rewrite Hneq. discriminate.
    + intros target Hv Hf. unfold deleteUser. by rewrite Hv, Hf, Hneq.
Qed.

End UserGuards.

(** The admin can neither demote nor delete their own account under its id
    as it is printed, and can deactivate Alice. *)
Lemma self_guards_scenario :
  let db := Sample.directory in
  Users.updateUser Sample.admin "64a000000000000000000001" [] {["role" := JStr "user"]} db
  = (Users.SelfDemotion, db)
  /\ Users.deleteUser Sample.admin "64a000000000000000000001" db
     = (Users.SelfDeleteForbidden, db)
  /\ Users.deleteUser Sample.admin "64a000000000000000000002" db
     = (Json 200 tt, Users.save (Users.deactivate Sample.alice_doc) db).
Proof.
  intros db.
  destruct (self_guards_on_own_id Sample.admin {["role" := JStr "user"]} db Sample.root
              eq_refl eq_refl) as (Hup & Hdel & _ & Hother).
  split; [by apply Hup|]. split; [exact Hdel|].
  destruct (Hother "64a000000000000000000002") as [_ Hoff]; [discriminate|].
  by apply Hoff.
Qed.

(** C8, at an input where it fails. The admin names their own account by
    its id with one hexadecimal digit in upper case. The queries cast the
    parameter to the ObjectId of the admin and find the account; the two
    guards compare the parameter, as a string, with the id as it is printed,
    and do not fire. The update to the role [user] succeeds and the stored
    role of the admin is [user]; the deletion succeeds and the account of the
    admin is inactive. *)
Theorem self_guards_miss_a_spelling :
  let own := "64A000000000000000000001" in
  isValidObjectId own = true
  /\ ObjectId own = caller_id Sample.admin
  /\ Users.findById (ObjectId own) Sample.directory = Some Sample.root
  /\ Users.field Sample.root "role" = JStr "admin"
  /\ Users.field Sample.root "isActive" = JBool true
  /\ (exists shown db',
        Users.updateUser Sample.admin own [] {["role" := JStr "user"]} Sample.directory
        = (Json 200 shown, db')
        /\ Users.field shown "role" = JStr "user"
        /\ exists u', Users.findById (caller_id Sample.admin) db' = Some u'
                      /\ Users.field u' "role" = JStr "user")
  /\ (exists db',
        Users.deleteUser Sample.admin own Sample.directory = (Json 200 tt, db')
        /\ exists u', Users.findById (caller_id Sample.admin) db' = Some u'
                      /\ Users.field u' "isActive" = JBool false).
Proof.
  intros own. repeat (split; [vm_compute; reflexivity|]). split.
  - eexists. eexists. split; [vm_compute; reflexivity|]. split; [vm_compute; reflexivity|].
    eexists. split; [vm_compute; reflexivity|]. vm_compute. reflexivity.
  - eexists. split; [vm_compute; reflexivity|].
    eexists. split; [vm_compute; reflexivity|]. vm_compute. reflexivity.
Qed.

(** The guard on the role reads the key [role] of the body alone: under the
    admin's id as it is printed, a body that sets the role through [$set]
    passes it, and the stored role of the admin is [user]. *)
Lemma self_demotion_through_set :
  exists shown db',
    Users.updateUser Sample.admin "64a000000000000000000001" []
      {["$set" := JObj [("role", JStr "user")]]} Sample.directory
    = (Json 200 shown, db')
    /\ exists u', Users.findById "64a000000000000000000001" db' = Some u'
                  /\ Users.field u' "role" = JStr "user".
Proof.
  eexists. eexists. split; [vm_compute; reflexivity|].
  eexists. split; [vm_compute; reflexivity|]. vm_compute. reflexivity.
Qed.

(** C4, at an input where it fails. The admin sends a body whose only key
    is [password]: the update succeeds and the stored password of the target
    is the plain value of the request, no longer the hash it held. *)
Theorem updateUser_writes_password :
  exists shown db',
    Users.updateUser Sample.admin "64a000000000000000000002" []
      {["password" := JStr "letmein"]} Sample.directory
    = (Json 200 shown, db')
    /\ (exists u, Users.findById "64a000000000000000000002" Sample.directory = Some u
                  /\ Users.field u "password" = JStr "$2a$10$aliceHash")
    /\ (exists u', Users.findById "64a000000000000000000002" db' = Some u'
                   /\ Users.field u' "password" = JStr "letmein").
Proof.
  eexists. eexists. split; [vm_compute; reflexivity|]. split.
  - eexists. split; [vm_compute; reflexivity|]. reflexivity.
  - eexists. split; [vm_compute; reflexivity|]. reflexivity.
Qed.

(** With one of the two fields in the body, a value that another user
    holds is refused as a conflict, and the collection is left as it was. *)
Lemma updateUser_conflict_single_field (user : Caller) (id : string)
    (body : gmap string jsval) (db : list Users.User) (target other : Users.User) :
  isValidObjectId id = true ->
  Users.findById (ObjectId id) db = Some target ->
  String.eqb (caller_id user) id && strict_eq (get body "role") (JStr "user") = false ->
  other ∈ db -> Users._id other <> ObjectId id ->
  (truthy (get body "email") = true /\ truthy (get body "phone") = false
   /\ strict_eq (Users.field other "email") (get body "email") = true)
  \/ (truthy (get body "phone") = true /\ truthy (get body "email") = false
      /\ strict_eq (Users.field other "phone") (get body "phone") = true) ->
  Users.updateUser user id [] body db = (Users.EmailConflict, db)
  \/ Users.updateUser user id [] body db = (Users.PhoneConflict, db).
Proof.
  intros Hvalid Hfind Hguard Hin Hne Hheld.
  unfold Users.updateUser. simpl. rewrite Hvalid, Hfind, Hguard. simpl.
  assert (Hany : truthy (get body "email") || truthy (get body "phone") = true)
    by (destruct Hheld as [(-> & _) | (-> & _)]; [done | apply orb_true_r]).
  rewrite Hany. unfold Users.findConflict.
  destruct (List.find _ db) as [existing|] eqn:E.
  - destruct (strict_eq (Users.field existing "email") (get body "email"));
      [left | right]; reflexivity.
  - exfalso. apply List.find_none with (x := other) in E; [|by apply list_elem_of_In].
    apply String.eqb_neq in Hne. rewrite Hne in E. simpl in E.
    destruct Hheld as [(He & Hp & Hm) | (Hp & He & Hm)]; rewrite He, Hp, Hm in E; done.
Qed.

(** C5, at an input where it fails. Bela holds the e-mail the admin gives
    Alice, together with a phone nobody holds: no conflict is found, because
    the lookup asks for one user holding both values, and the write is turned
    down by the unique index with a server error. The same e-mail sent alone
    is refused as a conflict. *)
Theorem updateUser_misses_conflict :
  Users.updateUser Sample.admin "64a000000000000000000002" []
    (list_to_map [("email", JStr "bela@shop.in"); ("phone", JStr "9000000009")])
    Sample.directory
  = (Fail 500 "Server error while updating user", Sample.directory)
  /\ Users.findConflict "64a000000000000000000002" (JStr "bela@shop.in") (JStr "9000000009")
       Sample.directory = None
  /\ Users.updateUser Sample.admin "64a000000000000000000002" []
       {["email" := JStr "bela@shop.in"]} Sample.directory
     = (Users.EmailConflict, Sample.directory).
Proof. repeat split; vm_compute; reflexivity. Qed.

(** ** Listing and pricing of bookings *)

#[global] Instance newer_first_total {A : Type} (key : A -> Z) : Total (newer_first key).
Proof. intros a b. unfold newer_first. lia. Qed.

#[global] Instance newer_first_trans {A : Type} (key : A -> Z) : Transitive (newer_first key).
Proof. intros a b c. unfold newer_first. lia. Qed.

Lemma sort_desc_sorted {A : Type} (key : A -> Z) (l : list A) :
  StronglySorted (newer_first key) (sort_desc key l).
Proof. apply StronglySorted_merge_sort; apply _. Qed.

(** In a list sorted newest first, a later position never holds a later
    date. *)
Lemma sorted_positions {A : Type} (key : A -> Z) (l : list A) (i j : nat) (a b : A) :
  StronglySorted (newer_first key) l ->
  i < j -> l !! i = Some a -> l !! j = Some b -> (key b <= key a)%Z.
Proof.
  intros Hs. revert i j. induction Hs as [|x l Hs IH Hall]; intros i j Hij Hi Hj.
  - by rewrite lookup_nil in Hi.
  - destruct j as [|j]; [lia|]. destruct i as [|i]; simpl in *.
    + injection Hi as <-. rewrite Forall_forall in Hall. apply Hall.
      by eapply list_elem_of_lookup_2.
    + eapply (IH i j); [lia|done..].
Qed.

Section BookingList.
Import Bookings.

(** C9. The list of bookings answers an admin with every booking and any
    other caller with exactly the bookings whose [userId] is the caller's id
    (each as often as it is stored), and in both cases in the order of their
    dates, newest first: a booking listed after another was not placed
    later. *)
Theorem getBookings_scoped_newest_first (user : Caller) (db : list Booking) :
  exists bookings,
    getBookings user db = Json 200 bookings
    /\ (caller_role user = "admin" -> bookings ≡ₚ db)
    /\ (caller_role user <> "admin" ->
        bookings ≡ₚ List.filter (fun b => String.eqb (userId b) (caller_id user)) db
        /\ forall b, b ∈ bookings <-> b ∈ db /\ userId b = caller_id user)
    /\ StronglySorted (newer_first orderDate) bookings
    /\ forall i j a b, i < j -> bookings !! i = Some a -> bookings !! j = Some b ->
                       (orderDate b <= orderDate a)%Z.
Proof.
  unfold getBookings. eexists. split; [reflexivity|].
  destruct (String.eqb (caller_role user) "admin") eqn:E.
  - apply String.eqb_eq in E. split; [intros _; apply sort_desc_perm|].
    split; [done|]. split; [apply sort_desc_sorted|].
    intros i j a b. apply sorted_positions, sort_desc_sorted.
  - apply String.eqb_neq in E. split; [done|]. split.
    + intros _. split; [apply sort_desc_perm|].
      intros b. rewrite sort_desc_perm, list_elem_of_In, List.filter_In, String.eqb_eq.
      by rewrite list_elem_of_In.
    + split; [apply sort_desc_sorted|].
      intros i j a b. apply sorted_positions, sort_desc_sorted.
Qed.

(** The answer to a creation depends on the referenced product through its
    availability alone. *)
Lemma createBooking_product_blind user body newId now products products' db pid
    (product product' : Products.Product) :
  get body "productId" = JStr pid ->
  Products.findById pid products = Some product ->
  Products.findById pid products' = Some product' ->
  Products.field product "availability" = Products.field product' "availability" ->
  createBooking user body newId now products db
  = createBooking user body newId now products' db.
Proof.
  intros Hpid Hf Hf' Hav. unfold createBooking. rewrite Hpid.
  destruct (_ || _); [done|]. unfold castObjectId.
  destruct (isValidObjectId pid); [|done]. by rewrite Hf, Hf', Hav.
Qed.

(** A document appended under an id that no stored booking has is the one
    that id finds. *)
Lemma booking_find_app_fresh (b : Booking) (db : list Booking) :
  Forall (fun x => _id x <> _id b) db -> findById (_id b) (db ++ [b])%list = Some b.
Proof.
  unfold findById. induction 1 as [|x db Hx _ IH]; simpl.
  - by rewrite String.eqb_refl.
  - apply String.eqb_neq in Hx. by rewrite Hx.
Qed.

(** C10. A booking that is created is stored, last in the collection and
    after the bookings that were there, holding under each key of its pricing
    snapshot the value of the request when that value is truthy and 0
    otherwise; its id then finds it, with those values. Two products that
    differ in anything but their availability (price, discount, stock) get
    the same answer and leave the same collection, snapshot included, for the
    same request. *)
Theorem createBooking_pricing_snapshot user body newId now products db code b db' :
  createBooking user body newId now products db = (Json code b, db') ->
  let stored (key : string) : jsval :=
    if truthy (get body key) then get body key else JNum 0 in
  actualPrice b = stored "actualPrice"
  /\ strikePrice b = stored "strikePrice"
  /\ sellingPrice b = stored "sellingPrice"
  /\ totalAmount b = stored "totalAmount"
  /\ discountPercentage b = stored "discountPercentage"
  /\ (forall products' pid product product',
       get body "productId" = JStr pid ->
       Products.findById pid products = Some product ->
       Products.findById pid products' = Some product' ->
       Products.field product "availability" = Products.field product' "availability" ->
       createBooking user body newId now products' db = (Json code b, db'))
  /\ db' = (db ++ [b])%list
  /\ last db' = Some b
  /\ _id b = newId
  /\ (Forall (fun x => _id x <> newId) db ->
      exists s, findById newId db' = Some s
                /\ actualPrice s = stored "actualPrice"
                /\ strikePrice s = stored "strikePrice"
                /\ sellingPrice s = stored "sellingPrice"
                /\ totalAmount s = stored "totalAmount"
                /\ discountPercentage s = stored "discountPercentage").
Proof.
  intros Hc stored.
  assert (Hblind : forall products' pid product product',
       get body "productId" = JStr pid ->
       Products.findById pid products = Some product ->
       Products.findById pid products' = Some product' ->
       Products.field product "availability" = Products.field product' "availability" ->
       createBooking user body newId now products' db = (Json code b, db')).
  { intros products' pid product product' Hpid Hf Hf' Hav. rewrite <- Hc. symmetry.
    by eapply createBooking_product_blind. }
  unfold createBooking in Hc.
  destruct (_ || _); [discriminate|].
  destruct (castObjectId _); [|discriminate].
  destruct (Products.findById _ _); [|discriminate].
  destruct (negb _); [discriminate|].
  injection Hc as <- <- <-.
  set (b := Booking_create newId now _) in *.
  repeat (split; [first [reflexivity | exact Hblind]|]).
  split; [apply last_snoc|]. split; [reflexivity|].
  intros Hfresh. exists b. split; [|by repeat split].
  by apply (booking_find_app_fresh b).
Qed.

End BookingList.

(** Alice's order names a selling price only; it is answered alike against
    the laptop and against the laptop at another price, discount and stock. *)
Lemma createBooking_pricing_scenario :
  exists b db',
    Bookings.createBooking Sample.alice Sample.order "64c000000000000000000001" 200
      [Sample.laptop] [] = (Json 201 b, db')
    /\ Bookings.sellingPrice b = JNum 50000
    /\ Bookings.actualPrice b = JNum 0
    /\ Bookings.totalAmount b = JNum 0
    /\ Bookings.createBooking Sample.alice Sample.order "64c000000000000000000001" 200
         [Sample.repriced] [] = (Json 201 b, db')
    /\ exists s, Bookings.findById "64c000000000000000000001" db' = Some s
                 /\ Bookings.sellingPrice s = JNum 50000.
Proof.
  eexists. eexists.
  assert (Hc : Bookings.createBooking Sample.alice Sample.order "64c000000000000000000001"
                 200 [Sample.laptop] []
               = (Json 201 _, _)) by (vm_compute; reflexivity).
  destruct (createBooking_pricing_snapshot _ _ _ _ _ _ _ _ _ Hc)
    as (Ha & _ & Hs & Ht & _ & Hblind & _ & _ & _ & Hstored).
  split; [exact Hc|]. split; [exact Hs|]. split; [exact Ha|]. split; [exact Ht|].
  split.
  - eapply (Hblind [Sample.repriced] "64b000000000000000000001" Sample.laptop
              Sample.repriced); reflexivity.
  - destruct (Hstored (Forall_nil_2 _)) as (s & Hf & _ & _ & Hss & _).
    exists s. split; [exact Hf | exact Hss].
Defined.

(** ** Pagination *)

Lemma ceil_div_le (n l k : nat) : 0 < l -> ceil_div n l <= k <-> n <= k * l.
Proof.
  intros Hl. unfold ceil_div.
  pose proof (Nat.div_mod_eq n l) as Hn.
  pose proof (Nat.mod_upper_bound n l ltac:(lia)) as Hr.
  generalize dependent (n / l). generalize dependent (n mod l). intros r Hr q Hn.
  rewrite (Nat.mul_comm k l). destruct (Nat.eqb r 0) eqn:E.
  - apply Nat.eqb_eq in E. subst. rewrite !Nat.add_0_r.
    apply Nat.mul_le_mono_pos_l. lia.
  - apply Nat.eqb_neq in E. subst. split; intros H.
    + assert (l * (q + 1) <= l * k) by (apply Nat.mul_le_mono_l; lia). lia.
    + destruct (Nat.le_gt_cases (q + 1) k) as [|Hlt]; [assumption|].
      assert (l * k <= l * q) by (apply Nat.mul_le_mono_l; lia). lia.
Qed.

Lemma ceil_div_bounds (n l : nat) :
  0 < l -> n <= ceil_div n l * l < n + l.
Proof.
  intros Hl. split.
  - by apply ceil_div_le.
  - destruct (ceil_div n l) as [|t] eqn:E; [lia|].
    assert (~ n <= t * l) as Hlt by (rewrite <- ceil_div_le by done; lia).
    simpl. lia.
Qed.

Lemma page_length {A : Type} (S : list A) (p l : nat) :
  0 < p ->
  length (take l (drop ((p - 1) * l) S)) = min (p * l) (length S) - (p - 1) * l.
Proof.
  intros Hp. rewrite length_take, length_drop.
  replace (p * l) with ((p - 1) * l + l) by (destruct p; simpl; lia). lia.
Qed.

Lemma page_lookup {A : Type} (S : list A) (p l i : nat) :
  i < l -> take l (drop ((p - 1) * l) S) !! i = S !! ((p - 1) * l + i).
Proof. intros Hi. by rewrite lookup_take_lt, lookup_drop. Qed.

Lemma more_follow {A : Type} (S : list A) (k : nat) : drop k S <> [] <-> k < length S.
Proof.
  split.
  - intros H. destruct (decide (k < length S)); [done|].
    exfalso. apply H. apply drop_ge. lia.
  - intros H Hnil. apply (f_equal length) in Hnil. rewrite length_drop in Hnil.
    simpl in Hnil. lia.
Qed.

Lemma page_contract_intro {A : Type} (S : list A) (p l : nat) :
  0 < p -> 0 < l ->
  page_contract S p l (take l (drop ((p - 1) * l) S)) p (ceil_div (length S) l)
    (Nat.ltb (p * l) (length S)) (Nat.ltb 1 p).
Proof.
  intros Hp Hl. unfold page_contract. simpl.
  split; [done|]. split; [by apply ceil_div_bounds|].
  split; [intros k; by apply ceil_div_le|].
  split; [apply Nat.ltb_lt|]. split; [by rewrite Nat.ltb_lt, more_follow|].
  split; [done|]. split; [by apply page_length|].
  intros i Hi. apply page_lookup. rewrite length_take in Hi. lia.
Qed.

Section Pagination.

Variable rt : Runtime.
Variable drv : Products.Driver.
Hypothesis cursor_sort_perm :
  forall (s : jsval) (l : list Products.Product), Products.cursor_sort drv s l ≡ₚ l.

Lemma cursor_length query db :
  length (Products.cursor rt drv query db)
  = length (Products.find drv (Products.buildFilter rt query) db).
Proof using cursor_sort_perm.
  unfold Products.cursor. by rewrite (sorted_perm drv cursor_sort_perm).
Qed.

Lemma listProducts_page query page limit db code listing :
  Products.listProducts rt drv query page limit db = Json code listing ->
  page_contract (Products.cursor rt drv query db)
    (Pos.to_nat (default 1%positive page)) (Pos.to_nat (default 12%positive limit))
    (Products.doc <$> Products.products listing)
    (Products.currentPage (Products.pagination listing))
    (Products.totalPages (Products.pagination listing))
    (Products.hasNextPage (Products.pagination listing))
    (Products.hasPrevPage (Products.pagination listing))
  /\ Products.totalItems (Products.pagination listing)
     = length (Products.cursor rt drv query db).
Proof using cursor_sort_perm.
  intros H. apply listProducts_inv in H as (_ & Hdocs & Hpag).
  rewrite Hdocs, Hpag. simpl. rewrite <- cursor_length.
  split; [apply page_contract_intro; lia | done].
Qed.

Lemma getUsers_page query page limit db :
  let S := Users.without_password
             <$> sort_desc Users.createdAt
                   (List.filter (Users.matches rt (get query "role") (get query "search")) db) in
  exists listing,
    Users.getUsers rt [] query page limit db = Json 200 listing
    /\ page_contract S
         (Pos.to_nat (default 1%positive page)) (Pos.to_nat (default 10%positive limit))
         (Users.users listing)
         (Users.currentPage (Users.pagination listing))
         (Users.totalPages (Users.pagination listing))
         (Users.hasNextPage (Users.pagination listing))
         (Users.hasPrevPage (Users.pagination listing))
    /\ Users.totalUsers (Users.pagination listing) = length S.
Proof.
  intros S. unfold Users.getUsers. simpl. eexists. split; [reflexivity|]. simpl.
  set (p := Pos.to_nat (default 1%positive page)).
  set (l := Pos.to_nat (default 10%positive limit)).
  set (found := List.filter _ db).
  assert (Hlen : length S = length found).
  { unfold S. by rewrite length_fmap, sort_desc_perm. }
  rewrite fmap_take, fmap_drop. fold S. rewrite <- Hlen. split; [|done].
  pose proof (page_contract_intro S p l ltac:(lia) ltac:(lia)) as Hc.
  unfold page_contract in *. simpl in *.
  destruct Hc as (H1 & H0 & H2 & H3 & H4 & H5 & H6 & H7).
  repeat split; try done; try apply H0; try apply H2; try apply H3.
  - (* [page < totalPages] says that more records follow *)
    intros Hnext. apply H4. apply Nat.ltb_lt. apply Nat.ltb_lt in Hnext.
    destruct (Nat.le_gt_cases (length S) (p * l)) as [Hle|]; [|done].
    apply (ceil_div_le (length S) l p) in Hle; lia.
  - intros Hnext. apply H4 in Hnext. apply Nat.ltb_lt in Hnext. apply Nat.ltb_lt.
    destruct (Nat.le_gt_cases (ceil_div (length S) l) p) as [Hle|]; [|done].
    apply (ceil_div_le (length S) l p) in Hle; lia.
Qed.

(** C7. A listing of products, and likewise the directory of users, answers
    the 1-indexed page [p] with limit [l] over the [n] matching records with
    [currentPage = p], [totalPages] the ceiling of [n / l] (the least [k] with
    [n <= k * l], so that [n <= totalPages * l < n + l]), [hasPrevPage]
    exactly when [p > 1], [hasNextPage] exactly
    when records follow the page, and as items the records at the positions
    [(p-1)*l+1] to [min(p*l, n)] of the sorted cursor. With 15 matching
    products, page 2 with limit 10 returns the items 11 to 15, no next page, a
    previous page, and 2 pages in all. *)
Theorem pagination_contract :
  (forall query page limit db code listing,
      Products.listProducts rt drv query page limit db = Json code listing ->
      page_contract (Products.cursor rt drv query db)
        (Pos.to_nat (default 1%positive page)) (Pos.to_nat (default 12%positive limit))
        (Products.doc <$> Products.products listing)
        (Products.currentPage (Products.pagination listing))
        (Products.totalPages (Products.pagination listing))
        (Products.hasNextPage (Products.pagination listing))
        (Products.hasPrevPage (Products.pagination listing))
      /\ Products.totalItems (Products.pagination listing)
         = length (Products.cursor rt drv query db))
  /\ (forall query page limit db,
      let S := Users.without_password
                 <$> sort_desc Users.createdAt
                       (List.filter
                          (Users.matches rt (get query "role") (get query "search")) db) in
      exists listing,
        Users.getUsers rt [] query page limit db = Json 200 listing
        /\ page_contract S
             (Pos.to_nat (default 1%positive page)) (Pos.to_nat (default 10%positive limit))
             (Users.users listing)
             (Users.currentPage (Users.pagination listing))
             (Users.totalPages (Users.pagination listing))
             (Users.hasNextPage (Users.pagination listing))
             (Users.hasPrevPage (Users.pagination listing))
        /\ Users.totalUsers (Users.pagination listing) = length S)
  /\ (forall query db,
      get query "fields" = JUndefined ->
      length (Products.find drv (Products.buildFilter rt query) db) = 15 ->
      exists listing,
        Products.listProducts rt drv query (Some 2%positive) (Some 10%positive) db
        = Json 200 listing
        /\ Products.doc <$> Products.products listing
           = drop 10 (Products.cursor rt drv query db)
        /\ length (Products.products listing) = 5
        /\ Products.hasNextPage (Products.pagination listing) = false
        /\ Products.hasPrevPage (Products.pagination listing) = true
        /\ Products.totalPages (Products.pagination listing) = 2).
Proof using cursor_sort_perm.
  split; [exact listProducts_page|]. split; [exact getUsers_page|].
  intros query db Hfields Hn.
  assert (exists listing, Products.listProducts rt drv query (Some 2%positive)
                            (Some 10%positive) db = Json 200 listing) as [listing Hl].
  { unfold Products.listProducts. rewrite Hfields. simpl. eexists. reflexivity. }
  exists listing. split; [exact Hl|].
  pose proof (cursor_length query db) as Hlen. rewrite Hn in Hlen.
  apply listProducts_inv in Hl as (_ & Hdocs & Hpag). simpl in Hdocs.
  change (Pos.to_nat 2) with 2 in *. change (Pos.to_nat 10) with 10 in *.
  rewrite Hn in Hpag. rewrite Hpag. simpl.
  assert (Hdocs' : Products.doc <$> Products.products listing
                   = drop 10 (Products.cursor rt drv query db)).
  { rewrite Hdocs. apply take_ge. rewrite length_drop. lia. }
  split; [exact Hdocs'|]. split; [|done].
  rewrite <- (length_fmap Products.doc), Hdocs', length_drop. lia.
Qed.

End Pagination.

(** Page 2 with limit 10 of the fifteen products, newest first: the five
    oldest. *)
Lemma pagination_scenario :
  exists listing,
    Products.listProducts Sample.rt Sample.drv ∅ (Some 2%positive) (Some 10%positive)
      Sample.catalogue = Json 200 listing
    /\ Products.createdAt <$> (Products.doc <$> Products.products listing)
       = [5; 4; 3; 2; 1]%Z
    /\ Products.hasNextPage (Products.pagination listing) = false
    /\ Products.hasPrevPage (Products.pagination listing) = true
    /\ Products.totalPages (Products.pagination listing) = 2.
Proof.
  destruct (pagination_contract Sample.rt Sample.drv (fun _ l => reflexivity l))
    as (_ & _ & Hexample).
  destruct (Hexample ∅ Sample.catalogue) as (listing & Hl & Hdocs & _ & Hn & Hp & Ht).
  - reflexivity.
  - vm_compute. reflexivity.
  - exists listing. split; [exact Hl|]. split; [|by repeat split].
    rewrite Hdocs. vm_compute. reflexivity.
Defined.

(** ** The two shapes of features and tags *)

Lemma split_comma_plain (x : string) : comma_free x = true -> split_comma x = [x].
Proof.
  induction x as [|c x IH]; simpl; [done|].
  intros H. apply andb_true_iff in H as [Hc Hx]. apply negb_true_iff in Hc.
  rewrite Hc, (IH Hx). done.
Qed.

Lemma split_comma_app (x s : string) :
  comma_free x = true -> split_comma (x ++ String "," s) = x :: split_comma s.
Proof.
  induction x as [|c x IH]; simpl; [done|].
  intros H. apply andb_true_iff in H as [Hc Hx]. apply negb_true_iff in Hc.
  rewrite Hc, (IH Hx). done.
Qed.

Lemma split_join (xs : list string) :
  xs <> [] -> Forall (fun s => comma_free s = true) xs ->
  split_comma (join "," xs) = xs.
Proof.
  intros Hne Hall. induction Hall as [|x xs Hx Hall IH]; [done|].
  destruct xs as [|y xs].
  - by apply split_comma_plain.
  - change (join "," (x :: y :: xs)) with (x ++ String "," (join "," (y :: xs))).
    rewrite split_comma_app by done. f_equal. by apply IH.
Qed.

Lemma join_truthy (rt : Runtime) (xs : list string) :
  xs <> [] -> Forall (plain rt) xs -> truthy (JStr (join "," xs)) = true.
Proof.
  intros Hne Hall. destruct Hall as [|x xs [Hx _] _]; [done|].
  simpl. apply negb_true_iff, String.eqb_neq.
  destruct xs; [done|]. destruct x; [done|]. done.
Qed.

(** The pieces of the delimited string of plain elements, trimmed and
    without the empty ones, are the elements. *)
Lemma pieces_plain (rt : Runtime) (xs : list string) :
  Forall (plain rt) xs -> filter_Boolean (trim rt <$> split_comma (join "," xs)) = xs.
Proof.
  intros Hall. destruct (decide (xs = [])) as [->|Hne]; [done|].
  rewrite split_join; [|done|by eapply Forall_impl; [exact Hall|]; intros s (_ & ? & _)].
  clear Hne. induction Hall as [|x xs (Hx & _ & Ht) _ IH]; [done|].
  rewrite fmap_cons, Ht. unfold filter_Boolean in *. simpl.
  apply String.eqb_neq in Hx. rewrite Hx. simpl. by f_equal.
Qed.

Lemma pieces_plain_lower (rt : Runtime) (xs : list string) :
  Forall (plain rt) xs -> Forall (fun s => toLowerCase rt s = s) xs ->
  (fun s => toLowerCase rt (trim rt s)) <$> split_comma (join "," xs)
  = trim rt <$> split_comma (join "," xs).
Proof.
  intros Hall Hlow. destruct (decide (xs = [])) as [->|Hne]; [done|].
  rewrite split_join; [|done|by eapply Forall_impl; [exact Hall|]; intros s (_ & ? & _)].
  clear Hne. induction Hall as [|x xs (_ & _ & Ht) _ IH]; [done|].
  apply Forall_cons in Hlow as [Hx Hlow]. rewrite !fmap_cons, Ht, Hx. f_equal. by apply IH.
Qed.

Lemma get_insert_eq (o : gmap string jsval) (k : string) (v : jsval) :
  get (<[k := v]> o) k = v.
Proof. unfold get. by rewrite lookup_insert_eq. Qed.

Lemma get_insert_ne (o : gmap string jsval) (k k' : string) (v : jsval) :
  k <> k' -> get (<[k := v]> o) k' = get o k'.
Proof. intros. unfold get. by rewrite lookup_insert_ne. Qed.

Section Shapes.
Import Products.

Variable rt : Runtime.

Lemma splitFeatures_plain (xs : list string) :
  Forall (plain rt) xs -> splitFeatures rt (join "," xs) = strings xs.
Proof. intros H. unfold splitFeatures. by rewrite pieces_plain. Qed.

Lemma splitTags_plain (xs : list string) :
  Forall (plain rt) xs -> Forall (fun s => toLowerCase rt s = s) xs ->
  splitTags rt (join "," xs) = strings xs.
Proof.
  intros H Hl. unfold splitTags. by rewrite pieces_plain_lower, pieces_plain.
Qed.

Lemma filterTags_plain (xs : list string) :
  xs <> [] -> Forall (plain rt) xs -> Forall (fun s => toLowerCase rt s = s) xs ->
  filterTags rt (JStr (join "," xs)) = JStr <$> xs.
Proof.
  intros Hne H Hl. unfold filterTags. cbn [toString]. rewrite pieces_plain_lower by done.
  rewrite split_join; [|done|by eapply Forall_impl; [exact H|]; intros s (_ & ? & _)].
  f_equal. clear Hne Hl. induction H as [|x xs (_ & _ & Ht) _ IH]; [done|].
  rewrite fmap_cons, Ht. by f_equal.
Qed.

Lemma createProduct_features_shapes xs : Forall (plain rt) xs -> (forall user body files newId now db,
        createProduct rt user (<["features" := strings xs]> body) files newId now db
        = createProduct rt user (<["features" := JStr (join "," xs)]> body) files newId now db).
Proof.
  intros Hplain. intros. unfold createProduct.
  rewrite !get_insert_eq.
  rewrite !(get_insert_ne _ "features") by (intros [=]).
  unfold createFeatures. cbn [isArray strings toString]. by rewrite splitFeatures_plain.
Qed.

Lemma parseFeatures_shapes xs body : Forall (plain rt) xs ->
  parseFeatures rt (<["features" := JStr (join "," xs)]> body)
  = parseFeatures rt (<["features" := strings xs]> body).
Proof.
  intros Hplain. unfold parseFeatures. rewrite !get_insert_eq. cbn [strings updateFeatures].
  by rewrite insert_insert_eq, splitFeatures_plain.
Qed.

Lemma updateProduct_features_shapes xs : Forall (plain rt) xs -> (forall id body files db,
        updateProduct rt id (<["features" := strings xs]> body) files db
        = updateProduct rt id (<["features" := JStr (join "," xs)]> body) files db).
Proof.
  intros Hplain. intros. unfold updateProduct. by rewrite parseFeatures_shapes.
Qed.

Lemma createProduct_tags_shapes xs : Forall (plain rt) xs -> Forall (fun s => toLowerCase rt s = s) xs ->
      (forall user body files newId now db,
          createProduct rt user (<["tags" := strings xs]> body) files newId now db
          = createProduct rt user (<["tags" := JStr (join "," xs)]> body) files newId now db).
Proof.
  intros Hplain Hlow. intros. unfold createProduct.
  rewrite !get_insert_eq.
  rewrite !(get_insert_ne _ "tags") by (intros [=]).
  unfold createTags. cbn [isArray strings toString]. by rewrite splitTags_plain.
Qed.

Lemma parseTags_shapes xs body : Forall (plain rt) xs -> Forall (fun s => toLowerCase rt s = s) xs ->
  parseTags rt (parseFeatures rt (<["tags" := JStr (join "," xs)]> body))
  = parseTags rt (parseFeatures rt (<["tags" := strings xs]> body)).
Proof.
  intros Hplain Hlow.
  assert (Hnorm : forall v, parseFeatures rt (<["tags" := v]> body)
                            = <["tags" := v]> (parseFeatures rt body)).
  { intros v. unfold parseFeatures. rewrite get_insert_ne by (intros [=]).
    destruct (get body "features"); try done. rewrite insert_insert_ne; [done|intros [=]]. }
  rewrite !Hnorm. unfold parseTags. rewrite !get_insert_eq. cbn [strings updateTags].
  by rewrite insert_insert_eq, splitTags_plain.
Qed.

Lemma updateProduct_tags_shapes xs : Forall (plain rt) xs -> Forall (fun s => toLowerCase rt s = s) xs ->
    (forall id body files db,
          updateProduct rt id (<["tags" := strings xs]> body) files db
          = updateProduct rt id (<["tags" := JStr (join "," xs)]> body) files db).
Proof.
  intros Hplain Hlow. intros. unfold updateProduct. by rewrite parseTags_shapes.
Qed.

Lemma buildFilter_tags_shapes xs : Forall (plain rt) xs -> Forall (fun s => toLowerCase rt s = s) xs ->
   (xs <> [] ->
          forall query,
            buildFilter rt (<["tags" := strings xs]> query)
            = buildFilter rt (<["tags" := JStr (join "," xs)]> query)).
Proof.
  intros Hplain Hlow Hne query. unfold buildFilter.
    rewrite !get_insert_eq. rewrite !(get_insert_ne _ "tags") by (intros [=]).
    rewrite (join_truthy rt) by done. cbn [truthy strings]. rewrite filterTags_plain by done. reflexivity.
Qed.

(** C6, as the code has it. A delimited string is split on commas, each
    piece trimmed (and lowercased for tags) and, on creation and update, the
    empty pieces dropped; a list is taken as it is. The two shapes of the same
    elements are stored alike by a creation and by an update when every
    element is plain (not empty, without a comma, trimmed) and, for tags,
    lowercase; the tag filter of a listing is then the same for both shapes of
    a list that is not empty. *)
Theorem shapes_agree_on_plain_elements (xs : list string) :
  Forall (plain rt) xs ->
  (forall l, createFeatures rt (JArr l) = JArr l /\ updateFeatures rt (JArr l) = JArr l
             /\ createTags rt (JArr l) = JArr l /\ updateTags rt (JArr l) = JArr l
             /\ filterTags rt (JArr l) = l)
  /\ (forall s, createFeatures rt (JStr s) = strings (filter_Boolean (trim rt <$> split_comma s))
                /\ updateFeatures rt (JStr s) = createFeatures rt (JStr s)
                /\ createTags rt (JStr s)
                   = strings (filter_Boolean
                                ((fun x => toLowerCase rt (trim rt x)) <$> split_comma s))
                /\ updateTags rt (JStr s) = createTags rt (JStr s))
  /\ (forall user body files newId now db,
        createProduct rt user (<["features" := strings xs]> body) files newId now db
        = createProduct rt user (<["features" := JStr (join "," xs)]> body) files newId now db)
  /\ (forall id body files db,
        updateProduct rt id (<["features" := strings xs]> body) files db
        = updateProduct rt id (<["features" := JStr (join "," xs)]> body) files db)
  /\ (Forall (fun s => toLowerCase rt s = s) xs ->
      (forall user body files newId now db,
          createProduct rt user (<["tags" := strings xs]> body) files newId now db
          = createProduct rt user (<["tags" := JStr (join "," xs)]> body) files newId now db)
      /\ (forall id body files db,
          updateProduct rt id (<["tags" := strings xs]> body) files db
          = updateProduct rt id (<["tags" := JStr (join "," xs)]> body) files db)
      /\ (xs <> [] ->
          forall query,
            buildFilter rt (<["tags" := strings xs]> query)
            = buildFilter rt (<["tags" := JStr (join "," xs)]> query))).
Proof.
  intros Hplain. split; [done|]. split; [done|].
  split; [by apply createProduct_features_shapes|].
  split; [by apply updateProduct_features_shapes|].
  intros Hlow. split; [by apply createProduct_tags_shapes|].
  split; [by apply updateProduct_tags_shapes|].
  by apply buildFilter_tags_shapes.
Qed.

End Shapes.

(** C6, as stated, fails: a list is stored as it is, so an element in upper
    case, with white space at an end, or empty, is kept where the delimited
    string of the same elements is lowercased, trimmed and freed of it. *)
Lemma shapes_disagree :
  Products.createTags Sample.rt (strings ["Gaming"])
  <> Products.createTags Sample.rt (JStr (join "," ["Gaming"]))
  /\ Products.updateTags Sample.rt (strings ["Gaming"])
     <> Products.updateTags Sample.rt (JStr (join "," ["Gaming"]))
  /\ Products.filterTags Sample.rt (strings ["Gaming"])
     <> Products.filterTags Sample.rt (JStr (join "," ["Gaming"]))
  /\ Products.createFeatures Sample.rt (strings ["16GB RAM "; "SSD"])
     <> Products.createFeatures Sample.rt (JStr (join "," ["16GB RAM "; "SSD"]))
  /\ Products.updateFeatures Sample.rt (strings ["SSD"; ""])
     <> Products.updateFeatures Sample.rt (JStr (join "," ["SSD"; ""])).
Proof. repeat split; vm_compute; discriminate. Qed.

(** Two lowercase tags, as a list and as one string. *)
Lemma shapes_agree_scenario :
  Products.createProduct Sample.rt Sample.admin
    (<["tags" := strings ["gaming"; "laptop"]]> {["name" := JStr "Laptop"]})
    [Fixtures.photo] "64b000000000000000000002" 300 []
  = Products.createProduct Sample.rt Sample.admin
      (<["tags" := JStr (join "," ["gaming"; "laptop"])]> {["name" := JStr "Laptop"]})
      [Fixtures.photo] "64b000000000000000000002" 300 []
  /\ Products.buildFilter Sample.rt (<["tags" := strings ["gaming"; "laptop"]]> ∅)
     = Products.buildFilter Sample.rt (<["tags" := JStr (join "," ["gaming"; "laptop"])]> ∅).
Proof.
  assert (Hplain : Forall (plain Sample.rt) ["gaming"; "laptop"])
    by (repeat constructor; done).
  assert (Hlow : Forall (fun s => toLowerCase Sample.rt s = s) ["gaming"; "laptop"])
    by (repeat constructor).
  destruct (shapes_agree_on_plain_elements Sample.rt ["gaming"; "laptop"] Hplain)
    as (_ & _ & _ & _ & Htags).
  destruct (Htags Hlow) as (Hcreate & _ & Hfilter).
  split; [apply Hcreate | by apply Hfilter].
Defined.

(** * Further properties of the handlers *)

(** ** Bookings: who may read and write, and what a write leaves alone *)

Section BookingAccess.
Import Bookings BookingReads.

Lemma booking_save_ids (b : Booking) (db : list Booking) :
  _id <$> save b db = _id <$> db.
Proof.
  unfold save. rewrite <- list_fmap_compose. apply list_fmap_ext.
  intros i x _. simpl. destruct (String.eqb (_id x) (_id b)) eqn:E; [|done].
  apply String.eqb_eq in E. done.
Qed.

(** The keys a population selects are shown as the document has them, and
    no other key is shown. *)
Lemma selected_keys (keys : list string) (m : gmap string jsval) (k : string) :
  (k ∈ keys -> filter (fun kv => kv.1 ∈ keys) m !! k = m !! k)
  /\ (k ∉ keys -> filter (fun kv => kv.1 ∈ keys) m !! k = None).
Proof.
  split; intros Hk.
  - destruct (m !! k) as [v|] eqn:E.
    + by apply map_lookup_filter_Some_2.
    + apply map_lookup_filter_None_2. by left.
  - apply map_lookup_filter_None_2. right. intros v _. exact Hk.
Qed.

Lemma populate_user_keys (users : list Users.User) (id : string) (r : Ref) (u : Users.User) :
  Users.findById id users = Some u ->
  populate_user users id = Some r ->
  ref_id r = id
  /\ forall k, (k ∈ ["name"; "email"; "phone"] -> ref_fields r !! k = Users.fields u !! k)
               /\ (k ∉ ["name"; "email"; "phone"] -> ref_fields r !! k = None).
Proof.
  unfold populate_user. intros E. rewrite E.
  intros [= <-]. simpl. split; [by eapply user_find_id|].
  intros k. apply selected_keys.
Qed.

(** A booking is shown to its owner and to an admin, as it is stored, with
    the name, e-mail and phone of the owner's account and nothing else of it
    (no password, no role), and with the name, category, description and
    features of the product it names when that product is there; any other
    caller is refused, and nothing of the booking is shown. *)
Theorem getBookingById_visibility (user : Caller) (id : string)
    (products : list Products.Product) (users : list Users.User) (db : list Booking)
    (b : Booking) (owner : Users.User) :
  isValidObjectId id = true ->
  findById id db = Some b ->
  Users.findById (userId b) users = Some owner ->
  (caller_role user = "admin" \/ userId b = caller_id user ->
   exists shown,
     getBookingById user id products users db = Json 200 shown
     /\ booking shown = b
     /\ ref_id (user_ref shown) = userId b
     /\ (forall k, k ∈ ["name"; "email"; "phone"] ->
                   ref_fields (user_ref shown) !! k = Users.fields owner !! k)
     /\ (forall k, k ∉ ["name"; "email"; "phone"] ->
                   ref_fields (user_ref shown) !! k = None)
     /\ (forall pid p,
           productId b = JStr pid -> isValidObjectId pid = true ->
           Products.findById pid products = Some p ->
           exists r,
             product_ref shown = Some r /\ ref_id r = pid
             /\ (forall k, k ∈ ["name"; "category"; "description"; "features"] ->
                           ref_fields r !! k = Products.fields p !! k)
             /\ (forall k, k ∉ ["name"; "category"; "description"; "features"] ->
                           ref_fields r !! k = None)))
  /\ (caller_role user <> "admin" -> userId b <> caller_id user ->
      getBookingById user id products users db
      = Fail 403 "Not authorized to view this booking").
Proof.
  intros Hvalid Hfind Howner.
  assert (exists r, populate_user users (userId b) = Some r) as [r Hr]
    by (unfold populate_user; rewrite Howner; eauto).
  destruct (populate_user_keys _ _ _ _ Howner Hr) as [Hid Hkeys].
  unfold getBookingById. rewrite Hvalid, Hfind, Hr. simpl. rewrite Hid. split.
  - intros Hauth.
    assert (negb (String.eqb (caller_role user) "admin")
            && negb (String.eqb (userId b) (caller_id user)) = false) as ->.
    { destruct Hauth as [-> | ->]; [done|]. rewrite String.eqb_refl. apply andb_false_r. }
    eexists. split; [reflexivity|]. cbn [booking user_ref product_ref].
    split; [done|]. split; [done|].
    split; [intros k; apply Hkeys|]. split; [intros k; apply Hkeys|].
    intros pid p Hpid Hv Hp. unfold populate_product, castObjectId. rewrite Hpid, Hv, Hp.
    eexists. split; [reflexivity|]. cbn [ref_id ref_fields].
    split; [by eapply product_find_id|]. split; intros k; apply selected_keys.
  - intros Hrole Hnot. apply String.eqb_neq in Hrole, Hnot. by rewrite Hrole, Hnot.
Qed.

(** A caller who is not an admin completes nothing, and cancels nothing of
    another user: the answer is a refusal and the collection is unchanged. *)
Theorem booking_writes_need_authority (user : Caller) (id : string)
    (body : gmap string jsval) (db : list Booking) :
  caller_role user <> "admin" ->
  completeBooking user id db = (Fail 403 "Not authorized. Admin access required.", db)
  /\ (forall b, isValidObjectId id = true -> findById id db = Some b ->
                userId b <> caller_id user ->
                cancelBooking user id body db
                = (Fail 403 "Not authorized to cancel this booking", db))
  /\ ((forall b, findById id db = Some b -> userId b <> caller_id user) ->
      snd (cancelBooking user id body db) = db).
Proof.
  intros Hrole. apply String.eqb_neq in Hrole.
  assert (Hcomplete : completeBooking user id db
                      = (Fail 403 "Not authorized. Admin access required.", db))
    by (unfold completeBooking; by rewrite Hrole).
  assert (Hcancel : forall b, isValidObjectId id = true -> findById id db = Some b ->
                      userId b <> caller_id user ->
                      cancelBooking user id body db
                      = (Fail 403 "Not authorized to cancel this booking", db)).
  { intros b Hv Hf Hne. apply String.eqb_neq in Hne.
    unfold cancelBooking. by rewrite Hv, Hf, Hrole, Hne. }
  repeat split; [done|done|]. intros Hothers.
  destruct (findById id db) as [b|] eqn:Hf.
  - destruct (isValidObjectId id) eqn:Hv.
    + by rewrite (Hcancel b eq_refl eq_refl (Hothers b eq_refl)).
    + unfold cancelBooking. by rewrite Hv.
  - unfold cancelBooking. destruct (negb (isValidObjectId id)); [done|]. by rewrite Hf.
Qed.

End BookingAccess.

Section BookingFrames.
Import Bookings BookingReads.

(** A cancellation that succeeds stores the reason the body gives, or, when
    it gives none, one naming the actor (an admin who owns the booking counts
    as the admin); it changes nothing else of the booking, and no other
    booking. *)
Theorem cancelBooking_reason_and_frame (user : Caller) (id : string)
    (body : gmap string jsval) (db db' : list Booking) (bk bk' : Booking) (code : nat) :
  findById id db = Some bk ->
  cancelBooking user id body db = (Json code bk', db') ->
  status bk' = "cancelled"
  /\ cancellationReason bk'
     = (if truthy (get body "reason") then get body "reason"
        else if String.eqb (caller_role user) "admin" then JStr "Cancelled by Admin"
        else JStr "Cancelled by customer")
  /\ snapshot bk' = snapshot bk
  /\ findById id db' = Some bk'
  /\ _id <$> db' = _id <$> db
  /\ forall id', id' <> id -> findById id' db' = findById id' db.
Proof.
  intros Hf. unfold cancelBooking.
  destruct (negb (isValidObjectId id)); [discriminate|]. rewrite Hf.
  destruct (_ && _); [discriminate|].
  destruct (String.eqb (status bk) "cancelled"); [discriminate|].
  destruct (String.eqb (status bk) "completed"); [discriminate|].
  set (bk1 := set_cancellationReason _ _). intros [= <- <- <-].
  pose proof (booking_find_id _ _ _ Hf) as Hid.
  split; [done|]. split.
  { unfold bk1, js_or. simpl.
    destruct (truthy (get body "reason")); [done|].
    by destruct (String.eqb (caller_role user) "admin"). }
  split; [done|]. split.
  { rewrite <- Hid. apply (booking_find_save_same bk1 db bk).
    change (findById (_id bk) db = Some bk). by rewrite Hid. }
  split; [apply booking_save_ids|].
  intros id' Hne. apply booking_find_save_other. simpl. congruence.
Qed.

(** One request keeps what the creation fixed of every stored booking, and
    keeps a booking that is cancelled or completed as it is. *)
Lemma handle_keeps (r : request) (db : list Booking) (id : string) (bk : Booking) :
  findById id db = Some bk ->
  exists bk', findById id (handle r db) = Some bk'
              /\ snapshot bk' = snapshot bk
              /\ (status bk = "cancelled" \/ status bk = "completed" -> bk' = bk).
Proof.
  intros Hf.
  assert (Hkeep : exists bk', findById id db = Some bk' /\ snapshot bk' = snapshot bk
                    /\ (status bk = "cancelled" \/ status bk = "completed" -> bk' = bk))
    by (exists bk; auto).
  pose proof (booking_find_id _ _ _ Hf) as Hid.
  destruct r as [user body newId now products | user id0 body | user id0]; simpl.
  - unfold createBooking.
    repeat (match goal with
            | |- context [if ?c then _ else _] => destruct c
            | |- context [match ?c with Some _ => _ | None => _ end] => destruct c
            end; simpl; try exact Hkeep).
    exists bk. split; [by apply booking_find_app | auto].
  - unfold cancelBooking.
    destruct (negb (isValidObjectId id0)); [exact Hkeep|].
    destruct (findById id0 db) as [bk0|] eqn:Hf0; [|exact Hkeep].
    destruct (_ && _); [exact Hkeep|].
    destruct (String.eqb (status bk0) "cancelled") eqn:E1; [exact Hkeep|].
    destruct (String.eqb (status bk0) "completed") eqn:E2; [exact Hkeep|].
    pose proof (booking_find_id _ _ _ Hf0) as Hid0.
    set (bk1 := set_cancellationReason _ _). simpl.
    destruct (decide (id0 = id)) as [->|Hne].
    + assert (bk0 = bk) as -> by congruence.
      exists bk1. split; [|split; [done|]].
      * rewrite <- Hid. apply (booking_find_save_same bk1 db bk).
        change (findById (_id bk) db = Some bk). by rewrite Hid.
      * apply String.eqb_neq in E1, E2. intros [? | ?]; congruence.
    + exists bk. split; [|auto]. rewrite booking_find_save_other; [done|].
      simpl. congruence.
  - unfold completeBooking.
    destruct (negb (String.eqb _ _)); [exact Hkeep|].
    destruct (negb (isValidObjectId id0)); [exact Hkeep|].
    destruct (findById id0 db) as [bk0|] eqn:Hf0; [|exact Hkeep].
    destruct (String.eqb (status bk0) "completed") eqn:E1; [exact Hkeep|].
    destruct (String.eqb (status bk0) "cancelled") eqn:E2; [exact Hkeep|].
    pose proof (booking_find_id _ _ _ Hf0) as Hid0.
    set (bk1 := updateStatus _ _). simpl.
    destruct (decide (id0 = id)) as [->|Hne].
    + assert (bk0 = bk) as -> by congruence.
      exists bk1. split; [|split; [done|]].
      * rewrite <- Hid. apply (booking_find_save_same bk1 db bk).
        change (findById (_id bk) db = Some bk). by rewrite Hid.
      * apply String.eqb_neq in E1, E2. intros [? | ?]; congruence.
    + exists bk. split; [|auto]. rewrite booking_find_save_other; [done|].
      simpl. congruence.
Qed.

Lemma run_app (rs rs' : list request) :
  run (rs ++ rs') = foldl (fun db r => handle r db) (run rs) rs'.
Proof. unfold run. apply foldl_app. Qed.

Lemma foldl_keeps (rs : list request) (db : list Booking) (id : string) (bk : Booking) :
  findById id db = Some bk ->
  exists bk', findById id (foldl (fun db r => handle r db) db rs) = Some bk'
              /\ snapshot bk' = snapshot bk
              /\ (status bk = "cancelled" \/ status bk = "completed" -> bk' = bk).
Proof.
  revert db bk. induction rs as [|r rs IH]; intros db bk Hf; simpl; [exists bk; auto|].
  destruct (handle_keeps r db id bk Hf) as (bk1 & Hf1 & Hs1 & Ht1).
  destruct (IH _ _ Hf1) as (bk2 & Hf2 & Hs2 & Ht2).
  exists bk2. split; [done|]. split; [congruence|].
  intros Hterm. pose proof (Ht1 Hterm) as ->. by apply Ht2.
Qed.

(** Whatever requests follow, a stored booking keeps the product, contact
    and pricing snapshot, the owner and the dates it was created with: only
    its status and the reason of its cancellation can differ. *)
Theorem booking_snapshot_is_kept (rs rs' : list request) (id : string) (bk : Booking) :
  findById id (run rs) = Some bk ->
  exists bk', findById id (run (rs ++ rs')) = Some bk'
              /\ snapshot bk' = snapshot bk
              /\ actualPrice bk' = actualPrice bk /\ sellingPrice bk' = sellingPrice bk
              /\ totalAmount bk' = totalAmount bk /\ quantity bk' = quantity bk
              /\ userId bk' = userId bk /\ productId bk' = productId bk
              /\ customerAddress bk' = customerAddress bk.
Proof.
  intros Hf. rewrite run_app.
  destruct (foldl_keeps rs' _ id bk Hf) as (bk' & Hf' & Hs & _).
  exists bk'. split; [done|]. split; [done|].
  unfold snapshot, set_cancellationReason, updateStatus in Hs. simpl in Hs.
  injection Hs as ?????????????????. done.
Qed.

(** A booking that is cancelled or completed stays so, with the reason it
    has, whatever requests follow. *)
Theorem booking_terminal_is_final (rs rs' : list request) (id : string) (bk : Booking) :
  findById id (run rs) = Some bk ->
  status bk = "cancelled" \/ status bk = "completed" ->
  findById id (run (rs ++ rs')) = Some bk.
Proof.
  intros Hf Hterm. rewrite run_app.
  destruct (foldl_keeps rs' _ id bk Hf) as (bk' & Hf' & _ & Hsame).
  by rewrite Hf', (Hsame Hterm).
Qed.

Lemma handle_ids (r : request) (db : list Booking) :
  (_id <$> db) `prefix_of` (_id <$> handle r db).
Proof.
  destruct r as [user body newId now products | user id0 body | user id0]; simpl.
  - unfold createBooking.
    repeat (match goal with
            | |- context [if ?c then _ else _] => destruct c
            | |- context [match ?c with Some _ => _ | None => _ end] => destruct c
            end; simpl; try done).
    rewrite fmap_app. by apply prefix_app_r.
  - unfold cancelBooking.
    destruct (negb (isValidObjectId id0)); [done|].
    destruct (findById id0 db) as [bk0|]; [|done].
    destruct (_ && _); [done|].
    destruct (String.eqb (status bk0) "cancelled"); [done|].
    destruct (String.eqb (status bk0) "completed"); [done|].
    simpl. by rewrite booking_save_ids.
  - unfold completeBooking.
    destruct (negb (String.eqb _ _)); [done|].
    destruct (negb (isValidObjectId id0)); [done|].
    destruct (findById id0 db) as [bk0|]; [|done].
    destruct (String.eqb (status bk0) "completed"); [done|].
    destruct (String.eqb (status bk0) "cancelled"); [done|].
    simpl. by rewrite booking_save_ids.
Qed.

(** No request removes or reorders bookings: the bookings stored after more
    requests begin with the ids stored before, in the same order, and each
    request adds at most one. *)
Theorem bookings_are_never_removed (rs rs' : list request) :
  (_id <$> run rs) `prefix_of` (_id <$> run (rs ++ rs'))
  /\ length (run (rs ++ rs')) <= length (run rs) + length rs'.
Proof.
  rewrite run_app. generalize (run rs) as db. induction rs' as [|r rs' IH]; intros db; simpl.
  - split; [done|lia].
  - destruct (IH (handle r db)) as [Hp Hl]. split.
    + etrans; [apply handle_ids | exact Hp].
    + assert (length (handle r db) <= S (length db)); [|lia].
      destruct r as [user body newId now products | user id0 body | user id0]; simpl.
      * unfold createBooking.
        repeat (match goal with
                | |- context [if ?c then _ else _] => destruct c
                | |- context [match ?c with Some _ => _ | None => _ end] => destruct c
                end; simpl; try lia).
        rewrite length_app. simpl. lia.
      * unfold cancelBooking.
        destruct (negb (isValidObjectId id0)); [simpl; lia|].
        destruct (findById id0 db) as [bk0|]; [|simpl; lia].
        destruct (_ && _); [simpl; lia|].
        destruct (String.eqb (status bk0) "cancelled"); [simpl; lia|].
        destruct (String.eqb (status bk0) "completed"); [simpl; lia|].
        simpl. unfold save. rewrite length_fmap. lia.
      * unfold completeBooking.
        destruct (negb (String.eqb _ _)); [simpl; lia|].
        destruct (negb (isValidObjectId id0)); [simpl; lia|].
        destruct (findById id0 db) as [bk0|]; [|simpl; lia].
        destruct (String.eqb (status bk0) "completed"); [simpl; lia|].
        destruct (String.eqb (status bk0) "cancelled"); [simpl; lia|].
        simpl. unfold save. rewrite length_fmap. lia.
Qed.

End BookingFrames.

(** Alice sees her booking, with her name but not her password. *)
Lemma getBookingById_visibility_scenario :
  exists shown,
    BookingReads.getBookingById Sample.alice Fixtures.booking_id [Sample.laptop]
      Sample.directory (Bookings.run Sample.placed) = Json 200 shown
    /\ BookingReads.ref_fields (BookingReads.user_ref shown) !! "name" = Some (JStr "Alice")
    /\ BookingReads.ref_fields (BookingReads.user_ref shown) !! "password" = None.
Proof.
  assert (exists b, Bookings.findById Fixtures.booking_id (Bookings.run Sample.placed) = Some b
                    /\ Bookings.userId b = caller_id Sample.alice) as (b & Hb & Hu)
    by (eexists; split; vm_compute; reflexivity).
  assert (Users.findById (Bookings.userId b) Sample.directory = Some Sample.alice_doc) as Ho
    by (rewrite Hu; vm_compute; reflexivity).
  destruct (getBookingById_visibility Sample.alice Fixtures.booking_id [Sample.laptop]
              Sample.directory (Bookings.run Sample.placed) b Sample.alice_doc
              eq_refl Hb Ho) as [Hshow _].
  destruct (Hshow (or_intror Hu)) as (shown & Hs & _ & _ & Hin & Hout & _).
  exists shown. split; [exact Hs|]. split.
  - rewrite Hin; [reflexivity|]. apply elem_of_cons. by left.
  - apply Hout. rewrite !not_elem_of_cons. repeat split; try done. apply not_elem_of_nil.
Defined.

(** Bela can neither complete nor cancel Alice's booking. *)
Lemma booking_writes_need_authority_scenario :
  Bookings.completeBooking Fixtures.bela Fixtures.booking_id (Bookings.run Sample.placed)
  = (Fail 403 "Not authorized. Admin access required.", Bookings.run Sample.placed).
Proof.
  destruct (booking_writes_need_authority Fixtures.bela Fixtures.booking_id ∅
              (Bookings.run Sample.placed)) as (H & _ & _); [discriminate|exact H].
Defined.

(** Alice cancels her booking without giving a reason. *)
Lemma cancelBooking_reason_scenario :
  exists bk' db',
    Bookings.cancelBooking Sample.alice Fixtures.booking_id ∅ (Bookings.run Sample.placed)
    = (Json 200 bk', db')
    /\ Bookings.cancellationReason bk' = JStr "Cancelled by customer"
    /\ Bookings.status bk' = "cancelled".
Proof.
  assert (exists b, Bookings.findById Fixtures.booking_id (Bookings.run Sample.placed) = Some b)
    as (b & Hb) by (eexists; vm_compute; reflexivity).
  assert (exists bk' db', Bookings.cancelBooking Sample.alice Fixtures.booking_id ∅
                            (Bookings.run Sample.placed) = (Json 200 bk', db'))
    as (bk' & db' & Hc) by (eexists; eexists; vm_compute; reflexivity).
  destruct (cancelBooking_reason_and_frame _ _ _ _ _ _ _ _ Hb Hc) as (Hs & Hr & _).
  exists bk', db'. split; [exact Hc|]. split; [exact Hr | exact Hs].
Defined.

(** The selling price of Alice's order survives the completion and the
    requests after it. *)
Lemma booking_snapshot_scenario :
  exists bk', Bookings.findById Fixtures.booking_id
                (Bookings.run (Fixtures.completed ++ Fixtures.afterwards)) = Some bk'
              /\ Bookings.sellingPrice bk' = JNum 50000.
Proof.
  assert (exists b, Bookings.findById Fixtures.booking_id (Bookings.run Fixtures.completed)
                    = Some b /\ Bookings.sellingPrice b = JNum 50000) as (b & Hb & Hp)
    by (eexists; split; vm_compute; reflexivity).
  destruct (booking_snapshot_is_kept Fixtures.completed Fixtures.afterwards
              Fixtures.booking_id b Hb) as (bk' & Hf & _ & _ & Hs & _).
  exists bk'. split; [exact Hf | congruence].
Defined.

(** The completed booking is still completed after the admin's two further
    requests. *)
Lemma booking_terminal_scenario :
  exists bk, Bookings.findById Fixtures.booking_id
               (Bookings.run (Fixtures.completed ++ Fixtures.afterwards)) = Some bk
             /\ Bookings.status bk = "completed".
Proof.
  assert (exists b, Bookings.findById Fixtures.booking_id (Bookings.run Fixtures.completed)
                    = Some b /\ Bookings.status b = "completed") as (b & Hb & Hs)
    by (eexists; split; vm_compute; reflexivity).
  exists b. split; [|exact Hs].
  apply (booking_terminal_is_final Fixtures.completed Fixtures.afterwards
           Fixtures.booking_id b Hb (or_intror Hs)).
Defined.

(** ** Products: soft deletion, updates and counters *)

Section ProductWrites.
Import Products Catalog.

Lemma product_find_save_other (id : string) (p : Product) (db : list Product) :
  _id p <> id -> findById id (save p db) = findById id db.
Proof.
  intros Hne. unfold findById, save. induction db as [|x db IH]; simpl; [done|].
  destruct (String.eqb (_id x) (_id p)) eqn:E; simpl.
  - apply String.eqb_eq in E.
    assert (String.eqb (_id p) id = false) as -> by by apply String.eqb_neq.
    assert (String.eqb (_id x) id = false) as -> by (apply String.eqb_neq; congruence).
    exact IH.
  - destruct (String.eqb (_id x) id); auto.
Qed.

Lemma product_save_twice (p q : Product) (db : list Product) :
  _id q = _id p -> save q (save p db) = save q db.
Proof.
  intros Hid. unfold save. rewrite <- list_fmap_compose. apply list_fmap_ext.
  intros i x _. simpl. rewrite Hid.
  destruct (String.eqb (_id x) (_id p)) eqn:E; [by rewrite String.eqb_refl | by rewrite E].
Qed.

Lemma product_find_app_fresh (id : string) (db : list Product) (p : Product) :
  Forall (fun x => _id x <> id) db -> _id p = id -> findById id (db ++ [p]) = Some p.
Proof.
  intros Hfresh Hid. unfold findById. induction Hfresh as [|x db Hx _ IH]; simpl.
  - by rewrite Hid, String.eqb_refl.
  - apply String.eqb_neq in Hx. by rewrite Hx.
Qed.

Lemma discontinue_twice (p : Product) : discontinue (discontinue p) = discontinue p.
Proof.
  unfold discontinue. simpl. f_equal. apply map_eq. intros k.
  rewrite !lookup_insert. repeat case_decide; done.
Qed.

Lemma deleteProduct_found (db : list Product) (id : string) (p : Product) :
  isValidObjectId id = true ->
  findById id db = Some p ->
  snd (deleteProduct id db) = save (discontinue p) db
  /\ findById id (snd (deleteProduct id db)) = Some (discontinue p).
Proof.
  intros Hvalid Hfind.
  pose proof (product_find_id _ _ _ Hfind) as Hid.
  assert (Hdb' : snd (deleteProduct id db) = save (discontinue p) db)
    by (unfold deleteProduct; by rewrite Hvalid, Hfind).
  split; [done|]. rewrite Hdb', <- Hid. apply (product_find_save (discontinue p) p).
  change (findById (_id p) db = Some p). by rewrite Hid.
Qed.

(** A soft-deleted product is still answered by its id, inactive and
    discontinued, and deleting it again succeeds and changes nothing. *)
Theorem soft_delete_keeps_the_record (db : list Product) (id : string) (p : Product) :
  isValidObjectId id = true ->
  findById id db = Some p ->
  let db' := snd (deleteProduct id db) in
  getProduct id db' = Json 200 (discontinue p)
  /\ _id <$> db' = _id <$> db
  /\ (forall id', id' <> id -> getProduct id' db' = getProduct id' db)
  /\ deleteProduct id db' = (Json 200 tt, db').
Proof.
  intros Hvalid Hfind db'.
  pose proof (product_find_id _ _ _ Hfind) as Hid.
  destruct (deleteProduct_found db id p Hvalid Hfind) as [Hdb' Hfind'].
  fold db' in Hdb', Hfind'.
  split; [unfold getProduct; by rewrite Hvalid, Hfind'|]. split.
  { rewrite Hdb'. unfold save. rewrite <- list_fmap_compose. apply list_fmap_ext.
    intros i x _. simpl. destruct (String.eqb (_id x) (_id p)) eqn:E; [|done].
    by apply String.eqb_eq in E. }
  split.
  { intros id' Hne. unfold getProduct. rewrite Hdb'.
    rewrite product_find_save_other; [done|]. simpl. congruence. }
  unfold deleteProduct. rewrite Hvalid, Hfind'. simpl. rewrite discontinue_twice.
  f_equal. rewrite Hdb'. by apply product_save_twice.
Qed.

(** Once a product is soft-deleted, a booking of it is refused, whatever
    else the request holds, and no booking is stored; a request with all its
    required fields is told that the product is not available. *)
Theorem discontinued_product_is_not_bookable (user : Caller) (body : gmap string jsval)
    (newId : string) (now : Z) (products : list Product) (bookings : list Bookings.Booking)
    (pid : string) (p : Product) :
  isValidObjectId pid = true ->
  findById pid products = Some p ->
  get body "productId" = JStr pid ->
  let answer :=
    Bookings.createBooking user body newId now (snd (deleteProduct pid products)) bookings in
  (answer = (Fail 400 "Please provide all required fields", bookings)
   \/ answer = (Fail 400 "Product is not available for booking", bookings))
  /\ (truthy (get body "customerName") = true -> truthy (get body "customerPhone") = true ->
      truthy (get body "customerAddress") = true -> truthy (get body "quantity") = true ->
      truthy (get body "bookingDate") = true ->
      answer = (Fail 400 "Product is not available for booking", bookings)).
Proof.
  intros Hvalid Hfind Hpid answer.
  destruct (deleteProduct_found products pid p Hvalid Hfind) as [_ Hf'].
  destruct (discontinue_fields p) as [_ Hav].
  unfold answer, Bookings.createBooking. rewrite Hpid.
  unfold Bookings.castObjectId. rewrite Hvalid, Hf', Hav. simpl negb. cbv iota.
  split.
  - destruct (_ || _); [by left | by right].
  - intros -> -> -> -> ->. assert (pid <> "") as Hne by (intros ->; discriminate).
    apply String.eqb_neq in Hne. simpl truthy. by rewrite Hne.
Qed.

End ProductWrites.

Section ProductUpdates.
Import Products Catalog.

Variable rt : Runtime.

Lemma assign_keys_other (body m : gmap string jsval) (keys : list string) (key : string) :
  key ∉ keys ->
  get (foldl (fun acc k => if defined (get body k) then <[k := get body k]> acc else acc)
             m keys) key
  = get m key.
Proof.
  revert m. induction keys as [|k keys IH]; intros m Hk; simpl; [done|].
  apply not_elem_of_cons in Hk as [Hne Hk]. rewrite IH by done.
  destruct (defined (get body k)); [|done]. by apply get_insert_ne.
Qed.

Lemma assign_keys_mutable (body m : gmap string jsval) (keys : list string) (key : string) :
  key ∈ keys ->
  get (foldl (fun acc k => if defined (get body k) then <[k := get body k]> acc else acc)
             m keys) key
  = if defined (get body key) then get body key else get m key.
Proof.
  revert m. induction keys as [|k keys IH]; intros m Hk; simpl.
  - by apply elem_of_nil in Hk.
  - destruct (decide (key ∈ keys)) as [Hin|Hnot].
    + rewrite IH by done. destruct (defined (get body key)) eqn:Hd; [done|].
      destruct (defined (get body k)) eqn:Hdk; [|done].
      apply get_insert_ne. intros ->. congruence.
    + apply elem_of_cons in Hk as [->|Hk]; [|done].
      rewrite assign_keys_other by done.
      destruct (defined (get body k)); [apply get_insert_eq | done].
Qed.

Lemma parsed_removePublicIds (body : gmap string jsval) :
  get (parseSpecifications rt (parseTags rt (parseFeatures rt body))) "removePublicIds"
  = get body "removePublicIds".
Proof.
  unfold parseSpecifications, parseTags, parseFeatures.
  repeat (match goal with
          | |- context [match ?c with _ => _ end] => destruct c
          end; rewrite ?get_insert_ne by done); done.
Qed.


(** An update that removes no image appends the URL and the identifier of
    every uploaded file, in the order of the files, after those the product
    has: arrays that were aligned stay aligned. *)
Theorem updateProduct_appends_images (id : string) (body : gmap string jsval)
    (files : list File) (db db' : list Product) (p p' : Product) (code : nat) :
  findById id db = Some p ->
  truthy (get body "removePublicIds") = false ->
  Forall uploaded files ->
  updateProduct rt id body files db = (Json code p', db') ->
  images p' = (images p ++ ((fun f => js_or (path f) (secure_url f)) <$> files))%list
  /\ imagePublicIds p'
     = (imagePublicIds p ++ ((fun f => js_or (filename f) (public_id f)) <$> files))%list
  /\ (length (images p) = length (imagePublicIds p) ->
      length (images p') = length (imagePublicIds p')).
Proof.
  intros Hfind Hkeep Hup. unfold updateProduct.
  destruct (negb (isValidObjectId id)); [discriminate|]. rewrite Hfind.
  intros [= <- <- <-]. simpl.
  unfold removeImages. rewrite parsed_removePublicIds, Hkeep.
  assert (Hurls : List.filter truthy ((fun f => js_or (path f) (secure_url f)) <$> files)
                  = (fun f => js_or (path f) (secure_url f)) <$> files).
  { apply filter_truthy_all. eapply Forall_impl; [exact Hup|]. by intros f [? _]. }
  assert (Hids : List.filter truthy ((fun f => js_or (filename f) (public_id f)) <$> files)
                 = (fun f => js_or (filename f) (public_id f)) <$> files).
  { apply filter_truthy_all. eapply Forall_impl; [exact Hup|]. by intros f [_ ?]. }
  unfold addImages. destruct (Nat.eqb (length files) 0) eqn:E.
  - apply Nat.eqb_eq, nil_length_inv in E. subst files. rewrite !fmap_nil, !app_nil_r.
    by repeat split.
  - cbv zeta. cbn [images imagePublicIds]. rewrite Hurls, Hids.
    repeat split. intros Hlen. rewrite !length_app, !length_fmap. lia.
Qed.

(** A creation without a file is refused and stores nothing; one that
    succeeds stores a product that its id then answers, with the availability
    of the body or [Available], no view, no like, and the caller as creator. *)
Theorem createProduct_then_getProduct (user : Caller) (body : gmap string jsval)
    (files : list File) (newId : string) (now : Z) (db : list Product) :
  isValidObjectId newId = true ->
  Forall (fun x => _id x <> newId) db ->
  (files = [] ->
   createProduct rt user body files newId now db
   = (Fail 400 "At least one image is required", db))
  /\ forall code p db',
       createProduct rt user body files newId now db = (Json code p, db') ->
       getProduct newId db' = Json 200 p
       /\ field p "availability"
          = (if truthy (get body "availability") then get body "availability"
             else JStr "Available")
       /\ views p = 0%Z /\ likes p = 0%Z /\ createdBy p = caller_id user
       /\ files <> [].
Proof.
  intros Hvalid Hfresh. split; [by intros ->|].
  intros code p db'. unfold createProduct.
  destruct files as [|f files]; [discriminate|]. simpl Nat.eqb. cbv iota.
  destruct (match _ with JStr s => JSON_parse rt s | _ => _ end); [|discriminate].
  intros [= <- <- <-]. split.
  { unfold getProduct. rewrite Hvalid. simpl negb. cbv iota.
    by rewrite product_find_app_fresh. }
  repeat split; done.
Qed.

End ProductUpdates.

Section ProductCounters.
Import Products Catalog.

Lemma incrementView_step (id : string) (db : list Product) (p : Product) :
  isValidObjectId id = true -> findById id db = Some p ->
  incrementView id db = (Json 200 (views p + 1)%Z, save (incrementViews p) db)
  /\ findById id (save (incrementViews p) db) = Some (incrementViews p).
Proof.
  intros Hvalid Hfind. unfold incrementView. rewrite Hvalid, Hfind. split; [done|].
  pose proof (product_find_id _ _ _ Hfind) as Hid.
  rewrite <- Hid. apply (product_find_save (incrementViews p) p).
  change (findById (_id p) db = Some p). by rewrite Hid.
Qed.

(** After [n] view requests on a product, one after the other, its counter
    of views has grown by [n] and nothing else of it has changed; this holds
    for an inactive product as well. *)
Theorem views_count_the_requests (id : string) (db : list Product) (p : Product) (n : nat) :
  isValidObjectId id = true ->
  findById id db = Some p ->
  exists p', findById id (Nat.iter n (fun d => snd (incrementView id d)) db) = Some p'
             /\ views p' = (views p + Z.of_nat n)%Z
             /\ likes p' = likes p /\ fields p' = fields p
             /\ images p' = images p /\ imagePublicIds p' = imagePublicIds p
             /\ fst (incrementView id (Nat.iter n (fun d => snd (incrementView id d)) db))
                = Json 200 (views p + Z.of_nat n + 1)%Z.
Proof.
  intros Hvalid Hfind. induction n as [|n (p' & Hf & Hv & Hl & Hfs & Hi & Hids & Hnext)].
  - exists p. simpl. rewrite Z.add_0_r. repeat split; try done.
    by destruct (incrementView_step id db p Hvalid Hfind) as [-> _].
  - destruct (incrementView_step id _ p' Hvalid Hf) as [Hstep Hf'].
    exists (incrementViews p'). simpl Nat.iter. rewrite Hstep. simpl snd.
    split; [exact Hf'|]. simpl. repeat split; try done; try lia.
    destruct (incrementView_step id _ _ Hvalid Hf') as [-> _]. simpl. f_equal. lia.
Qed.

End ProductCounters.

(** The laptop, deleted, is still answered by its id. *)
Lemma soft_delete_scenario :
  Catalog.getProduct Fixtures.laptop_id
    (snd (Products.deleteProduct Fixtures.laptop_id [Sample.laptop]))
  = Json 200 (Products.discontinue Sample.laptop).
Proof.
  by destruct (soft_delete_keeps_the_record [Sample.laptop] Fixtures.laptop_id Sample.laptop
                 eq_refl eq_refl) as (H & _).
Defined.

(** Alice's order, placed after the laptop is deleted, is refused. *)
Lemma discontinued_not_bookable_scenario :
  Bookings.createBooking Sample.alice Sample.order Fixtures.booking_id 200
    (snd (Products.deleteProduct Fixtures.laptop_id [Sample.laptop])) []
  = (Fail 400 "Product is not available for booking", []).
Proof.
  destruct (discontinued_product_is_not_bookable Sample.alice Sample.order
              Fixtures.booking_id 200 [Sample.laptop] [] Fixtures.laptop_id Sample.laptop
              eq_refl eq_refl eq_refl) as (_ & H).
  apply H; reflexivity.
Defined.


(** A third photo is appended to the two of the laptop. *)
Lemma updateProduct_appends_scenario :
  exists p' db',
    Products.updateProduct Sample.rt Fixtures.laptop_id ∅ [Fixtures.photo] [Sample.laptop]
    = (Json 200 p', db')
    /\ Products.images p'
       = [JStr "https://img/1.png"; JStr "https://img/2.png"; JStr "https://img/3.png"]
    /\ Products.imagePublicIds p'
       = [JStr "products/1"; JStr "products/2"; JStr "products/3"].
Proof.
  assert (exists p' db', Products.updateProduct Sample.rt Fixtures.laptop_id ∅
                           [Fixtures.photo] [Sample.laptop] = (Json 200 p', db'))
    as (p' & db' & Hu) by (eexists; eexists; vm_compute; reflexivity).
  destruct (updateProduct_appends_images Sample.rt Fixtures.laptop_id ∅ [Fixtures.photo]
              [Sample.laptop] db' Sample.laptop p' 200) as (Hi & Hp & _).
  - reflexivity.
  - vm_compute. reflexivity.
  - repeat constructor.
  - exact Hu.
  - exists p', db'. split; [exact Hu|]. by split.
Defined.

(** A second product, created with one photo, is answered by its id. *)
Lemma createProduct_then_getProduct_scenario :
  exists p db',
    Products.createProduct Sample.rt Sample.admin {["name" := JStr "Router"]}
      [Fixtures.photo] "64b000000000000000000002" 300 [Sample.laptop] = (Json 201 p, db')
    /\ Catalog.getProduct "64b000000000000000000002" db' = Json 200 p
    /\ Products.field p "availability" = JStr "Available".
Proof.
  assert (exists p db', Products.createProduct Sample.rt Sample.admin
                          {["name" := JStr "Router"]} [Fixtures.photo]
                          "64b000000000000000000002" 300 [Sample.laptop] = (Json 201 p, db'))
    as (p & db' & Hc) by (eexists; eexists; vm_compute; reflexivity).
  destruct (createProduct_then_getProduct Sample.rt Sample.admin {["name" := JStr "Router"]}
              [Fixtures.photo] "64b000000000000000000002" 300 [Sample.laptop] eq_refl)
    as [_ Hok].
  - repeat constructor. discriminate.
  - destruct (Hok 201 p db' Hc) as (Hg & Ha & _).
    exists p, db'. split; [exact Hc|]. split; [exact Hg|]. rewrite Ha. reflexivity.
Defined.

(** Three views of the laptop. *)
Lemma views_count_scenario :
  exists p', Products.findById Fixtures.laptop_id
               (Nat.iter 3 (fun d => snd (Catalog.incrementView Fixtures.laptop_id d))
                  [Sample.laptop]) = Some p'
             /\ Products.views p' = 3%Z.
Proof.
  destruct (views_count_the_requests Fixtures.laptop_id [Sample.laptop] Sample.laptop 3
              eq_refl eq_refl) as (p' & Hf & Hv & _).
  exists p'. split; [exact Hf|]. rewrite Hv. reflexivity.
Defined.

(** ** Paging through a whole listing *)

Lemma pages_concat {A : Type} (l m : nat) (S : list A) :
  length S <= m * l ->
  concat ((fun k => take l (drop (k * l) S)) <$> seq 0 m) = S.
Proof.
  revert S. induction m as [|m IH]; intros S Hlen; simpl.
  - symmetry. apply nil_length_inv. lia.
  - rewrite <- fmap_S_seq, <- list_fmap_compose.
    rewrite (list_fmap_ext _ (fun k => take l (drop (k * l) (drop l S))) (seq 0 m)).
    + rewrite IH by (rewrite length_drop; lia). apply take_drop.
    + intros i k _. simpl. rewrite drop_drop. done.
Qed.

Section WholeListing.
Import Products Catalog.

Variable rt : Runtime.
Variable drv : Driver.
Hypothesis cursor_sort_perm : forall (s : jsval) (l : list Product), cursor_sort drv s l ≡ₚ l.

(** The pages 1 to [totalPages] of a listing, put one after the other, are
    the matching products in sort order, each once: following [totalPages]
    misses nothing and repeats nothing. *)
Theorem pages_cover_the_cursor (query : gmap string jsval) (page limit : option positive)
    (db : list Product) (code : nat) (listing : Listing) :
  listProducts rt drv query page limit db = Json code listing ->
  concat (page_docs rt drv query limit db <$> seq 0 (totalPages (pagination listing)))
  = cursor rt drv query db
  /\ page_docs rt drv query limit db (totalPages (pagination listing)) = [].
Proof using cursor_sort_perm.
  intros Hl. set (l := Pos.to_nat (default 12%positive limit)).
  assert (Hdocs : forall k, page_docs rt drv query limit db k
                            = take l (drop (k * l) (cursor rt drv query db))).
  { intros k. unfold page_docs.
    destruct (listProducts_other_page rt drv query page (Some (Pos.of_succ_nat k)) limit db
                code listing Hl) as [lk Hk].
    rewrite Hk. apply listProducts_inv in Hk as (_ & Hk & _). simpl in Hk.
    rewrite SuccNat2Pos.id_succ in Hk. replace (S k - 1) with k in Hk by lia. exact Hk. }
  apply listProducts_inv in Hl as (_ & _ & Hpag). rewrite Hpag. simpl.
  fold l. rewrite <- (cursor_length rt drv cursor_sort_perm).
  assert (Hcover : length (cursor rt drv query db)
                   <= ceil_div (length (cursor rt drv query db)) l * l)
    by (apply ceil_div_le; lia).
  split.
  - rewrite (list_fmap_ext _ (fun k => take l (drop (k * l) (cursor rt drv query db)))
               (seq 0 (ceil_div (length (cursor rt drv query db)) l)))
      by (intros; apply Hdocs).
    by apply pages_concat.
  - rewrite Hdocs, drop_ge by done. apply take_nil.
Qed.

End WholeListing.

(** The two pages of ten of the fifteen products hold all fifteen, newest
    first. *)
Lemma pages_cover_scenario :
  Products.createdAt
    <$> concat (Catalog.page_docs Sample.rt Sample.drv ∅ (Some 10%positive) Sample.catalogue
                  <$> seq 0 2)
  = [15; 14; 13; 12; 11; 10; 9; 8; 7; 6; 5; 4; 3; 2; 1]%Z.
Proof.
  assert (exists listing, Products.listProducts Sample.rt Sample.drv ∅ None (Some 10%positive)
                            Sample.catalogue = Json 200 listing
                          /\ Products.totalPages (Products.pagination listing) = 2)
    as (listing & Hl & Ht) by (eexists; split; vm_compute; reflexivity).
  destruct (pages_cover_the_cursor Sample.rt Sample.drv (fun _ l => reflexivity l)
              ∅ None (Some 10%positive) Sample.catalogue 200 listing Hl) as [Hc _].
  rewrite Ht in Hc. rewrite Hc. vm_compute. reflexivity.
Defined.

(** ** The normal form of stored tags *)

Lemma lower_char_facts (c : ascii) :
  lower_char (lower_char c) = lower_char c
  /\ is_space (lower_char c) = is_space c
  /\ Ascii.eqb (lower_char c) "," = Ascii.eqb c ","
  /\ is_ascii (lower_char c) = is_ascii c.
Proof. destruct c as [[] [] [] [] [] [] [] []]; by vm_compute. Qed.

Lemma lower_twice (s : string) : lower (lower s) = lower s.
Proof.
  induction s as [|c s IH]; simpl; [done|].
  destruct (lower_char_facts c) as (-> & _). by rewrite IH.
Qed.

Lemma trimStart_lower (s : string) : trimStart (lower s) = lower (trimStart s).
Proof.
  induction s as [|c s IH]; simpl; [done|].
  destruct (lower_char_facts c) as (_ & -> & _). by destruct (is_space c).
Qed.

Lemma trimEnd_lower (s : string) : trimEnd (lower s) = lower (trimEnd s).
Proof.
  induction s as [|c s IH]; simpl; [done|].
  rewrite IH. destruct (lower_char_facts c) as (_ & Hs & _).
  destruct (trimEnd s); simpl; [|done]. rewrite Hs. by destruct (is_space c).
Qed.

Lemma comma_free_lower (s : string) : comma_free (lower s) = comma_free s.
Proof.
  induction s as [|c s IH]; simpl; [done|].
  destruct (lower_char_facts c) as (_ & _ & -> & _). by rewrite IH.
Qed.

Lemma ascii_only_lower (s : string) : ascii_only (lower s) = ascii_only s.
Proof.
  induction s as [|c s IH]; simpl; [done|].
  destruct (lower_char_facts c) as (_ & _ & _ & ->). by rewrite IH.
Qed.

Lemma trimEnd_twice (s : string) : trimEnd (trimEnd s) = trimEnd s.
Proof.
  induction s as [|c s IH]; simpl; [done|].
  destruct (trimEnd s) as [|d t] eqn:E.
  - destruct (is_space c) eqn:Hc; simpl; [done|]. by rewrite Hc.
  - change (trimEnd (String c (String d t))) with
      (match trimEnd (String d t) with
       | EmptyString => if is_space c then EmptyString else String c EmptyString
       | t' => String c t'
       end).
    by rewrite IH.
Qed.

Lemma trimStart_clean (s : string) : starts_clean (trimStart s).
Proof.
  induction s as [|c s IH]; simpl; [done|]. by destruct (is_space c) eqn:E.
Qed.

Lemma trimStart_of_clean (s : string) : starts_clean s -> trimStart s = s.
Proof. destruct s as [|c s]; simpl; [done|]. by intros ->. Qed.

Lemma trimEnd_clean (s : string) : starts_clean s -> starts_clean (trimEnd s).
Proof.
  destruct s as [|c s]; simpl; [done|]. intros Hc.
  destruct (trimEnd s); simpl; [by rewrite Hc | done].
Qed.

Lemma strip_twice (s : string) :
  trimEnd (trimStart (trimEnd (trimStart s))) = trimEnd (trimStart s).
Proof.
  rewrite (trimStart_of_clean (trimEnd (trimStart s))).
  - apply trimEnd_twice.
  - apply trimEnd_clean, trimStart_clean.
Qed.

Lemma comma_free_trimStart (s : string) : comma_free s = true -> comma_free (trimStart s) = true.
Proof.
  induction s as [|c s IH]; simpl; [done|].
  intros H. apply andb_true_iff in H as [Hc Hs].
  destruct (is_space c); [by apply IH|]. simpl. by rewrite Hc, Hs.
Qed.

Lemma comma_free_trimEnd (s : string) : comma_free s = true -> comma_free (trimEnd s) = true.
Proof.
  induction s as [|c s IH]; simpl; [done|].
  intros H. apply andb_true_iff in H as [Hc Hs]. specialize (IH Hs).
  destruct (trimEnd s); simpl.
  - destruct (is_space c); simpl; [done|]. by rewrite Hc.
  - simpl in IH. by rewrite Hc, IH.
Qed.

Lemma ascii_only_trimStart (s : string) : ascii_only s = true -> ascii_only (trimStart s) = true.
Proof.
  induction s as [|c s IH]; simpl; [done|].
  intros H. apply andb_true_iff in H as [Hc Hs].
  destruct (is_space c); [by apply IH|]. simpl. by rewrite Hc, Hs.
Qed.

Lemma ascii_only_trimEnd (s : string) : ascii_only s = true -> ascii_only (trimEnd s) = true.
Proof.
  induction s as [|c s IH]; simpl; [done|].
  intros H. apply andb_true_iff in H as [Hc Hs]. specialize (IH Hs).
  destruct (trimEnd s); simpl.
  - destruct (is_space c); simpl; [done|]. by rewrite Hc.
  - simpl in IH. by rewrite Hc, IH.
Qed.

Lemma split_comma_free (s : string) : Forall (fun x => comma_free x = true) (split_comma s).
Proof.
  induction s as [|c s IH]; simpl; [by repeat constructor|].
  destruct (Ascii.eqb c ",") eqn:E; [by constructor|].
  destruct (split_comma s) as [|w ws]; [constructor; [simpl; by rewrite E | constructor]|].
  apply Forall_cons in IH as [Hw Hws]. constructor; [|done]. simpl. by rewrite E, Hw.
Qed.

Lemma split_comma_ascii (s : string) :
  ascii_only s = true -> Forall (fun x => ascii_only x = true) (split_comma s).
Proof.
  induction s as [|c s IH]; simpl; [by repeat constructor|].
  intros H. apply andb_true_iff in H as [Hc Hs]. specialize (IH Hs).
  destruct (Ascii.eqb c ","); [by constructor|].
  destruct (split_comma s) as [|w ws]; [constructor; [simpl; by rewrite Hc | constructor]|].
  apply Forall_cons in IH as [Hw Hws]. constructor; [|done]. simpl. by rewrite Hc, Hw.
Qed.

Lemma filter_Boolean_Forall (P : string -> Prop) (xs : list string) :
  Forall P xs -> Forall P (filter_Boolean xs).
Proof.
  induction 1 as [|x xs Hx _ IH]; [constructor|].
  unfold filter_Boolean in *. simpl. destruct (negb (String.eqb x "")); [by constructor | done].
Qed.

Section TagNormalForm.
Import Products.
Variable rt : Runtime.

Lemma filter_Boolean_plain (xs : list string) :
  Forall (fun x => comma_free x = true /\ trim rt x = x) xs ->
  Forall (plain rt) (filter_Boolean xs).
Proof.
  induction 1 as [|x xs [Hc Ht] _ IH]; simpl; [constructor|].
  unfold filter_Boolean. simpl. destruct (String.eqb x "") eqn:E; simpl; [exact IH|].
  constructor; [|exact IH]. apply String.eqb_neq in E. by repeat split.
Qed.

(** A piece of ASCII characters, trimmed and lowercased, is left as it is by
    another trimming and another lowercasing. *)
Lemma tag_piece_ready (x : string) :
  ascii_only x = true -> comma_free x = true ->
  let y := toLowerCase rt (trim rt x) in
  comma_free y = true /\ trim rt y = y /\ toLowerCase rt y = y.
Proof.
  intros Ha Hc. unfold toLowerCase, trim. rewrite Ha.
  assert (Ha' : ascii_only (trimEnd (trimStart x)) = true)
    by by apply ascii_only_trimEnd, ascii_only_trimStart.
  rewrite Ha'. cbv zeta. rewrite ascii_only_lower, Ha'. split; [|split].
  - rewrite comma_free_lower. by apply comma_free_trimEnd, comma_free_trimStart.
  - by rewrite trimStart_lower, trimEnd_lower, strip_twice.
  - apply lower_twice.
Qed.

Lemma tag_pieces_ready (s : string) :
  ascii_only s = true ->
  Forall (fun x => comma_free x = true /\ trim rt x = x /\ toLowerCase rt x = x)
         ((fun x => toLowerCase rt (trim rt x)) <$> split_comma s).
Proof.
  intros Ha. apply Forall_fmap.
  pose proof (split_comma_free s) as Hc. pose proof (split_comma_ascii s Ha) as Hs.
  induction Hc as [|x xs Hx _ IH]; [constructor|].
  apply Forall_cons in Hs as [Hax Hs]. constructor; [|by apply IH].
  by apply tag_piece_ready.
Qed.

(** What a delimited string of ASCII characters is stored as, as tags, is a
    list of tags that are not empty, have no comma, no white space at their
    ends and no upper case; sent again, as a list or joined into one string,
    that list is stored unchanged by a creation and by an update. *)
Theorem stored_tags_are_normal (s : string) :
  ascii_only s = true ->
  exists xs,
    splitTags rt s = strings xs
    /\ Forall (plain rt) xs /\ Forall (fun x => toLowerCase rt x = x) xs
    /\ createTags rt (JStr (join "," xs)) = strings xs
    /\ createTags rt (strings xs) = strings xs
    /\ updateTags rt (JStr (join "," xs)) = strings xs
    /\ updateTags rt (strings xs) = strings xs.
Proof.
  intros Ha.
  set (xs := filter_Boolean ((fun x => toLowerCase rt (trim rt x)) <$> split_comma s)).
  assert (Hplain : Forall (plain rt) xs).
  { apply filter_Boolean_plain. eapply Forall_impl; [by apply tag_pieces_ready|].
    by intros x (? & ? & _). }
  assert (Hlow : Forall (fun x => toLowerCase rt x = x) xs).
  { apply filter_Boolean_Forall. eapply Forall_impl; [by apply tag_pieces_ready|].
    by intros x (_ & _ & ?). }
  exists xs. split; [done|]. split; [done|]. split; [done|].
  assert (Hsplit : splitTags rt (join "," xs) = strings xs) by by apply splitTags_plain.
  by repeat split.
Qed.

End TagNormalForm.

Lemma strings_inj (xs ys : list string) : strings xs = strings ys -> xs = ys.
Proof.
  intros [= H]. revert ys H.
  induction xs as [|x xs IH]; intros [|y ys]; simpl; try done.
  intros [= -> H]. f_equal. by apply IH.
Qed.

(** Tags typed with capitals, spaces and an empty piece. *)
Lemma stored_tags_scenario :
  Products.splitTags Sample.rt " Gaming, LAPTOP ,,ssd" = strings ["gaming"; "laptop"; "ssd"]
  /\ Products.updateTags Sample.rt (JStr "gaming,laptop,ssd")
     = strings ["gaming"; "laptop"; "ssd"].
Proof.
  destruct (stored_tags_are_normal Sample.rt " Gaming, LAPTOP ,,ssd" eq_refl)
    as (xs & Hs & _ & _ & _ & _ & Hu & _).
  assert (Hxs : xs = ["gaming"; "laptop"; "ssd"]).
  { assert (H : strings ["gaming"; "laptop"; "ssd"] = strings xs)
      by (rewrite <- Hs; vm_compute; reflexivity).
    symmetry. by apply strings_inj. }
  subst xs. split; [exact Hs | exact Hu].
Defined.

(** ** Accounts: what the directory shows and what a request may write *)

Section Accounts.
Import Users Auth.

Lemma user_find_In (id : string) (db : list User) (u : User) :
  findById id db = Some u -> u ∈ db.
Proof.
  unfold findById. intros H. apply List.find_some in H as [H _]. by apply list_elem_of_In.
Qed.

Lemma user_find_save (u old : User) (db : list User) :
  findById (_id u) db = Some old -> findById (_id u) (save u db) = Some u.
Proof.
  unfold findById, save. induction db as [|x db IH]; simpl; [discriminate|].
  destruct (String.eqb (_id x) (_id u)) eqn:E; simpl.
  - intros _. by rewrite String.eqb_refl.
  - rewrite E. auto.
Qed.

Lemma user_find_save_other (id : string) (u : User) (db : list User) :
  _id u <> id -> findById id (save u db) = findById id db.
Proof.
  intros Hne. unfold findById, save. induction db as [|x db IH]; simpl; [done|].
  destruct (String.eqb (_id x) (_id u)) eqn:E; simpl.
  - apply String.eqb_eq in E.
    assert (String.eqb (_id u) id = false) as -> by by apply String.eqb_neq.
    assert (String.eqb (_id x) id = false) as -> by (apply String.eqb_neq; congruence).
    exact IH.
  - destruct (String.eqb (_id x) id); auto.
Qed.

Lemma user_save_twice (u v : User) (db : list User) :
  _id v = _id u -> save v (save u db) = save v db.
Proof.
  intros Hid. unfold save. rewrite <- list_fmap_compose. apply list_fmap_ext.
  intros i x _. simpl. rewrite Hid.
  destruct (String.eqb (_id x) (_id u)) eqn:E; [by rewrite String.eqb_refl | by rewrite E].
Qed.

Lemma without_password_hides (u : User) : field (without_password u) "password" = JUndefined.
Proof. unfold field, get, without_password. simpl. by rewrite lookup_delete_eq. Qed.

Lemma without_password_keeps (u : User) (key : string) :
  key <> "password" -> field (without_password u) key = field u key.
Proof. intros H. unfold field, get, without_password. simpl. by rewrite lookup_delete_ne. Qed.

(** No answer of the directory, of an update by the admin or of a profile
    update holds the password of a user, hashed or not. *)
Theorem answers_hold_no_password (rt : Runtime) :
  (forall errors query page limit db code listing,
      getUsers rt errors query page limit db = Json code listing ->
      forall u, u ∈ users listing -> field u "password" = JUndefined)
  /\ (forall id db code u,
      getUserById id db = Json code u -> field u "password" = JUndefined)
  /\ (forall user id errors body db code u db',
      updateUser user id errors body db = (Json code u, db') ->
      field u "password" = JUndefined)
  /\ (forall user errors body db code u db',
      updateProfile user errors body db = (Json code (Some u), db') ->
      field u "password" = JUndefined).
Proof.
  split; [|split; [|split]].
  - intros errors query page limit db code listing. unfold getUsers.
    destruct (negb (Nat.eqb (length errors) 0)); [discriminate|].
    intros [= <- <-] u Hu. simpl in Hu.
    apply list_elem_of_fmap in Hu as (x & -> & _). apply without_password_hides.
  - intros id db code u. unfold getUserById.
    destruct (negb (isValidObjectId id)); [discriminate|].
    destruct (findById (ObjectId id) db); [|discriminate].
    intros [= <- <-]. apply without_password_hides.
  - intros user id errors body db code u db'. unfold updateUser.
    destruct (negb (Nat.eqb (length errors) 0)); [discriminate|].
    destruct (negb (isValidObjectId id)); [discriminate|].
    destruct (findById (ObjectId id) db); [|discriminate].
    destruct (_ && _); [discriminate|].
    destruct (if _ || _ then _ else _); [discriminate|].
    destruct (violates_unique _ _); [discriminate|].
    intros [= <- <- <-]. apply without_password_hides.
  - intros user errors body db code u db'. unfold updateProfile.
    destruct (negb (Nat.eqb (length errors) 0)); [discriminate|].
    destruct (if truthy _ then _ else _); [discriminate|].
    destruct (findById (caller_id user) db); [|discriminate].
    destruct (violates_unique _ _); [discriminate|].
    intros [= <- <- <-]. apply without_password_hides.
Qed.

Lemma deactivate_fields (u : User) (key : string) :
  field (deactivate u) "isActive" = JBool false
  /\ (key <> "isActive" -> field (deactivate u) key = field u key).
Proof.
  unfold field, get, deactivate. simpl. split; [by rewrite lookup_insert_eq|].
  intros H. by rewrite lookup_insert_ne.
Qed.

Lemma deactivate_twice (u : User) : deactivate (deactivate u) = deactivate u.
Proof. unfold deactivate. simpl. f_equal. apply insert_insert_eq. Qed.

(** The deletion of a user removes nothing: the account is still stored
    under its id, inactive, with its name, e-mail, phone, password and role as
    they were; the other accounts are untouched; and deleting it again
    succeeds and changes nothing. *)
Theorem deleteUser_only_deactivates (user : Caller) (id : string) (db : list User)
    (target : User) :
  isValidObjectId id = true ->
  findById (ObjectId id) db = Some target ->
  caller_id user <> id ->
  let db' := snd (deleteUser user id db) in
  findById (ObjectId id) db' = Some (deactivate target)
  /\ field (deactivate target) "isActive" = JBool false
  /\ (forall key, key <> "isActive" -> field (deactivate target) key = field target key)
  /\ _id <$> db' = _id <$> db
  /\ (forall id', id' <> ObjectId id -> findById id' db' = findById id' db)
  /\ deleteUser user id db' = (Json 200 tt, db').
Proof.
  intros Hvalid Hfind Hne db'. apply String.eqb_neq in Hne.
  pose proof (user_find_id _ _ _ Hfind) as Hid.
  assert (Hdb' : db' = save (deactivate target) db)
    by (unfold db', deleteUser; by rewrite Hvalid, Hfind, Hne).
  assert (Hfind' : findById (ObjectId id) db' = Some (deactivate target)).
  { rewrite Hdb', <- Hid. apply (user_find_save (deactivate target) target).
    change (findById (_id target) db = Some target). by rewrite Hid. }
  split; [done|]. split; [apply (deactivate_fields target "")|].
  split; [intros key; apply deactivate_fields|]. split.
  { rewrite Hdb'. unfold save. rewrite <- list_fmap_compose. apply list_fmap_ext.
    intros i x _. simpl. destruct (String.eqb (_id x) (_id target)) eqn:E; [|done].
    by apply String.eqb_eq in E. }
  split.
  { intros id' Hne'. rewrite Hdb'. apply user_find_save_other. simpl. congruence. }
  unfold deleteUser. rewrite Hvalid, Hfind', Hne. simpl. rewrite deactivate_twice.
  f_equal. rewrite Hdb'. by apply user_save_twice.
Qed.

End Accounts.

Section Profiles.
Import Users Auth.

Lemma truthy_defined (v : jsval) : truthy v = true -> defined v = true.
Proof. by destruct v. Qed.

Lemma profile_update_get (body : gmap string jsval) (key : string) :
  get (profile_update body) key
  = if String.eqb key "phone" then (if truthy (get body "phone") then get body "phone"
                                    else JUndefined)
    else if String.eqb key "name" then (if truthy (get body "name") then get body "name"
                                        else JUndefined)
    else JUndefined.
Proof.
  unfold profile_update, get.
  destruct (String.eqb key "phone") eqn:Ep; [apply String.eqb_eq in Ep as ->|];
    [|destruct (String.eqb key "name") eqn:En; [apply String.eqb_eq in En as ->|]].
  - destruct (truthy (default JUndefined (body !! "phone"))).
    + by rewrite lookup_insert_eq.
    + destruct (truthy (default JUndefined (body !! "name")));
        [by rewrite lookup_insert_ne|done].
  - destruct (truthy (default JUndefined (body !! "phone")));
      [rewrite lookup_insert_ne by done|];
      (destruct (truthy (default JUndefined (body !! "name")));
       [by rewrite lookup_insert_eq | done]).
  - apply String.eqb_neq in Ep, En.
    destruct (truthy (default JUndefined (body !! "phone")));
      [rewrite lookup_insert_ne by done|];
      (destruct (truthy (default JUndefined (body !! "name")));
       [by rewrite lookup_insert_ne | done]).
Qed.

Lemma apply_update_field (updateData : gmap string jsval) (u : User) (key : string) :
  field (apply_update updateData u) key
  = if bool_decide (key ∈ schema_paths) && defined (get (set_part updateData) key)
    then get (set_part updateData) key else field u key.
Proof.
  unfold field, apply_update. cbv zeta. cbn [fields].
  destruct (bool_decide (key ∈ schema_paths)) eqn:E; cbn [andb].
  - apply bool_decide_eq_true in E.
    by rewrite (assign_keys_mutable (set_part updateData) (fields u) schema_paths key E).
  - apply bool_decide_eq_false in E.
    by rewrite (assign_keys_other (set_part updateData) (fields u) schema_paths key E).
Qed.

(** A profile update holds no operator. *)
Lemma profile_update_plain (body : gmap string jsval) :
  set_part (profile_update body) = profile_update body.
Proof. unfold set_part. by rewrite profile_update_get. Qed.

(** A profile update writes the name and the phone that its body gives and
    nothing else of the account: an e-mail, a role, a password or an active
    flag in the body is ignored, and no other account is touched. *)
Theorem updateProfile_writes_name_and_phone_only (user : Caller) (errors : list string)
    (body : gmap string jsval) (db db' : list User) (target shown : User) (code : nat) :
  findById (caller_id user) db = Some target ->
  updateProfile user errors body db = (Json code (Some shown), db') ->
  exists stored,
    findById (caller_id user) db' = Some stored
    /\ shown = without_password stored
    /\ field stored "name"
       = (if truthy (get body "name") then get body "name" else field target "name")
    /\ field stored "phone"
       = (if truthy (get body "phone") then get body "phone" else field target "phone")
    /\ (forall key, key <> "name" -> key <> "phone" -> field stored key = field target key)
    /\ forall id', id' <> caller_id user -> findById id' db' = findById id' db.
Proof.
  intros Hfind. unfold updateProfile.
  destruct (negb (Nat.eqb (length errors) 0)); [discriminate|].
  destruct (if truthy _ then _ else _); [discriminate|]. rewrite Hfind.
  destruct (violates_unique _ _); [discriminate|].
  intros [= <- <- <-]. set (stored := apply_update (profile_update body) target).
  pose proof (user_find_id _ _ _ Hfind) as Hid.
  exists stored. split.
  { rewrite <- Hid. apply (user_find_save stored target).
    change (findById (_id target) db = Some target). by rewrite Hid. }
  split; [done|]. unfold stored.
  rewrite !apply_update_field, !profile_update_plain, !profile_update_get.
  split; [|split; [|split]].
  - simpl. destruct (truthy (get body "name")) eqn:E; [|done].
    by rewrite (truthy_defined _ E).
  - simpl. destruct (truthy (get body "phone")) eqn:E; [|done].
    by rewrite (truthy_defined _ E).
  - intros key Hn Hp. rewrite apply_update_field, profile_update_plain, profile_update_get.
    apply String.eqb_neq in Hn, Hp. rewrite Hn, Hp. simpl. by rewrite andb_false_r.
  - intros id' Hne. apply user_find_save_other. simpl. congruence.
Qed.

(** A registration whose e-mail or whose phone some user already holds is
    refused, whichever of the two it is, and stores nothing. *)
Theorem register_refuses_a_taken_email_or_phone (m : Model) (body : gmap string jsval)
    (newId : string) (now : Z) (today : jsval) (db : list User) (holder : User) :
  holder ∈ db ->
  strict_eq (field holder "email") (get body "email") = true
  \/ strict_eq (field holder "phone") (get body "phone") = true ->
  register m [] body newId now today db = (Fail 400 "Email already registered", db)
  \/ register m [] body newId now today db = (Fail 400 "Phone number already registered", db).
Proof.
  intros Hin Hheld. unfold register. simpl.
  destruct (List.find _ db) as [existing|] eqn:E.
  - destruct (strict_eq (field existing "email") (get body "email")); [by left | by right].
  - exfalso. apply List.find_none with (x := holder) in E; [|by apply list_elem_of_In].
    apply orb_false_iff in E as [He Hp]. destruct Hheld; congruence.
Qed.

End Profiles.

(** ** Logging in *)

Section Logins.
Import Users Auth.

Variable m : Model.

Lemma find_the_one (P : User -> bool) (db : list User) (t : User) :
  t ∈ db -> P t = true -> (forall u, u ∈ db -> P u = true -> u = t) ->
  List.find P db = Some t.
Proof.
  intros Hin Ht Huniq. destruct (List.find P db) as [x|] eqn:E.
  - apply List.find_some in E as [Hx HP]. f_equal. apply Huniq; [by apply list_elem_of_In|done].
  - apply List.find_none with (x := t) in E; [congruence | by apply list_elem_of_In].
Qed.

Lemma user_save_elem (u old : User) (db : list User) :
  findById (_id u) db = Some old -> u ∈ save u db.
Proof.
  intros H. unfold findById in H. apply List.find_some in H as [Hin Hid].
  unfold save. apply list_elem_of_fmap. exists old. rewrite Hid. split; [done|].
  by apply list_elem_of_In.
Qed.

Lemma user_save_In (u x : User) (db : list User) :
  x ∈ save u db -> x = u \/ (x ∈ db /\ _id x <> _id u).
Proof.
  unfold save. intros Hx. apply list_elem_of_fmap in Hx as (y & -> & Hy).
  destruct (String.eqb (_id y) (_id u)) eqn:E; [by left|].
  apply String.eqb_neq in E. by right.
Qed.

(** The lookup of a login, after the document of the one user holding the
    e-mail has been saved anew. *)
Lemma lookup_after_save (admin_only : bool) (db : list User) (id e : string)
    (target t' : User) :
  findById id db = Some target -> _id t' = id ->
  field t' "email" = JStr e ->
  (if admin_only then strict_eq (field t' "role") (JStr "admin") else true) = true ->
  (forall u, u ∈ db -> field u "email" = JStr e -> _id u = id) ->
  List.find (fun u => strict_eq (field u "email") (JStr e)
                      && (if admin_only then strict_eq (field u "role") (JStr "admin")
                          else true)) (save t' db)
  = Some t'.
Proof.
  intros Hfind Hid He Hrole Huniq. apply find_the_one.
  - apply (user_save_elem t' target). by rewrite Hid.
  - rewrite He, Hrole. simpl. by rewrite String.eqb_refl.
  - intros u Hu HP. apply andb_true_iff in HP as [HP _]. apply strict_eq_JStr in HP.
    apply user_save_In in Hu as [->|[Hu Hne]]; [done|].
    exfalso. apply Hne. rewrite Hid. by apply Huniq.
Qed.

(** A login, of either kind, succeeds only for a stored user with the
    e-mail of the request who is active and whose stored password the model
    matches with the password of the request, and, for the admin login, whose
    role is [admin]; it then writes the time of the login into that account
    and nothing else. A login that fails writes nothing. *)
Theorem login_is_sound (admin_only : bool) (invalid deactivated : string)
    (errors : list string) (body : gmap string jsval) (today : jsval) (db db' : list User) :
  (forall code session,
      login_with m admin_only invalid deactivated errors body today db
      = (Json code session, db') ->
      exists u,
        u ∈ db
        /\ strict_eq (field u "email") (get body "email") = true
        /\ truthy (field u "isActive") = true
        /\ comparePassword m (field u "password") (get body "password") = true
        /\ (admin_only = true -> field u "role" = JStr "admin")
        /\ id (user session) = _id u
        /\ token session = sign m (_id u) today
        /\ db' = save (set_lastLogin today u) db
        /\ forall key, key <> "lastLogin" -> field (set_lastLogin today u) key = field u key)
  /\ (forall code message,
      login_with m admin_only invalid deactivated errors body today db
      = (Fail code message, db') ->
      db' = db).
Proof.
  unfold login_with. split.
  - intros code session.
    destruct (negb (Nat.eqb (length errors) 0)); [discriminate|].
    destruct (List.find _ db) as [u|] eqn:E; [|discriminate].
    destruct (negb (truthy (field u "isActive"))) eqn:Ha; [discriminate|].
    destruct (negb (comparePassword m _ _)) eqn:Hp; [discriminate|].
    intros [= <- <- <-]. apply List.find_some in E as [Hin HP].
    apply andb_true_iff in HP as [He Hr]. apply negb_false_iff in Ha, Hp.
    exists u. repeat split; try done.
    + by apply list_elem_of_In.
    + intros ->. by apply strict_eq_JStr.
    + intros key Hkey. unfold field, get, set_lastLogin. simpl.
      by rewrite lookup_insert_ne.
  - intros code message.
    destruct (negb (Nat.eqb (length errors) 0)); [by intros [= _ _ <-]|].
    destruct (List.find _ db) as [u|]; [|by intros [= _ _ <-]].
    destruct (negb (truthy (field u "isActive"))); [by intros [= _ _ <-]|].
    destruct (negb (comparePassword m _ _)); [by intros [= _ _ <-]|discriminate].
Qed.

Lemma login_found (body : gmap string jsval) (today : jsval) (db : list User) (e : string)
    (t : User) :
  get body "email" = JStr e ->
  List.find (fun u => strict_eq (field u "email") (JStr e) && true) db = Some t ->
  login m [] body today db
  = if negb (truthy (field t "isActive")) then (Fail 401 "Account is deactivated", db)
    else if negb (comparePassword m (field t "password") (get body "password"))
    then (Fail 401 "Invalid credentials", db)
    else (Json 200 {| token := sign m (_id t) today;
                      user := summary (set_lastLogin today t) |},
          save (set_lastLogin today t) db).
Proof. intros He Hf. unfold login, login_with. simpl. by rewrite He, Hf. Qed.

(** A user who registers can log in with the same e-mail and password,
    whenever the model matches a password with its own hash; the account was
    stored with the hash, and the token of the login is signed for its id. *)
Theorem register_then_login (body : gmap string jsval) (newId e : string) (now : Z)
    (today today' : jsval) (db db' : list User) (code : nat) (session : Session) :
  get body "email" = JStr e ->
  comparePassword m (hash m (get body "password")) (get body "password") = true ->
  register m [] body newId now today db = (Json code session, db') ->
  exists stored session',
    stored ∈ db'
    /\ _id stored = newId
    /\ field stored "password" = hash m (get body "password")
    /\ field stored "email" = JStr e
    /\ login m [] body today' db'
       = (Json 200 session', save (set_lastLogin today' stored) db')
    /\ id (user session') = newId
    /\ token session' = sign m newId today'.
Proof.
  intros He Hlaw. unfold register. simpl.
  destruct (List.find _ db) as [|] eqn:E; [discriminate|].
  intros [= <- <- <-]. set (stored := User_create m newId now _ _ _ _).
  assert (Hemail : field stored "email" = JStr e) by (rewrite <- He; reflexivity).
  assert (Hpw : field stored "password" = hash m (get body "password")) by reflexivity.
  assert (Hact : field stored "isActive" = JBool true) by reflexivity.
  assert (Hlookup : List.find (fun u => strict_eq (field u "email") (JStr e) && true)
                              (db ++ [stored]) = Some stored).
  { apply find_the_one.
    - apply elem_of_app. right. by apply list_elem_of_singleton.
    - rewrite Hemail. simpl. by rewrite String.eqb_refl.
    - intros u Hu HP. apply elem_of_app in Hu as [Hu|Hu].
      + exfalso. apply List.find_none with (x := u) in E; [|by apply list_elem_of_In].
        apply orb_false_iff in E as [E _]. rewrite He in E.
        apply andb_true_iff in HP as [HP _]. congruence.
      + by apply list_elem_of_singleton in Hu. }
  exists stored. eexists. split.
  { apply elem_of_app. right. by apply list_elem_of_singleton. }
  split; [done|]. split; [done|]. split; [done|].
  rewrite (login_found body today' _ e stored He Hlookup), Hact, Hpw, Hlaw. simpl.
  by repeat split.
Qed.

End Logins.

Section LoginAfterWrites.
Import Users Auth.

Variable m : Model.

(** Once an admin has deleted an account, a login with its e-mail is
    refused as deactivated, whatever the password. *)
Theorem deactivated_user_cannot_log_in (admin : Caller) (id e : string)
    (body : gmap string jsval) (today : jsval) (db : list User) (target : User) :
  isValidObjectId id = true ->
  findById (ObjectId id) db = Some target ->
  caller_id admin <> id ->
  get body "email" = JStr e ->
  field target "email" = JStr e ->
  (forall u, u ∈ db -> field u "email" = JStr e -> _id u = ObjectId id) ->
  login m [] body today (snd (deleteUser admin id db))
  = (Fail 401 "Account is deactivated", snd (deleteUser admin id db)).
Proof.
  intros Hvalid Hfind Hne He Hemail Huniq. apply String.eqb_neq in Hne.
  assert (Hdb' : snd (deleteUser admin id db) = save (deactivate target) db)
    by (unfold deleteUser; by rewrite Hvalid, Hfind, Hne).
  rewrite Hdb'.
  destruct (deactivate_fields target "email") as [Hoff Hkeep].
  assert (Hlookup : List.find (fun u => strict_eq (field u "email") (JStr e) && true)
                              (save (deactivate target) db) = Some (deactivate target)).
  { apply (lookup_after_save false db (ObjectId id) e target); try done.
    - exact (user_find_id _ _ _ Hfind).
    - by rewrite Hkeep. }
  rewrite (login_found m body today _ e _ He Hlookup), Hoff. done.
Qed.

(** A change of password is refused, and writes nothing, when the current
    password does not match; when it matches, the hash of the new password is
    stored, the rest of the account stays, and a login with the new password
    succeeds, whenever the model matches a password with its own hash. *)
Theorem changePassword_then_login (caller : Caller) (body creds : gmap string jsval)
    (today : jsval) (db : list User) (target : User) (e : string) :
  isValidObjectId (caller_id caller) = true ->
  findById (caller_id caller) db = Some target ->
  (comparePassword m (field target "password") (get body "currentPassword") = false ->
   changePassword m caller [] body db = (Fail 400 "Current password is incorrect", db))
  /\ (comparePassword m (field target "password") (get body "currentPassword") = true ->
      let stored := set_password m (get body "newPassword") target in
      changePassword m caller [] body db = (Json 200 tt, save stored db)
      /\ findById (caller_id caller) (save stored db) = Some stored
      /\ field stored "password" = hash m (get body "newPassword")
      /\ (forall key, key <> "password" -> field stored key = field target key)
      /\ (field target "email" = JStr e ->
          (forall u, u ∈ db -> field u "email" = JStr e -> _id u = caller_id caller) ->
          truthy (field target "isActive") = true ->
          get creds "email" = JStr e ->
          get creds "password" = get body "newPassword" ->
          comparePassword m (hash m (get body "newPassword")) (get body "newPassword") = true ->
          exists session,
            login m [] creds today (save stored db)
            = (Json 200 session, save (set_lastLogin today stored) (save stored db))
            /\ id (user session) = caller_id caller)).
Proof.
  intros Hvalid Hfind. pose proof (user_find_id _ _ _ Hfind) as Hid.
  split; intros Hcur; unfold changePassword; simpl; rewrite Hvalid, Hfind, Hcur; simpl;
    [done|].
  set (stored := set_password m (get body "newPassword") target).
  assert (Hpw : field stored "password" = hash m (get body "newPassword"))
    by (unfold field, get, stored, set_password; simpl; by rewrite lookup_insert_eq).
  assert (Hkeep : forall key, key <> "password" -> field stored key = field target key)
    by (intros key Hk; unfold field, get, stored, set_password; simpl;
        by rewrite lookup_insert_ne).
  split; [done|]. split.
  { rewrite <- Hid. apply (user_find_save stored target).
    change (findById (_id target) db = Some target). by rewrite Hid. }
  split; [done|]. split; [done|].
  intros Hemail Huniq Hact He Hp Hlaw.
  assert (Hlookup : List.find (fun u => strict_eq (field u "email") (JStr e) && true)
                              (save stored db) = Some stored).
  { apply (lookup_after_save false db (caller_id caller) e target); try done.
    by rewrite Hkeep. }
  rewrite (login_found m creds today _ e _ He Hlookup).
  rewrite (Hkeep "isActive") by done. rewrite Hact, Hpw, Hp, Hlaw. simpl.
  eexists. split; [reflexivity|]. done.
Qed.

End LoginAfterWrites.

(** ** Scenarios on the directory *)

Lemma directory_emails (e id : string) (t : Users.User) :
  t ∈ Sample.directory -> Users.field t "email" = JStr e -> Users._id t = id ->
  forall u, u ∈ Sample.directory -> Users.field u "email" = JStr e -> Users._id u = id.
Proof.
  intros Ht He Hid u Hu Hue. unfold Sample.directory in Ht, Hu.
  repeat (apply elem_of_cons in Ht as [->|Ht]); [| | |by apply not_elem_of_nil in Ht];
    (repeat (apply elem_of_cons in Hu as [->|Hu]); [| | |by apply not_elem_of_nil in Hu]);
    try exact Hid; exfalso; rewrite <- He in Hue; vm_compute in Hue; discriminate Hue.
Qed.

(** The admin deletes Alice, naming her id with a digit in upper case: her
    account is there, inactive, under her name. *)
Lemma deleteUser_scenario :
  Users.findById "64a000000000000000000002"
    (snd (Users.deleteUser Sample.admin "64A000000000000000000002" Sample.directory))
  = Some (Users.deactivate Sample.alice_doc)
  /\ Users.field (Users.deactivate Sample.alice_doc) "name" = JStr "Alice".
Proof.
  destruct (deleteUser_only_deactivates Sample.admin "64A000000000000000000002"
              Sample.directory Sample.alice_doc) as (Hf & _ & Hk & _).
  - vm_compute. reflexivity.
  - vm_compute. reflexivity.
  - vm_compute. discriminate.
  - split; [exact Hf|]. rewrite Hk; [vm_compute; reflexivity | discriminate].
Defined.

(** Alice renames herself and asks for the admin role: the name is written,
    the role is not. *)
Lemma updateProfile_scenario :
  exists shown db',
    Auth.updateProfile Sample.alice [] Fixtures.profile Sample.directory
    = (Json 200 (Some shown), db')
    /\ exists stored,
         Users.findById "64a000000000000000000002" db' = Some stored
         /\ Users.field stored "name" = JStr "Alice B"
         /\ Users.field stored "role" = JStr "user"
         /\ Users.field stored "password" = JStr "$2a$10$aliceHash".
Proof.
  assert (exists shown db', Auth.updateProfile Sample.alice [] Fixtures.profile
                              Sample.directory = (Json 200 (Some shown), db'))
    as (shown & db' & Hu) by (eexists; eexists; vm_compute; reflexivity).
  destruct (updateProfile_writes_name_and_phone_only Sample.alice [] Fixtures.profile
              Sample.directory db' Sample.alice_doc shown 200)
    as (stored & Hf & _ & Hn & _ & Hk & _).
  - vm_compute. reflexivity.
  - exact Hu.
  - exists shown, db'. split; [exact Hu|]. exists stored. split; [exact Hf|]. split.
    + rewrite Hn. vm_compute. reflexivity.
    + split; (rewrite Hk; [vm_compute; reflexivity | discriminate | discriminate]).
Defined.

(** A registration under Alice's email is refused. *)
Lemma register_refuses_scenario :
  Auth.register Fixtures.model [] (<["email" := JStr "alice@shop.in"]> Fixtures.signup)
    "64a000000000000000000004" 40 (JStr "2025-01-01") Sample.directory
  = (Fail 400 "Email already registered", Sample.directory)
  \/ Auth.register Fixtures.model [] (<["email" := JStr "alice@shop.in"]> Fixtures.signup)
       "64a000000000000000000004" 40 (JStr "2025-01-01") Sample.directory
     = (Fail 400 "Phone number already registered", Sample.directory).
Proof.
  apply (register_refuses_a_taken_email_or_phone Fixtures.model
           (<["email" := JStr "alice@shop.in"]> Fixtures.signup)
           "64a000000000000000000004" 40 (JStr "2025-01-01") Sample.directory
           Sample.alice_doc).
  - unfold Sample.directory. apply elem_of_cons. right. apply elem_of_cons. by left.
  - left. vm_compute. reflexivity.
Defined.

(** Dev registers and logs in. *)
Lemma register_then_login_scenario :
  exists session db' session',
    Auth.register Fixtures.model [] Fixtures.signup "64a000000000000000000004" 40
      (JStr "2025-01-01") Sample.directory = (Json 201 session, db')
    /\ fst (Auth.login Fixtures.model [] Fixtures.signup (JStr "2025-01-02") db')
       = Json 200 session'
    /\ Auth.token session' = "token.64a000000000000000000004".
Proof.
  assert (exists session db',
             Auth.register Fixtures.model [] Fixtures.signup "64a000000000000000000004" 40
               (JStr "2025-01-01") Sample.directory = (Json 201 session, db'))
    as (session & db' & Hr) by (eexists; eexists; vm_compute; reflexivity).
  destruct (register_then_login Fixtures.model Fixtures.signup "64a000000000000000000004"
              "dev@shop.in" 40 (JStr "2025-01-01") (JStr "2025-01-02") Sample.directory db'
              201 session)
    as (stored & session' & _ & _ & _ & _ & Hl & _ & Ht).
  - vm_compute. reflexivity.
  - vm_compute. reflexivity.
  - exact Hr.
  - exists session, db', session'. split; [exact Hr|]. split; [by rewrite Hl|].
    rewrite Ht. reflexivity.
Defined.

(** Alice, deleted by the admin, is turned away at the login. *)
Lemma deactivated_login_scenario :
  fst (Auth.login Fixtures.model [] Fixtures.alice_login (JStr "2025-01-02")
         (snd (Users.deleteUser Sample.admin "64a000000000000000000002" Sample.directory)))
  = Fail 401 "Account is deactivated".
Proof.
  rewrite (deactivated_user_cannot_log_in Fixtures.model Sample.admin
             "64a000000000000000000002" "alice@shop.in" Fixtures.alice_login
             (JStr "2025-01-02") Sample.directory Sample.alice_doc).
  - reflexivity.
  - vm_compute. reflexivity.
  - vm_compute. reflexivity.
  - vm_compute. discriminate.
  - vm_compute. reflexivity.
  - vm_compute. reflexivity.
  - apply (directory_emails _ _ Sample.alice_doc).
    + unfold Sample.directory. apply elem_of_cons. right. apply elem_of_cons. by left.
    + vm_compute. reflexivity.
    + reflexivity.
Defined.

(** Alice changes her password and logs in with the new one. *)
Lemma changePassword_scenario :
  exists db',
    Auth.changePassword Fixtures.model Sample.alice [] Fixtures.new_password Sample.directory
    = (Json 200 tt, db')
    /\ exists session db'',
         Auth.login Fixtures.model [] Fixtures.alice_new_login (JStr "2025-01-02") db'
         = (Json 200 session, db'').
Proof.
  destruct (changePassword_then_login Fixtures.model Sample.alice Fixtures.new_password
              Fixtures.alice_new_login (JStr "2025-01-02") Sample.directory Sample.alice_doc
              "alice@shop.in") as (_ & Hok).
  - vm_compute. reflexivity.
  - vm_compute. reflexivity.
  - destruct Hok as (Hc & _ & _ & _ & Hlogin); [vm_compute; reflexivity|].
    eexists. split; [exact Hc|].
    destruct Hlogin as (session & Hl & _).
    + vm_compute. reflexivity.
    + apply (directory_emails _ _ Sample.alice_doc).
      * unfold Sample.directory. apply elem_of_cons. right. apply elem_of_cons. by left.
      * vm_compute. reflexivity.
      * reflexivity.
    + vm_compute. reflexivity.
    + vm_compute. reflexivity.
    + vm_compute. reflexivity.
    + vm_compute. reflexivity.
    + exists session. eexists. exact Hl.
Defined.

(** ** The keep-alive ping *)

Section KeepAliveWindow.
Import KeepAlive.
Local Open Scope Z_scope.

Lemma hour_of_indian_day (t : Z) :
  (5 <= ((t + 19800000) / 3600000) mod 24 /\ ((t + 19800000) / 3600000) mod 24 < 17)
  <-> indian_day t.
Proof.
  unfold indian_day.
  pose proof (Z.div_mod t 86400000 ltac:(lia)) as Hd.
  pose proof (Z.mod_pos_bound t 86400000 ltac:(lia)) as Hb.
  set (q := t / 86400000) in *. set (r := t mod 86400000) in *.
  assert (Hh : ((t + 19800000) / 3600000) mod 24 = ((r + 19800000) / 3600000) mod 24).
  { rewrite Hd. replace (86400000 * q + r + 19800000)
      with ((r + 19800000) + (24 * q) * 3600000) by lia.
    rewrite Z.div_add by lia. rewrite Z.add_mod by lia.
    rewrite (Z.mul_comm 24 q), Z.mod_mul by lia. rewrite Z.add_0_r. apply Z.mod_mod. lia. }
  rewrite Hh. clearbody r. clear Hd Hh q.
  pose proof (Z.div_mod (r + 19800000) 3600000 ltac:(lia)) as Hd.
  pose proof (Z.mod_pos_bound (r + 19800000) 3600000 ltac:(lia)) as Hb'.
  set (h := (r + 19800000) / 3600000) in *. clearbody h.
  assert (0 <= h < 30) by lia.
  destruct (Z_lt_dec h 24) as [Hlt|Hge].
  - rewrite Z.mod_small by lia. lia.
  - replace h with ((h - 24) + 1 * 24) by lia. rewrite Z.mod_add by lia.
    rewrite Z.mod_small by lia. lia.
Qed.

(** The day window is read on the clocks of the server at the shifted
    instant. It is the Indian day of the instant moved by the difference
    between the offset of the server now and at the shifted instant: where
    the two offsets agree, as they do in a zone that never changes its clocks,
    the window is open exactly from 05:00 to 17:00 in India, that is from 23:30
    to 11:30 of the universal day, whatever the zone. *)
Theorem day_window_is_indian_time (zone : Zone) (now : Z) :
  let shifted := now + zone now * 60000 + 19800000 in
  (isWithinDayWindowIST zone now = true
   <-> indian_day (now + (zone now - zone shifted) * 60000))
  /\ (zone shifted = zone now ->
      (isWithinDayWindowIST zone now = true
       <-> (84600000 <= now mod 86400000 \/ now mod 86400000 < 41400000))).
Proof.
  intros shifted.
  assert (Hgen : isWithinDayWindowIST zone now = true
                 <-> indian_day (now + (zone now - zone shifted) * 60000)).
  { unfold isWithinDayWindowIST, getHours. cbv zeta. fold shifted.
    replace (shifted - zone shifted * 60000)
      with (now + (zone now - zone shifted) * 60000 + 19800000) by (unfold shifted; lia).
    rewrite andb_true_iff, Z.leb_le, Z.ltb_lt. apply hour_of_indian_day. }
  split; [exact Hgen|]. intros Hsame. rewrite Hgen, Hsame.
  replace (now + (zone now - zone now) * 60000) with now by lia. reflexivity.
Qed.

(** The ping never stops for want of a URL: it fetches exactly when the day
    window is open, the configured URL if there is one and the health path
    under the public base, or under nothing, otherwise. *)
Theorem ping_fetches_within_the_window (rt : Runtime) (keep base : jsval) (zone : Zone)
    (now : Z) :
  (ping rt keep base zone now = None <-> isWithinDayWindowIST zone now = false)
  /\ (isWithinDayWindowIST zone now = true ->
      ping rt keep base zone now
      = Some (if truthy keep then keep
              else JStr (toString rt (if truthy base then base else JStr "")
                         ++ "/api/health")))
  /\ ping rt JUndefined JUndefined zone now
     = if isWithinDayWindowIST zone now then Some (JStr "/api/health") else None.
Proof.
  assert (Hurl : truthy (js_or keep (JStr (toString rt (js_or base (JStr "")) ++ "/api/health")))
                 = true).
  { unfold js_or at 1. destruct (truthy keep) eqn:E; [done|]. simpl.
    destruct (toString rt (js_or base (JStr ""))); done. }
  unfold ping. cbv zeta. rewrite Hurl. simpl negb. cbv iota.
  split; [|split].
  - destruct (isWithinDayWindowIST zone now); simpl; split; done.
  - intros ->. simpl. unfold js_or. done.
  - destruct (isWithinDayWindowIST zone now); done.
Qed.

End KeepAliveWindow.

(** On a server kept on Indian time the window opens at 05:00: closed at
    2025-03-08 23:29:59 universal time, open one second later. Across a change
    of clocks it does not: on the clocks of New York the window is already
    open at 23:00 of that day, 04:30 in India, because the shifted instant
    falls after the change. *)
Lemma day_window_scenario :
  KeepAlive.isWithinDayWindowIST Fixtures.kolkata 1741476599000 = false
  /\ KeepAlive.isWithinDayWindowIST Fixtures.kolkata 1741476600000 = true
  /\ KeepAlive.isWithinDayWindowIST Fixtures.new_york 1741474800000 = true
  /\ ~ KeepAlive.indian_day 1741474800000.
Proof.
  split; [|split; [|split]].
  - destruct (KeepAlive.isWithinDayWindowIST Fixtures.kolkata 1741476599000) eqn:E; [|done].
    destruct (day_window_is_indian_time Fixtures.kolkata 1741476599000) as [_ H].
    apply H in E; [|reflexivity]. vm_compute in E. exfalso.
    destruct E as [E|E]; [by apply E | discriminate E].
  - destruct (day_window_is_indian_time Fixtures.kolkata 1741476600000) as [_ H].
    apply H; [reflexivity|]. left. by vm_compute.
  - destruct (day_window_is_indian_time Fixtures.new_york 1741474800000) as [H _].
    apply H. right. by vm_compute.
  - intros [H|H]; vm_compute in H; [by apply H | discriminate H].
Defined.
